(** * Health-App: the serverless Health API (api/health.js) over the schema of
      supabase.sql

    The development embeds the request handler of the Health API together
    with the parts of its environment it depends on:

    - [JS]: the JavaScript builtins the handler calls ([parseInt],
      [parseFloat], [Number.isFinite], [String.prototype.trim], the date
      arithmetic of [Date]);
    - [PG]: the five tables of [supabase.sql] with their keys, uniqueness,
      foreign-key and type constraints, and the query shapes the handler
      sends through the Supabase client ([maybeSingle], [single], [insert],
      [update ... eq id], [upsert ... onConflict]);
    - [Api]: the handler itself, action by action, as a function from a
      request and a database to a response and a database.

    Conventions.
    - Strings are [string]s of 8-bit characters; white space is the ASCII
      white space of ECMAScript ([TAB], [LF], [VT], [FF], [CR], [SP]).
    - A JavaScript number is a binary64 value, [spec_float] at precision 53
      and [emax] 1024.  An integral finite number is carried as the [Z] it
      denotes (so [-0] and [0] are both [0], which is also how
      [JSON.stringify] sends them).
    - A query parameter or a field of the JSON body is [option string]:
      [None] is [undefined], [Some s] a string value.  A body field holding
      a JSON number stands as the text [ToString] gives for it, which is
      what [parseInt] and [parseFloat] scan ([5000] as ["5000"], [-7.5] as
      ["-7.5"]); other JSON values are not represented.
    - Account identifiers are uuids in their canonical text, compared as
      such; the identifiers of rows are drawn from a counter.
    - The handler connects with the service-role key, so the row-level
      security policies of [supabase.sql] do not apply to it; the cap the
      Supabase project puts on the rows of one response is not modelled.
    - The server runs in UTC (Vercel functions do), so local-time date
      arithmetic is UTC arithmetic. *)

From Stdlib Require Import ZArith List String Ascii Bool Lia.
From Stdlib Require Import Floats.SpecFloat.
From Stdlib Require Import Sorting.Sorted Sorting.Permutation.
Import ListNotations.

Local Open Scope string_scope.
Local Open Scope Z_scope.

(* ================================================================== *)
(** * JavaScript builtins                                              *)
(* ================================================================== *)

Module JS.

(** A JavaScript number. *)
Definition number : Type := spec_float.

Definition prec : Z := 53.
Definition emax : Z := 1024.

(** The Number value for a mathematical integer: round to nearest, ties to
    even, overflowing to an infinity. *)
Definition of_Z (n : Z) : number := binary_normalize prec emax n 0 false.

(** The Number value for [m / d], [m] and [d] positive integers. *)
Definition of_ratio (neg : bool) (m d : positive) : number :=
  SFdiv prec emax (S754_finite neg m 0) (S754_finite false d 0).

(** The Number value for [m * 10^k], negated when [neg]: the value of a
    decimal literal with digits [m] and decimal exponent [k]. *)
Definition of_decimal (neg : bool) (m : Z) (k : Z) : number :=
  match m with
  | Z0 => S754_zero neg
  | Zneg _ => S754_nan
  | Zpos p =>
      match k with
      | Z0 =>
          binary_normalize prec emax (if neg then Zneg p else Zpos p) 0 false
      | Zpos e =>
          let v := Zpos p * 10 ^ Zpos e in
          binary_normalize prec emax (if neg then - v else v) 0 false
      | Zneg e => of_ratio neg p (Z.to_pos (10 ^ Zpos e))
      end
  end.

(** [Number.isFinite]. *)
Definition isFinite (x : number) : bool :=
  match x with
  | S754_zero _ | S754_finite _ _ _ => true
  | S754_infinity _ | S754_nan => false
  end.

(** Truthiness of a number: [0], [-0] and [NaN] are falsy. *)
Definition truthy (x : number) : bool :=
  match x with
  | S754_zero _ | S754_nan => false
  | S754_infinity _ | S754_finite _ _ _ => true
  end.

(** The mathematical value of a finite number, truncated to an integer
    (exact on integral numbers). *)
Definition to_Z (x : number) : Z :=
  match x with
  | S754_finite s m e =>
      let a := if 0 <=? e then Zpos m * 2 ^ e else Zpos m / 2 ^ (- e) in
      if s then - a else a
  | _ => 0
  end.

(** The sign bit: [true] on negative numbers and on [-0]. *)
Definition sign (x : number) : bool :=
  match x with
  | S754_zero s | S754_infinity s | S754_finite s _ _ => s
  | S754_nan => false
  end.

(** [x >= 0] as JavaScript evaluates it ([-0 >= 0] is true, [NaN >= 0]
    false). *)
Definition geq0 (x : number) : bool :=
  match x with
  | S754_zero _ => true
  | S754_infinity s | S754_finite s _ _ => negb s
  | S754_nan => false
  end.

(** ** Scanning

    A string is the text in UTF-8, one [ascii] a byte: the characters of
    ASCII take one byte each, the others two to four bytes from 128 up. *)

(** The white space and line terminators of ASCII: TAB, LF, VT, FF, CR and
    SP. *)
Definition ascii_space (c : ascii) : bool :=
  let n := nat_of_ascii c in
  ((9 <=? n) && (n <=? 13))%nat || (n =? 32)%nat.

Definition bytes (l : list nat) : string :=
  fold_right (fun n s => String (ascii_of_nat n) s) EmptyString l.

(** The other white space and line terminators of ECMAScript
    ([StrWhiteSpaceChar]), in UTF-8: U+00A0, U+1680, U+2000 to U+200A,
    U+2028, U+2029, U+202F, U+205F, U+3000 and U+FEFF. *)
Definition wide_spaces : list string :=
  map bytes
    [[194; 160]; [225; 154; 128];
     [226; 128; 128]; [226; 128; 129]; [226; 128; 130]; [226; 128; 131];
     [226; 128; 132]; [226; 128; 133]; [226; 128; 134]; [226; 128; 135];
     [226; 128; 136]; [226; 128; 137]; [226; 128; 138];
     [226; 128; 168]; [226; 128; 169]; [226; 128; 175];
     [226; 129; 159]; [227; 128; 128]; [239; 187; 191]]%nat.

(** How many bytes the white space character at the front of [s] takes; 0
    when [s] does not start with one. *)
Definition space_width (s : string) : nat :=
  match s with
  | String c _ =>
      if ascii_space c then 1%nat
      else if existsb (fun w => prefix w s) wide_spaces then
        if Ascii.eqb c (ascii_of_nat 194) then 2%nat else 3%nat
      else 0%nat
  | EmptyString => 0%nat
  end.

Definition is_digit (c : ascii) : bool :=
  let n := nat_of_ascii c in ((48 <=? n) && (n <=? 57))%nat.

Definition digit_val (c : ascii) : Z := Z.of_nat (nat_of_ascii c) - 48.

(** [TrimString(s, start)]. *)
Fixpoint trim_start (s : string) : string :=
  match s with
  | String _ r =>
      match space_width s with
      | O => s
      | S O => trim_start r
      | S (S O) => match r with
             | String _ r1 => trim_start r1
             | EmptyString => s
             end
      | _ => match r with
             | String _ (String _ r2) => trim_start r2
             | _ => s
             end
      end
  | EmptyString => s
  end.

(** The digits at the front of [s], accumulated onto [acc]: the value read,
    how many digits it had, and the rest of the string. *)
Fixpoint scan_digits (s : string) (acc : Z) (cnt : Z) : Z * Z * string :=
  match s with
  | String c r =>
      if is_digit c then scan_digits r (10 * acc + digit_val c) (cnt + 1)
      else (acc, cnt, s)
  | EmptyString => (acc, cnt, s)
  end.

(** A leading sign: whether it is a minus, and the rest. *)
Definition scan_sign (s : string) : bool * string :=
  match s with
  | String "-" r => (true, r)
  | String "+" r => (false, r)
  | _ => (false, s)
  end.

(** [ToString] of a string-or-undefined value. *)
Definition ToString (v : option string) : string :=
  match v with
  | Some s => s
  | None => "undefined"
  end.

(** [parseInt(v, 10)]: optional white space, an optional sign, then the
    longest run of decimal digits; [NaN] when there is none. *)
Definition parseInt (v : option string) : number :=
  let '(neg, r) := scan_sign (trim_start (ToString v)) in
  let '(n, cnt, _) := scan_digits r 0 0 in
  if cnt =? 0 then S754_nan
  else if n =? 0 then S754_zero neg
  else of_Z (if neg then - n else n).

(** [parseFloat(v)]: optional white space, then the longest prefix that is
    a [StrDecimalLiteral]: a sign, then [Infinity], or digits with an
    optional fraction and an optional exponent part (which counts only
    when it has a digit). *)
Definition scan_exponent (s : string) : Z :=
  match s with
  | String c r =>
      if (Ascii.eqb c "e" || Ascii.eqb c "E")%bool then
        let '(eneg, r') := scan_sign r in
        let '(e, cnt, _) := scan_digits r' 0 0 in
        if cnt =? 0 then 0 else if eneg then - e else e
      else 0
  | EmptyString => 0
  end.

Definition parseFloat (v : option string) : number :=
  let '(neg, r) := scan_sign (trim_start (ToString v)) in
  if prefix "Infinity" r then S754_infinity neg
  else
    let '(ip, icnt, r1) := scan_digits r 0 0 in
    let '(m, fcnt, r2) :=
      match r1 with
      | String "." r1' =>
          let '(m, cnt, r2) := scan_digits r1' ip 0 in
          if (icnt =? 0) && (cnt =? 0) then (ip, 0, r1) else (m, cnt, r2)
      | _ => (ip, 0, r1)
      end in
    if (icnt =? 0) && (fcnt =? 0) then S754_nan
    else of_decimal neg m (scan_exponent r2 - fcnt).

(** ** Strings *)

(** [s.replace(pat, '')] for a string pattern: the first occurrence of
    [pat] is removed. *)
Fixpoint remove_first (pat s : string) : string :=
  if prefix pat s then substring (String.length pat) (String.length s) s
  else match s with
       | String c r => String c (remove_first pat r)
       | EmptyString => s
       end.

(** [s] is made of white space only. *)
Fixpoint all_space (s : string) : bool :=
  match s with
  | String _ r =>
      match space_width s with
      | O => false
      | S O => all_space r
      | S (S O) => match r with
             | String _ r1 => all_space r1
             | EmptyString => false
             end
      | _ => match r with
             | String _ (String _ r2) => all_space r2
             | _ => false
             end
      end
  | EmptyString => true
  end.

(** [TrimString(s, end)]: the white space that ends [s] is dropped. *)
Fixpoint trim_end (s : string) : string :=
  match s with
  | String c r => if all_space s then EmptyString else String c (trim_end r)
  | EmptyString => s
  end.

Definition trim (s : string) : string := trim_end (trim_start s).

(** Truthiness of a string-or-undefined value: [undefined] and [''] are
    falsy. *)
Definition truthy_str (v : option string) : bool :=
  match v with
  | Some (String _ _) => true
  | _ => false
  end.

(** ** Dates

    A time value is a number of milliseconds since 1970-01-01T00:00:00Z. *)

Definition msPerDay : Z := 86400000.

(** [Day(t)]. *)
Definition Day (t : Z) : Z := t / msPerDay.

(** A valid time value: [TimeClip] keeps it. *)
Definition valid_time (t : Z) : bool := Z.abs t <=? 8640000000000000.

(** Year, month (1..12) and day of the month of a day number, in the
    proleptic Gregorian calendar. *)
Definition civil (day : Z) : Z * Z * Z :=
  let z := day + 719468 in
  let era := z / 146097 in
  let doe := z - era * 146097 in
  let yoe := (doe - doe / 1460 + doe / 36524 - doe / 146096) / 365 in
  let doy := doe - (365 * yoe + yoe / 4 - yoe / 100) in
  let mp := (5 * doy + 2) / 153 in
  let d := doy - (153 * mp + 2) / 5 + 1 in
  let m := if mp <? 10 then mp + 3 else mp - 9 in
  let y := yoe + era * 400 in
  (if m <=? 2 then y + 1 else y, m, d).

(** The last [w] decimal digits of [n]. *)
Fixpoint digits (w : nat) (n : Z) : string :=
  match w with
  | O => EmptyString
  | S w' =>
      digits w' (n / 10) ++
      String (ascii_of_nat (Z.to_nat (48 + n mod 10))) EmptyString
  end.

(** The date part of [toISOString()]: four digits for the years 0 to 9999,
    a sign and six digits otherwise. *)
Definition isoDate (t : Z) : string :=
  let '(y, m, d) := civil (Day t) in
  let ys :=
    if (0 <=? y) && (y <=? 9999) then digits 4 y
    else (if y <? 0 then "-" else "+") ++ digits 6 (Z.abs y) in
  ys ++ "-" ++ digits 2 m ++ "-" ++ digits 2 d.

(** [new Date(t).toISOString().slice(0, 10)]. *)
Definition isoSlice (t : Z) : string := substring 0 10 (isoDate t).

End JS.

(* ================================================================== *)
(** * The database: supabase.sql behind the Supabase client            *)
(* ================================================================== *)

Module PG.

(** ** The type [uuid]

    A uuid is written the way PostgreSQL prints it: 32 hexadecimal digits
    in lower case, in groups of 8, 4, 4, 4 and 12 with hyphens between.
    That is how the database returns an account identifier and how the
    identity provider gives [user.id]; two uuids are equal when these texts
    are.  A text that comes with the request is read by [uuid_in] before it
    meets a column of the type. *)
Definition uuid : Type := string.

(** [isxdigit], and the digit in lower case. *)
Definition hex_lower (c : ascii) : option ascii :=
  let n := nat_of_ascii c in
  if ((48 <=? n) && (n <=? 57))%nat then Some c
  else if ((97 <=? n) && (n <=? 102))%nat then Some c
  else if ((65 <=? n) && (n <=? 70))%nat then Some (ascii_of_nat (n + 32))
  else None.

(** [n] bytes of a uuid from the byte number [i] on: two hexadecimal digits
    each, and a hyphen that follows a byte of odd number other than the last
    is skipped.  The digits read, in lower case, and the rest. *)
Fixpoint scan_uuid (n i : nat) (s : string) : option (string * string) :=
  match n with
  | O => Some (EmptyString, s)
  | S n' =>
      match s with
      | String a (String b r) =>
          match hex_lower a, hex_lower b with
          | Some a', Some b' =>
              let r' :=
                match r with
                | String c r1 =>
                    if Ascii.eqb c "-" && Nat.odd i && (i <? 15)%nat
                    then r1 else r
                | EmptyString => r
                end in
              match scan_uuid n' (S i) r' with
              | Some (h, rest) => Some (String a' (String b' h), rest)
              | None => None
              end
          | _, _ => None
          end
      | _ => None
      end
  end.

(** The output of the type: the 32 digits in groups of 8, 4, 4, 4, 12. *)
Definition uuid_out (h : string) : uuid :=
  substring 0 8 h ++ "-" ++ substring 8 4 h ++ "-" ++ substring 12 4 h
  ++ "-" ++ substring 16 4 h ++ "-" ++ substring 20 12 h.

(** The input function of the type: 16 bytes in hexadecimal digits of
    either case, hyphens allowed after each group of four digits, braces
    allowed around the whole; [None] is the error [22P02]. *)
Definition uuid_in (s : string) : option uuid :=
  let '(braces, src) := match s with
                        | String "{" r => (true, r)
                        | _ => (false, s)
                        end in
  match scan_uuid 16 0 src with
  | Some (h, rest) =>
      if String.eqb rest (if braces then "}" else "")
      then Some (uuid_out h) else None
  | None => None
  end.

(** The text is a uuid as PostgreSQL prints it. *)
Definition is_uuid (s : string) : bool :=
  match uuid_in s with
  | Some c => String.eqb c s
  | None => false
  end.

(** ** The type [text]

    PostgreSQL stores no character U+0000: a text that holds one is refused
    (error [22P05] or [22021]). *)
Fixpoint no_nul (s : string) : bool :=
  match s with
  | String c r => negb (Ascii.eqb c (ascii_of_nat 0)) && no_nul r
  | EmptyString => true
  end.

(** A text-or-undefined value sent to a column of type [text]. *)
Definition text_ok (v : option string) : bool :=
  match v with
  | Some s => no_nul s
  | None => true
  end.

(** What the deployment provides and the repository does not contain:
    PostgreSQL's input function for the type [date] (which calendar day,
    counted from 1970-01-01, a text denotes, if any) and the identity
    provider behind [sb.auth.getUser], whose [user.id] is the key of
    [auth.users], a uuid as PostgreSQL prints it. *)
Record auth_user := { au_id : uuid; au_email : option string }.

Class Backend := {
  date_in : string -> option Z;
  auth_getUser : string -> option auth_user;
  auth_uuid : forall token user,
    auth_getUser token = Some user -> uuid_in (au_id user) = Some (au_id user)
}.

(** Row identifiers ([default gen_random_uuid()]) are drawn from a
    counter. *)
Definition rowid : Type := Z.

Inductive role := patient | doctor.

Definition role_eqb (a b : role) : bool :=
  match a, b with
  | patient, patient | doctor, doctor => true
  | _, _ => false
  end.

(** [check (role in ('patient','doctor'))]. *)
Definition role_in (s : string) : option role :=
  if String.eqb s "patient" then Some patient
  else if String.eqb s "doctor" then Some doctor
  else None.

(** ** Rows (the column [created_at], which nothing reads, is left out) *)

Record profile := {
  p_id : uuid;
  p_email : option string;
  p_name : option string;
  p_role : option role
}.

Record patient_profile := {
  pp_user_id : uuid;
  pp_age : option Z;
  pp_weight : option JS.number;
  pp_height : option JS.number;
  pp_gender : option string;
  pp_nationality : option string;
  pp_medical_history : option string;
  pp_current_medications : option string;
  pp_allergies : option string;
  pp_family_history : option string;
  pp_lifestyle_factors : option string
}.

Record doctor_profile := {
  dp_user_id : uuid;
  dp_gender : option string;
  dp_age : option Z;
  dp_nationality : option string;
  dp_level_of_education : option string;
  dp_medical_school : option string;
  dp_year_of_education : option Z;
  dp_medical_license_number : option string;
  dp_license_region : option string;
  dp_speciality : option string;
  dp_years_of_experience : option Z;
  dp_current_workplace : option string;
  dp_languages_spoken : option string
}.

Record habit := {
  h_id : rowid;
  h_user_id : uuid;
  h_date : Z;
  h_steps : option Z;
  h_water_cups : option Z;
  h_sleep_hours : option JS.number
}.

Record vital := {
  v_id : rowid;
  v_user_id : uuid;
  v_date : Z;
  v_blood_glucose : option Z;
  v_blood_pressure_sys : option Z;
  v_blood_pressure_dia : option Z;
  v_heart_rate : option Z;
  v_body_temperature : option JS.number
}.

Record link := {
  l_id : rowid;
  l_patient_id : uuid;
  l_doctor_id : uuid;
  l_patient_selected : bool;
  l_doctor_selected : bool
}.

Record db := {
  profiles : list profile;
  patient_profiles : list patient_profile;
  doctor_profiles : list doctor_profile;
  habits : list habit;
  vitals : list vital;
  doctor_patient_links : list link;
  next_rowid : rowid
}.

Definition empty : db :=
  {| profiles := []; patient_profiles := []; doctor_profiles := [];
     habits := []; vitals := []; doctor_patient_links := [];
     next_rowid := 0 |}.

(** ** What a query answers: [{ data, error }] *)

Inductive result (A : Type) :=
| Data (a : A)
| Error.
Arguments Data {A} a.
Arguments Error {A}.

(** [.maybeSingle()]: no row is [null], one row is that row, more is an
    error. *)
Definition maybeSingle {A} (rows : list A) : result (option A) :=
  match rows with
  | [] => Data None
  | [r] => Data (Some r)
  | _ => Error
  end.

(** [.single()]: exactly one row, or an error. *)
Definition single {A} (rows : list A) : result A :=
  match rows with
  | [r] => Data r
  | _ => Error
  end.

(** [const { data } = ...]: the data, [null] on an error. *)
Definition data_of {A} (r : result (option A)) : option A :=
  match r with
  | Data x => x
  | Error => None
  end.

(** A filter on a uuid column whose value is a text of the request: the
    query fails when the text is no uuid. *)
Definition for_uuid {A} (t : string) (q : uuid -> result A) : result A :=
  match uuid_in t with
  | Some id => q id
  | None => Error
  end.

(** A write that gives a uuid column a text of the request. *)
Definition writing_uuid {A} (t : string) (w : uuid -> db -> result A * db)
    (d : db) : result A * db :=
  match uuid_in t with
  | Some id => w id d
  | None => (Error, d)
  end.

(** ** Column types *)

(** A JavaScript integer sent to an [int] column. *)
Definition int4 (n : Z) : bool := (- 2147483648 <=? n) && (n <=? 2147483647).

Definition int4_opt (n : option Z) : bool :=
  match n with
  | Some n => int4 n
  | None => true
  end.

(** A finite JavaScript number sent to a [float8] column:
    [JSON.stringify] writes [-0] as [0]. *)
Definition float8 (x : JS.number) : JS.number :=
  match x with
  | S754_zero _ => S754_zero false
  | _ => x
  end.

(** ** Selections *)

Definition has_profile (id : uuid) (d : db) : bool :=
  existsb (fun p => String.eqb (p_id p) id) (profiles d).

Definition profiles_by_id (id : uuid) (d : db) : list profile :=
  filter (fun p => String.eqb (p_id p) id) (profiles d).

Definition patient_profiles_of (id : uuid) (d : db) : list patient_profile :=
  filter (fun p => String.eqb (pp_user_id p) id) (patient_profiles d).

Definition doctor_profiles_of (id : uuid) (d : db) : list doctor_profile :=
  filter (fun p => String.eqb (dp_user_id p) id) (doctor_profiles d).

Definition habit_at (u : uuid) (day : Z) (h : habit) : bool :=
  String.eqb (h_user_id h) u && (h_date h =? day).

Definition vital_at (u : uuid) (day : Z) (v : vital) : bool :=
  String.eqb (v_user_id v) u && (v_date v =? day).

Definition link_of (pid did : uuid) (l : link) : bool :=
  String.eqb (l_patient_id l) pid && String.eqb (l_doctor_id l) did.

(** ** Writes

    Every write checks the constraints of [supabase.sql] it can violate and
    answers [Error], leaving the tables as they were, when one fails. *)

Definition set_profiles (d : db) (x : list profile) : db :=
  {| profiles := x; patient_profiles := patient_profiles d;
     doctor_profiles := doctor_profiles d; habits := habits d;
     vitals := vitals d; doctor_patient_links := doctor_patient_links d;
     next_rowid := next_rowid d |}.

Definition set_patient_profiles (d : db) (x : list patient_profile) : db :=
  {| profiles := profiles d; patient_profiles := x;
     doctor_profiles := doctor_profiles d; habits := habits d;
     vitals := vitals d; doctor_patient_links := doctor_patient_links d;
     next_rowid := next_rowid d |}.

Definition set_doctor_profiles (d : db) (x : list doctor_profile) : db :=
  {| profiles := profiles d; patient_profiles := patient_profiles d;
     doctor_profiles := x; habits := habits d;
     vitals := vitals d; doctor_patient_links := doctor_patient_links d;
     next_rowid := next_rowid d |}.

Definition set_habits (d : db) (x : list habit) (n : rowid) : db :=
  {| profiles := profiles d; patient_profiles := patient_profiles d;
     doctor_profiles := doctor_profiles d; habits := x;
     vitals := vitals d; doctor_patient_links := doctor_patient_links d;
     next_rowid := n |}.

Definition set_vitals (d : db) (x : list vital) (n : rowid) : db :=
  {| profiles := profiles d; patient_profiles := patient_profiles d;
     doctor_profiles := doctor_profiles d; habits := habits d;
     vitals := x; doctor_patient_links := doctor_patient_links d;
     next_rowid := n |}.

Definition set_links (d : db) (x : list link) (n : rowid) : db :=
  {| profiles := profiles d; patient_profiles := patient_profiles d;
     doctor_profiles := doctor_profiles d; habits := habits d;
     vitals := vitals d; doctor_patient_links := x;
     next_rowid := n |}.

(** A column of the payload that is [undefined] is not sent: an insert
    leaves it [NULL], an update leaves it as it was. *)
Definition sent {A} (new old : option A) : option A :=
  match new with
  | Some _ => new
  | None => old
  end.

(** [email text unique]: no other account holds the address. *)
Definition email_free (id : uuid) (email : option string) (d : db) : bool :=
  match email with
  | None => true
  | Some e =>
      negb (existsb (fun p => negb (String.eqb (p_id p) id) &&
                              match p_email p with
                              | Some e' => String.eqb e' e
                              | None => false
                              end) (profiles d))
  end.

(** [from('profiles').upsert(base, { onConflict: 'id' })], the role sent as
    text; [id] is the caller's. *)
Definition upsert_profile (id : uuid) (email name role : option string)
    (d : db) : result unit * db :=
  let checked :=
    match role with
    | None => Some None
    | Some s => match role_in s with
                | Some r => Some (Some r)
                | None => None
                end
    end in
  match checked with
  | None => (Error, d)
  | Some r =>
      if negb (text_ok email && text_ok name) then (Error, d)
      else if email_free id email d then
        if has_profile id d then
          (Data tt,
           set_profiles d
             (map (fun p =>
                     if String.eqb (p_id p) id then
                       {| p_id := id; p_email := sent email (p_email p);
                          p_name := sent name (p_name p);
                          p_role := sent r (p_role p) |}
                     else p) (profiles d)))
        else
          (Data tt,
           set_profiles d
             (profiles d ++
              [{| p_id := id; p_email := email; p_name := name;
                  p_role := r |}]))
      else (Error, d)
  end.

(** The text columns of a [patient_profiles] row are texts PostgreSQL
    takes. *)
Definition patient_texts (row : patient_profile) : bool :=
  text_ok (pp_gender row) && text_ok (pp_nationality row)
  && text_ok (pp_medical_history row)
  && text_ok (pp_current_medications row) && text_ok (pp_allergies row)
  && text_ok (pp_family_history row) && text_ok (pp_lifestyle_factors row).

Definition doctor_texts (row : doctor_profile) : bool :=
  text_ok (dp_gender row) && text_ok (dp_nationality row)
  && text_ok (dp_level_of_education row) && text_ok (dp_medical_school row)
  && text_ok (dp_medical_license_number row)
  && text_ok (dp_license_region row) && text_ok (dp_speciality row)
  && text_ok (dp_current_workplace row)
  && text_ok (dp_languages_spoken row).

(** [from('patient_profiles').upsert(row, { onConflict: 'user_id' })]: every
    column is sent. *)
Definition upsert_patient_profile (row : patient_profile) (d : db)
    : result unit * db :=
  if negb (patient_texts row) then (Error, d)
  else if has_profile (pp_user_id row) d && int4_opt (pp_age row) then
    if existsb (fun p => String.eqb (pp_user_id p) (pp_user_id row))
         (patient_profiles d) then
      (Data tt,
       set_patient_profiles d
         (map (fun p => if String.eqb (pp_user_id p) (pp_user_id row)
                        then row else p) (patient_profiles d)))
    else (Data tt, set_patient_profiles d (patient_profiles d ++ [row]))
  else (Error, d).

(** [from('doctor_profiles').upsert(row, { onConflict: 'user_id' })]. *)
Definition upsert_doctor_profile (row : doctor_profile) (d : db)
    : result unit * db :=
  if negb (doctor_texts row) then (Error, d)
  else if has_profile (dp_user_id row) d && int4_opt (dp_age row)
     && int4_opt (dp_year_of_education row)
     && int4_opt (dp_years_of_experience row) then
    if existsb (fun p => String.eqb (dp_user_id p) (dp_user_id row))
         (doctor_profiles d) then
      (Data tt,
       set_doctor_profiles d
         (map (fun p => if String.eqb (dp_user_id p) (dp_user_id row)
                        then row else p) (doctor_profiles d)))
    else (Data tt, set_doctor_profiles d (doctor_profiles d ++ [row]))
  else (Error, d).

(** ** Daily records *)

(** The object the handler sends for a habits row. *)
Record habit_row := {
  hr_user_id : uuid;
  hr_date : string;
  hr_steps : Z;
  hr_water_cups : Z;
  hr_sleep_hours : JS.number
}.

(** The object the handler sends for a vitals row. *)
Record vital_row := {
  vr_user_id : uuid;
  vr_date : string;
  vr_blood_glucose : option Z;
  vr_blood_pressure_sys : option Z;
  vr_blood_pressure_dia : option Z;
  vr_heart_rate : option Z;
  vr_body_temperature : option JS.number
}.

Section Queries.
Context {B : Backend}.

(** The payload converted to the column types, when every value fits. *)
Definition habit_of_row (id : rowid) (r : habit_row) : option habit :=
  match date_in (hr_date r) with
  | Some day =>
      if int4 (hr_steps r) && int4 (hr_water_cups r) then
        Some {| h_id := id; h_user_id := hr_user_id r; h_date := day;
                h_steps := Some (hr_steps r);
                h_water_cups := Some (hr_water_cups r);
                h_sleep_hours := Some (float8 (hr_sleep_hours r)) |}
      else None
  | None => None
  end.

Definition vital_of_row (id : rowid) (r : vital_row) : option vital :=
  match date_in (vr_date r) with
  | Some day =>
      if int4_opt (vr_blood_glucose r) && int4_opt (vr_blood_pressure_sys r)
         && int4_opt (vr_blood_pressure_dia r) && int4_opt (vr_heart_rate r)
      then
        Some {| v_id := id; v_user_id := vr_user_id r; v_date := day;
                v_blood_glucose := vr_blood_glucose r;
                v_blood_pressure_sys := vr_blood_pressure_sys r;
                v_blood_pressure_dia := vr_blood_pressure_dia r;
                v_heart_rate := vr_heart_rate r;
                v_body_temperature :=
                  option_map float8 (vr_body_temperature r) |}
      else None
  | None => None
  end.

(** [from('habits').select('id').eq('user_id', u).eq('date', date)
    .maybeSingle()]. *)
Definition select_habit_id (u : uuid) (date : string) (d : db)
    : result (option rowid) :=
  match date_in date with
  | Some day =>
      maybeSingle (map h_id (filter (habit_at u day) (habits d)))
  | None => Error
  end.

Definition select_vital_id (u : uuid) (date : string) (d : db)
    : result (option rowid) :=
  match date_in date with
  | Some day =>
      maybeSingle (map v_id (filter (vital_at u day) (vitals d)))
  | None => Error
  end.

(** [from('habits').insert(row)]: the foreign key on [user_id] and
    [unique(user_id, date)]. *)
Definition insert_habit (r : habit_row) (d : db) : result unit * db :=
  match habit_of_row (next_rowid d) r with
  | Some h =>
      if has_profile (h_user_id h) d
         && negb (existsb (habit_at (h_user_id h) (h_date h)) (habits d))
      then (Data tt, set_habits d (habits d ++ [h]) (next_rowid d + 1))
      else (Error, d)
  | None => (Error, d)
  end.

(** [from('habits').update(row).eq('id', id)]: the rows with that id take
    the values sent and keep their id. *)
Definition update_habit (r : habit_row) (id : rowid) (d : db)
    : result unit * db :=
  match habit_of_row id r with
  | Some h =>
      if existsb (fun x => h_id x =? id) (habits d) then
        if has_profile (h_user_id h) d
           && negb (existsb (fun x => negb (h_id x =? id)
                                      && habit_at (h_user_id h) (h_date h) x)
                      (habits d))
        then (Data tt,
              set_habits d
                (map (fun x => if h_id x =? id then h else x) (habits d))
                (next_rowid d))
        else (Error, d)
      else (Data tt, d)
  | None => (Error, d)
  end.

Definition insert_vital (r : vital_row) (d : db) : result unit * db :=
  match vital_of_row (next_rowid d) r with
  | Some v =>
      if has_profile (v_user_id v) d
         && negb (existsb (vital_at (v_user_id v) (v_date v)) (vitals d))
      then (Data tt, set_vitals d (vitals d ++ [v]) (next_rowid d + 1))
      else (Error, d)
  | None => (Error, d)
  end.

Definition update_vital (r : vital_row) (id : rowid) (d : db)
    : result unit * db :=
  match vital_of_row id r with
  | Some v =>
      if existsb (fun x => v_id x =? id) (vitals d) then
        if has_profile (v_user_id v) d
           && negb (existsb (fun x => negb (v_id x =? id)
                                      && vital_at (v_user_id v) (v_date v) x)
                      (vitals d))
        then (Data tt,
              set_vitals d
                (map (fun x => if v_id x =? id then v else x) (vitals d))
                (next_rowid d))
        else (Error, d)
      else (Data tt, d)
  | None => (Error, d)
  end.

(** [.order('date', { ascending: false })]: insertion by decreasing key. *)
Fixpoint insert_desc {A} (key : A -> Z) (x : A) (l : list A) : list A :=
  match l with
  | [] => [x]
  | y :: l' =>
      if key y <? key x then x :: l else y :: insert_desc key x l'
  end.

Fixpoint order_desc {A} (key : A -> Z) (l : list A) : list A :=
  match l with
  | [] => []
  | x :: l' => insert_desc key x (order_desc key l')
  end.

(** [from('habits').select(...).eq('user_id', u).gte('date', since)
    .order('date', { ascending: false })], [u] a text of the request or the
    caller's id. *)
Definition select_habits_since (u : string) (since : string) (d : db)
    : result (list habit) :=
  for_uuid u (fun id =>
    match date_in since with
    | Some day =>
        Data (order_desc h_date
                (filter (fun h => String.eqb (h_user_id h) id
                                  && (day <=? h_date h)) (habits d)))
    | None => Error
    end).

Definition select_vitals_since (u : string) (since : string) (d : db)
    : result (list vital) :=
  for_uuid u (fun id =>
    match date_in since with
    | Some day =>
        Data (order_desc v_date
                (filter (fun v => String.eqb (v_user_id v) id
                                  && (day <=? v_date v)) (vitals d)))
    | None => Error
    end).

End Queries.

(** ** Consent links *)

(** [from('doctor_patient_links').insert({...}).select().single()]: both
    foreign keys and [unique(patient_id, doctor_id)]. *)
Definition insert_link (pid did : uuid) (d : db) : result link * db :=
  if has_profile pid d && has_profile did d
     && negb (existsb (link_of pid did) (doctor_patient_links d))
  then
    let l := {| l_id := next_rowid d; l_patient_id := pid;
                l_doctor_id := did; l_patient_selected := false;
                l_doctor_selected := false |} in
    (Data l, set_links d (doctor_patient_links d ++ [l]) (next_rowid d + 1))
  else (Error, d).

(** [.update({ patient_selected: true }).eq('id', id)]. *)
Definition update_patient_selected (id : rowid) (d : db) : result unit * db :=
  (Data tt,
   set_links d
     (map (fun l =>
             if l_id l =? id then
               {| l_id := l_id l; l_patient_id := l_patient_id l;
                  l_doctor_id := l_doctor_id l; l_patient_selected := true;
                  l_doctor_selected := l_doctor_selected l |}
             else l) (doctor_patient_links d))
     (next_rowid d)).

(** [.update({ doctor_selected: true }).eq('id', id)]. *)
Definition update_doctor_selected (id : rowid) (d : db) : result unit * db :=
  (Data tt,
   set_links d
     (map (fun l =>
             if l_id l =? id then
               {| l_id := l_id l; l_patient_id := l_patient_id l;
                  l_doctor_id := l_doctor_id l;
                  l_patient_selected := l_patient_selected l;
                  l_doctor_selected := true |}
             else l) (doctor_patient_links d))
     (next_rowid d)).

End PG.

(* ================================================================== *)
(** * The handler of api/health.js                                     *)
(* ================================================================== *)

Module Api.
Import PG.

(** ** Requests *)

Record patient_payload := {
  pa_age : option string;
  pa_weight : option string;
  pa_height : option string;
  pa_gender : option string;
  pa_nationality : option string;
  pa_medical_history : option string;
  pa_current_medications : option string;
  pa_allergies : option string;
  pa_family_history : option string;
  pa_lifestyle_factors : option string
}.

Record doctor_payload := {
  do_gender : option string;
  do_age : option string;
  do_nationality : option string;
  do_level_of_education : option string;
  do_medical_school : option string;
  do_year_of_education : option string;
  do_medical_license_number : option string;
  do_license_region : option string;
  do_speciality : option string;
  do_years_of_experience : option string;
  do_current_workplace : option string;
  do_languages_spoken : option string
}.

(** The fields of the JSON body the handler reads. *)
Record body := {
  b_name : option string;
  b_role : option string;
  b_patient : option patient_payload;
  b_doctor : option doctor_payload;
  b_date : option string;
  b_steps : option string;
  b_water_cups : option string;
  b_sleep_hours : option string;
  b_blood_glucose : option string;
  b_blood_pressure_sys : option string;
  b_blood_pressure_dia : option string;
  b_heart_rate : option string;
  b_body_temperature : option string;
  b_doctor_id : option string;
  b_patient_email : option string
}.

(** [{}]. *)
Definition no_patient : patient_payload :=
  {| pa_age := None; pa_weight := None; pa_height := None;
     pa_gender := None; pa_nationality := None; pa_medical_history := None;
     pa_current_medications := None; pa_allergies := None;
     pa_family_history := None; pa_lifestyle_factors := None |}.

Definition no_doctor : doctor_payload :=
  {| do_gender := None; do_age := None; do_nationality := None;
     do_level_of_education := None; do_medical_school := None;
     do_year_of_education := None; do_medical_license_number := None;
     do_license_region := None; do_speciality := None;
     do_years_of_experience := None; do_current_workplace := None;
     do_languages_spoken := None |}.

Definition no_body : body :=
  {| b_name := None; b_role := None; b_patient := None; b_doctor := None;
     b_date := None; b_steps := None; b_water_cups := None;
     b_sleep_hours := None; b_blood_glucose := None;
     b_blood_pressure_sys := None; b_blood_pressure_dia := None;
     b_heart_rate := None; b_body_temperature := None;
     b_doctor_id := None; b_patient_email := None |}.

(** A request as the handler reads it: the method, the [authorization]
    header, the query parameters [action], [user_id] and [rangeDays], the
    parsed body, and the server's clock (milliseconds since the epoch) while
    it is handled. *)
Record request := {
  method : string;
  authorization : option string;
  action : option string;
  qp_user_id : option string;
  qp_rangeDays : option string;
  req_body : body;
  now : Z
}.

(** ** Responses *)

Inductive exn :=
| PgError      (* an [error] of the Supabase client, thrown *)
| RangeError.  (* [toISOString] of an invalid date *)

Record habit_item := {
  hi_date : Z;
  hi_steps : option Z;
  hi_water_cups : option Z;
  hi_sleep_hours : option JS.number
}.

Record vital_item := {
  vi_date : Z;
  vi_blood_glucose : option Z;
  vi_blood_pressure_sys : option Z;
  vi_blood_pressure_dia : option Z;
  vi_heart_rate : option Z;
  vi_body_temperature : option JS.number
}.

Record doctor_item := {
  di_id : uuid;
  di_name : option string;
  di_email : option string;
  di_speciality : option string;
  di_languages_spoken : option string
}.

Record linked_item := {
  li_id : uuid;
  li_name : option string;
  li_speciality : option string;
  li_email : option string
}.

Inductive payload :=
| NoContent
| ErrorMsg (message : string)
| Failure (e : exn)
| Me (p : option profile)
| ProfilePatient (prof : profile) (p : option patient_profile)
| ProfileDoctor (prof : profile) (p : option doctor_profile)
| ProfileOnly (prof : profile)
| OkProfile (p : option profile)
| Ok
| HabitItems (items : list habit_item)
| VitalItems (items : list vital_item)
| DoctorItems (items : list doctor_item)
| LinkedItems (items : list linked_item).

Record response := { status : Z; content : payload }.

Definition json (st : Z) (c : payload) : response :=
  {| status := st; content := c |}.

(** ** Code that reads and writes the database and may throw *)

Inductive outcome (A : Type) :=
| Returned (a : A)
| Thrown (e : exn).
Arguments Returned {A} a.
Arguments Thrown {A} e.

Definition M (A : Type) : Type := db -> outcome A * db.

Definition ret {A} (a : A) : M A := fun d => (Returned a, d).

Definition throw {A} (e : exn) : M A := fun d => (Thrown e, d).

Definition bind {A C} (m : M A) (k : A -> M C) : M C :=
  fun d =>
    match m d with
    | (Returned a, d') => k a d'
    | (Thrown e, d') => (Thrown e, d')
    end.

(** A read. *)
Definition query {A} (q : db -> A) : M A := fun d => (Returned (q d), d).

(** [const { error } = await <write>; if (error) throw error]. *)
Definition write {A} (w : db -> result A * db) : M A :=
  fun d =>
    match w d with
    | (Data a, d') => (Returned a, d')
    | (Error, d') => (Thrown PgError, d')
    end.

(** [try { ... } catch (e) { return json(res, 500, ...) }]. *)
Definition catch (m : M response) : db -> response * db :=
  fun d =>
    match m d with
    | (Returned r, d') => (r, d')
    | (Thrown e, d') => (json 500 (Failure e), d')
    end.

(** Every run of [m] takes a database to one related to it by [R]. *)
Definition steps_within (R : db -> db -> Prop) {A} (m : M A) : Prop :=
  forall d, R d (snd (m d)).

Declare Scope api_scope.
Delimit Scope api_scope with api.
Notation "x <- m ;; k" := (bind m (fun x => k))
  (at level 61, m at next level, right associativity) : api_scope.
Notation "m ;;; k" := (bind m (fun _ => k))
  (at level 61, right associativity) : api_scope.

Local Open Scope api_scope.

Section Handler.
Context {B : Backend}.

(** [getAuthUser]. *)
Definition getAuthUser (req : request) : option auth_user :=
  if JS.truthy_str (authorization req) then
    let token :=
      JS.trim (JS.remove_first "Bearer " (JS.ToString (authorization req))) in
    if JS.truthy_str (Some token) then auth_getUser token else None
  else None.

(** The handler's functions take three kinds of account identifier: the
    caller's [user.id], identifiers read from the database, and texts of
    the request ([qp.user_id], [body.doctor_id]).  The first two are uuids
    as PostgreSQL prints them and have the type [uuid]; a text of the
    request has the type [string], and where it is compared with a uuid
    column it is read by [uuid_in] first.  The handler's own comparison
    [forUserId !== user.id] is one of texts. *)

(** [getProfile]: [.eq('id', userId).single()], [null] on an error; called
    with the caller's id. *)
Definition getProfile (userId : uuid) (d : db) : option profile :=
  match single (profiles_by_id userId d) with
  | Data prof => Some prof
  | Error => None
  end.

(** [toInt]. *)
Definition toInt (v : option string) : option Z :=
  let n := JS.parseInt v in
  if JS.isFinite n then Some (JS.to_Z n) else None.

(** [toFloat]. *)
Definition toFloat (v : option string) : option JS.number :=
  let n := JS.parseFloat v in
  if JS.isFinite n then Some n else None.

(** [x || d] on an integer-or-null [x]. *)
Definition or_int (x : option Z) (d : Z) : Z :=
  match x with
  | Some n => if n =? 0 then d else n
  | None => d
  end.

(** [x || 0] on a number-or-null [x]. *)
Definition or_zero (x : option JS.number) : JS.number :=
  match x with
  | Some n => if JS.truthy n then n else S754_zero false
  | None => S754_zero false
  end.

(** [x || null] on a string-or-undefined [x]. *)
Definition or_null (x : option string) : option string :=
  if JS.truthy_str x then x else None.

(** [x || y] on strings. *)
Definition or_str (x : option string) (y : string) : string :=
  if JS.truthy_str x then JS.ToString x else y.

(** [x === s] for a string literal [s]. *)
Definition is_str (x : option string) (s : string) : bool :=
  match x with
  | Some x' => String.eqb x' s
  | None => false
  end.

(** [ensureProfile]. *)
Definition ensureProfile (userId : uuid) (email : option string)
    (payload : body) : M unit :=
  write (upsert_profile userId email (b_name payload) (b_role payload)) ;;;
  if is_str (b_role payload) "patient" then
    let p := match b_patient payload with
             | Some p => p
             | None => no_patient
             end in
    write (upsert_patient_profile
      {| pp_user_id := userId;
         pp_age := toInt (pa_age p);
         pp_weight := option_map float8 (toFloat (pa_weight p));
         pp_height := option_map float8 (toFloat (pa_height p));
         pp_gender := or_null (pa_gender p);
         pp_nationality := or_null (pa_nationality p);
         pp_medical_history := or_null (pa_medical_history p);
         pp_current_medications := or_null (pa_current_medications p);
         pp_allergies := or_null (pa_allergies p);
         pp_family_history := or_null (pa_family_history p);
         pp_lifestyle_factors := or_null (pa_lifestyle_factors p) |})
  else if is_str (b_role payload) "doctor" then
    let p := match b_doctor payload with
             | Some p => p
             | None => no_doctor
             end in
    write (upsert_doctor_profile
      {| dp_user_id := userId;
         dp_gender := or_null (do_gender p);
         dp_age := toInt (do_age p);
         dp_nationality := or_null (do_nationality p);
         dp_level_of_education := or_null (do_level_of_education p);
         dp_medical_school := or_null (do_medical_school p);
         dp_year_of_education := toInt (do_year_of_education p);
         dp_medical_license_number := or_null (do_medical_license_number p);
         dp_license_region := or_null (do_license_region p);
         dp_speciality := or_null (do_speciality p);
         dp_years_of_experience := toInt (do_years_of_experience p);
         dp_current_workplace := or_null (do_current_workplace p);
         dp_languages_spoken := or_null (do_languages_spoken p) |})
  else ret tt.

(** [getOrCreateLink]: [patientId] is the caller's id or the id of a
    profile row; [doctorId] is [body.doctor_id] or the caller's id. *)
Definition getOrCreateLink (patientId : uuid) (doctorId : string) : M link :=
  existing <- query (fun d =>
    data_of
      (for_uuid doctorId (fun did =>
         maybeSingle
           (filter (link_of patientId did) (doctor_patient_links d))))) ;;
  match existing with
  | Some l => ret l
  | None => write (writing_uuid doctorId (insert_link patientId))
  end.

(** [daysAgoISO], at the clock [t]: [None] when the date is invalid and
    [toISOString] throws. *)
Definition daysAgoISO (t : Z) (days : Z) : option string :=
  let dt := t - days * JS.msPerDay in
  if JS.valid_time dt then Some (JS.isoSlice dt) else None.

(** [canDoctorView]: [doctorId] is the caller's id, [patientId] is
    [qp.user_id]. *)
Definition canDoctorView (doctorId : uuid) (patientId : string) (d : db)
    : bool :=
  match for_uuid patientId (fun pid =>
          maybeSingle
            (filter (fun l => String.eqb (l_doctor_id l) doctorId
                              && String.eqb (l_patient_id l) pid)
               (doctor_patient_links d))) with
  | Data (Some l) => l_patient_selected l && l_doctor_selected l
  | Data None | Error => false
  end.

(** The check that opens [profile.get], [habits.fetch] and [vitals.fetch]:
    [Some] response when the request is refused.

    [if (forUserId !== user.id) { const profile = await getProfile(user.id);
    if (profile?.role !== 'doctor') return 403 Forbidden;
    if (!(await canDoctorView(user.id, forUserId)))
      return 403 No permission } ] *)
Definition refusal (user : auth_user) (forUserId : string) (d : db)
    : option response :=
  if String.eqb forUserId (au_id user) then None
  else
    match getProfile (au_id user) d with
    | Some {| p_role := Some doctor |} =>
        if canDoctorView (au_id user) forUserId d then None
        else Some (json 403 (ErrorMsg "No permission"))
    | _ => Some (json 403 (ErrorMsg "Forbidden"))
    end.

(** [case 'me']. *)
Definition me (user : auth_user) : M response :=
  profile <- query (getProfile (au_id user)) ;;
  ret (json 200 (Me profile)).

(** [case 'profile.get']. *)
Definition profile_get (user : auth_user) (req : request) : M response :=
  if negb (JS.truthy_str (qp_user_id req)) then
    ret (json 400 (ErrorMsg "user_id required"))
  else
    let forUserId := JS.ToString (qp_user_id req) in
    denied <- query (refusal user forUserId) ;;
    match denied with
    | Some r => ret r
    | None =>
        prof <- query (fun d =>
          for_uuid forUserId (fun id => maybeSingle (profiles_by_id id d))) ;;
        match prof with
        | Data (Some prof) =>
            match p_role prof with
            | Some patient =>
                p <- query (fun d =>
                  data_of
                    (for_uuid forUserId (fun id =>
                       maybeSingle (patient_profiles_of id d)))) ;;
                ret (json 200 (ProfilePatient prof p))
            | Some doctor =>
                p <- query (fun d =>
                  data_of
                    (for_uuid forUserId (fun id =>
                       maybeSingle (doctor_profiles_of id d)))) ;;
                ret (json 200 (ProfileDoctor prof p))
            | None => ret (json 200 (ProfileOnly prof))
            end
        | Data None | Error => ret (json 404 (ErrorMsg "Not found"))
        end
    end.

(** [case 'profile.upsert']. *)
Definition profile_upsert (user : auth_user) (payload : body) : M response :=
  ensureProfile (au_id user) (au_email user) payload ;;;
  profile <- query (getProfile (au_id user)) ;;
  ret (json 200 (OkProfile profile)).

(** The [row] of [habits.upsert]. *)
Definition habits_row (user : auth_user) (date : string) (b : body)
    : habit_row :=
  {| hr_user_id := au_id user;
     hr_date := date;
     hr_steps := or_int (toInt (b_steps b)) 0;
     hr_water_cups := or_int (toInt (b_water_cups b)) 0;
     hr_sleep_hours := or_zero (toFloat (b_sleep_hours b)) |}.

(** [body.date || new Date().toISOString().slice(0, 10)]. *)
Definition upsert_date (b : body) (t : Z) : string :=
  or_str (b_date b) (JS.isoSlice t).

(** [case 'habits.upsert']. *)
Definition habits_upsert (user : auth_user) (b : body) (t : Z) : M response :=
  let date := upsert_date b t in
  existing <- query (fun d => data_of (select_habit_id (au_id user) date d)) ;;
  let row := habits_row user date b in
  match existing with
  | Some id => write (update_habit row id)
  | None => write (insert_habit row)
  end ;;;
  ret (json 200 Ok).

(** [toInt(qp.rangeDays) || 7]. *)
Definition fetch_rangeDays (req : request) : Z :=
  or_int (toInt (qp_rangeDays req)) 7.

(** [qp.user_id || user.id]. *)
Definition fetch_forUserId (user : auth_user) (req : request) : string :=
  or_str (qp_user_id req) (au_id user).

Definition habit_item_of (h : habit) : habit_item :=
  {| hi_date := h_date h; hi_steps := h_steps h;
     hi_water_cups := h_water_cups h; hi_sleep_hours := h_sleep_hours h |}.

(** [case 'habits.fetch']. *)
Definition habits_fetch (user : auth_user) (req : request) : M response :=
  let rangeDays := fetch_rangeDays req in
  let forUserId := fetch_forUserId user req in
  denied <- query (refusal user forUserId) ;;
  match denied with
  | Some r => ret r
  | None =>
      match daysAgoISO (now req) rangeDays with
      | Some since =>
          data <- write (fun d => (select_habits_since forUserId since d, d)) ;;
          ret (json 200 (HabitItems (map habit_item_of data)))
      | None => throw RangeError
      end
  end.

(** The [row] of [vitals.upsert]. *)
Definition vitals_row (user : auth_user) (date : string) (b : body)
    : vital_row :=
  {| vr_user_id := au_id user;
     vr_date := date;
     vr_blood_glucose := toInt (b_blood_glucose b);
     vr_blood_pressure_sys := toInt (b_blood_pressure_sys b);
     vr_blood_pressure_dia := toInt (b_blood_pressure_dia b);
     vr_heart_rate := toInt (b_heart_rate b);
     vr_body_temperature := toFloat (b_body_temperature b) |}.

(** [case 'vitals.upsert']. *)
Definition vitals_upsert (user : auth_user) (b : body) (t : Z) : M response :=
  let date := upsert_date b t in
  existing <- query (fun d => data_of (select_vital_id (au_id user) date d)) ;;
  let row := vitals_row user date b in
  match existing with
  | Some id => write (update_vital row id)
  | None => write (insert_vital row)
  end ;;;
  ret (json 200 Ok).

Definition vital_item_of (v : vital) : vital_item :=
  {| vi_date := v_date v; vi_blood_glucose := v_blood_glucose v;
     vi_blood_pressure_sys := v_blood_pressure_sys v;
     vi_blood_pressure_dia := v_blood_pressure_dia v;
     vi_heart_rate := v_heart_rate v;
     vi_body_temperature := v_body_temperature v |}.

(** [case 'vitals.fetch']. *)
Definition vitals_fetch (user : auth_user) (req : request) : M response :=
  let rangeDays := fetch_rangeDays req in
  let forUserId := fetch_forUserId user req in
  denied <- query (refusal user forUserId) ;;
  match denied with
  | Some r => ret r
  | None =>
      match daysAgoISO (now req) rangeDays with
      | Some since =>
          data <- write (fun d => (select_vitals_since forUserId since d, d)) ;;
          ret (json 200 (VitalItems (map vital_item_of data)))
      | None => throw RangeError
      end
  end.

(** [case 'doctors.list']: the accounts with the role doctor that have a
    [doctor_profiles] row. *)
Definition doctors_list : M response :=
  items <- query (fun d =>
    flat_map (fun p =>
      match p_role p, doctor_profiles_of (p_id p) d with
      | Some doctor, dp :: _ =>
          [{| di_id := p_id p; di_name := p_name p; di_email := p_email p;
              di_speciality := or_null (dp_speciality dp);
              di_languages_spoken := or_null (dp_languages_spoken dp) |}]
      | _, _ => []
      end) (profiles d)) ;;
  ret (json 200 (DoctorItems items)).

(** [case 'link.select']. *)
Definition link_select (user : auth_user) (b : body) : M response :=
  myProfile <- query (getProfile (au_id user)) ;;
  match myProfile with
  | None => ret (json 400 (ErrorMsg "Complete profile first"))
  | Some mine =>
      match p_role mine with
      | Some patient =>
          if negb (JS.truthy_str (b_doctor_id b)) then
            ret (json 400 (ErrorMsg "doctor_id required"))
          else
            l <- getOrCreateLink (au_id user) (JS.ToString (b_doctor_id b)) ;;
            write (update_patient_selected (l_id l)) ;;;
            ret (json 200 Ok)
      | Some doctor =>
          if negb (JS.truthy_str (b_patient_email b)) then
            ret (json 400 (ErrorMsg "patient_email required"))
          else
            found <- query (fun d =>
              if text_ok (b_patient_email b) then
                maybeSingle
                  (filter
                     (fun p =>
                        is_str (p_email p) (JS.ToString (b_patient_email b))
                        && match p_role p with
                           | Some patient => true
                           | _ => false
                           end) (profiles d))
              else Error) ;;
            match found with
            | Data (Some p) =>
                l <- getOrCreateLink (p_id p) (au_id user) ;;
                write (update_doctor_selected (l_id l)) ;;;
                ret (json 200 Ok)
            | Data None | Error => ret (json 404 (ErrorMsg "Patient not found"))
            end
      | None => ret (json 403 (ErrorMsg "Forbidden"))
      end
  end.

(** The embedded row [profiles:<column>(...)] of a link. *)
Definition joined_profile (id : uuid) (d : db) : option profile :=
  hd_error (profiles_by_id id d).

(** [case 'link.list']: the counterparts on mutually selected links. *)
Definition link_list (user : auth_user) : M response :=
  myProfile <- query (getProfile (au_id user)) ;;
  match myProfile with
  | None => ret (json 400 (ErrorMsg "No profile"))
  | Some mine =>
      match p_role mine with
      | Some patient =>
          items <- query (fun d =>
            map (fun l =>
                   {| li_id := l_doctor_id l;
                      li_name :=
                        match joined_profile (l_doctor_id l) d with
                        | Some p => or_null (p_name p)
                        | None => None
                        end;
                      li_speciality :=
                        match doctor_profiles_of (l_doctor_id l) d with
                        | dp :: _ => or_null (dp_speciality dp)
                        | [] => None
                        end;
                      li_email := None |})
              (filter (fun l => String.eqb (l_patient_id l) (au_id user)
                                && l_patient_selected l && l_doctor_selected l)
                 (doctor_patient_links d))) ;;
          ret (json 200 (LinkedItems items))
      | Some doctor =>
          items <- query (fun d =>
            map (fun l =>
                   {| li_id := l_patient_id l;
                      li_name :=
                        match joined_profile (l_patient_id l) d with
                        | Some p => or_null (p_name p)
                        | None => None
                        end;
                      li_speciality := None;
                      li_email :=
                        match joined_profile (l_patient_id l) d with
                        | Some p => or_null (p_email p)
                        | None => None
                        end |})
              (filter (fun l => String.eqb (l_doctor_id l) (au_id user)
                                && l_patient_selected l && l_doctor_selected l)
                 (doctor_patient_links d))) ;;
          ret (json 200 (LinkedItems items))
      | None => ret (json 403 (ErrorMsg "Forbidden"))
      end
  end.

(** [switch (action)]. *)
Definition dispatch (user : auth_user) (req : request) (b : body)
    : M response :=
  if is_str (action req) "me" then me user
  else if is_str (action req) "profile.get" then profile_get user req
  else if is_str (action req) "profile.upsert" then profile_upsert user b
  else if is_str (action req) "habits.upsert" then
    habits_upsert user b (now req)
  else if is_str (action req) "habits.fetch" then habits_fetch user req
  else if is_str (action req) "vitals.upsert" then
    vitals_upsert user b (now req)
  else if is_str (action req) "vitals.fetch" then vitals_fetch user req
  else if is_str (action req) "doctors.list" then doctors_list
  else if is_str (action req) "link.select" then link_select user b
  else if is_str (action req) "link.list" then link_list user
  else ret (json 400 (ErrorMsg "Unknown action")).

(** [export default async function handler(req, res)]. *)
Definition handler (req : request) (d : db) : response * db :=
  if String.eqb (method req) "OPTIONS" then (json 204 NoContent, d)
  else
    match getAuthUser req with
    | None => (json 401 (ErrorMsg "Unauthorized"), d)
    | Some user =>
        let b := if String.eqb (method req) "POST" then req_body req
                 else no_body in
        catch (dispatch user req b) d
    end.

(** The requests of a list handled one after the other. *)
Fixpoint serve (reqs : list request) (d : db) : list response * db :=
  match reqs with
  | [] => ([], d)
  | r :: rest =>
      let '(resp, d') := handler r d in
      let '(resps, d'') := serve rest d' in
      (resp :: resps, d'')
  end.

End Handler.

End Api.

(* ================================================================== *)
(** * A sample deployment                                              *)
(* ================================================================== *)

Module Sample.
Import PG Api.

(** The day number of a calendar date. *)
Definition days_from_civil (y m d : Z) : Z :=
  let y' := if m <=? 2 then y - 1 else y in
  let era := y' / 400 in
  let yoe := y' - era * 400 in
  let doy := (153 * (if 2 <? m then m - 3 else m + 9) + 2) / 5 + d - 1 in
  let doe := yoe * 365 + yoe / 4 - yoe / 100 + doy in
  era * 146097 + doe - 719468.

(** A run of exactly [w] digits at the front of [s]. *)
Definition fixed_digits (w : Z) (s : string) : option (Z * string) :=
  let '(n, cnt, r) := JS.scan_digits (substring 0 (Z.to_nat w) s) 0 0 in
  if cnt =? w then Some (n, substring (Z.to_nat w) (String.length s) s)
  else None.

(** [date_in] restricted to the ISO 8601 form [YYYY-MM-DD]. *)
Definition iso_date_in (s : string) : option Z :=
  match fixed_digits 4 s with
  | Some (y, String "-" r) =>
      match fixed_digits 2 r with
      | Some (m, String "-" r') =>
          match fixed_digits 2 r' with
          | Some (d, EmptyString) =>
              let day := days_from_civil y m d in
              match JS.civil day with
              | (y', m', d') =>
                  if (y' =? y) && (m' =? m) && (d' =? d) && (1 <=? y)
                  then Some day else None
              end
          | _ => None
          end
      | _ => None
      end
  | _ => None
  end.

Definition alice_id : uuid := "a11ce000-0000-4000-8000-000000000001".
Definition bob_id : uuid := "b0b00000-0000-4000-8000-000000000002".
Definition dana_id : uuid := "da7a0000-0000-4000-8000-000000000003".

(** A uuid of no account. *)
Definition nobody_id : uuid := "0b0d1e55-0000-4000-8000-000000000009".

(** Dana's uuid in upper case. *)
Definition dana_spelled : string := "DA7A0000-0000-4000-8000-000000000003".

(** Alice's uuid in upper case, in braces and without hyphens. *)
Definition alice_spelled : string := "{A11CE000000040008000000000000001}".

(** U+00A0, the no-break space. *)
Definition nbsp : string := JS.bytes [194; 160]%nat.

Definition alice : auth_user :=
  {| au_id := alice_id; au_email := Some "alice@example.org" |}.
Definition bob : auth_user :=
  {| au_id := bob_id; au_email := Some "bob@example.org" |}.
Definition dana : auth_user :=
  {| au_id := dana_id; au_email := Some "dana@example.org" |}.

(** Three sessions. *)
Definition sessions (token : string) : option auth_user :=
  if String.eqb token "t-alice" then Some alice
  else if String.eqb token "t-bob" then Some bob
  else if String.eqb token "t-dana" then Some dana
  else None.

(** The identity provider gives each id as PostgreSQL prints it. *)
Definition sessions_uuid (token : string) (user : auth_user)
    : sessions token = Some user -> uuid_in (au_id user) = Some (au_id user).
Proof.
  unfold sessions.
  destruct (String.eqb token "t-alice"); [intros [= <-]; reflexivity|].
  destruct (String.eqb token "t-bob"); [intros [= <-]; reflexivity|].
  destruct (String.eqb token "t-dana"); [intros [= <-]; reflexivity|].
  discriminate.
Qed.

#[export] Instance backend : Backend :=
  {| date_in := iso_date_in; auth_getUser := sessions;
     auth_uuid := sessions_uuid |}.

(** 2024-01-05T10:00:00Z. *)
Definition clock : Z := 1704448800000.

Definition get (tok act : string) (uid range : option string) : request :=
  {| method := "GET"; authorization := Some ("Bearer " ++ tok);
     action := Some act; qp_user_id := uid; qp_rangeDays := range;
     req_body := no_body; now := clock |}.

Definition post (tok act : string) (b : body) : request :=
  {| method := "POST"; authorization := Some ("Bearer " ++ tok);
     action := Some act; qp_user_id := None; qp_rangeDays := None;
     req_body := b; now := clock |}.

Definition with_role (r name : string) : body :=
  {| b_name := Some name; b_role := Some r; b_patient := None;
     b_doctor := None; b_date := None; b_steps := None;
     b_water_cups := None; b_sleep_hours := None; b_blood_glucose := None;
     b_blood_pressure_sys := None; b_blood_pressure_dia := None;
     b_heart_rate := None; b_body_temperature := None;
     b_doctor_id := None; b_patient_email := None |}.

Definition habits_body (date steps water sleep : option string) : body :=
  {| b_name := None; b_role := None; b_patient := None;
     b_doctor := None; b_date := date; b_steps := steps;
     b_water_cups := water; b_sleep_hours := sleep; b_blood_glucose := None;
     b_blood_pressure_sys := None; b_blood_pressure_dia := None;
     b_heart_rate := None; b_body_temperature := None;
     b_doctor_id := None; b_patient_email := None |}.

Definition vitals_body (date glucose sys dia heart temp : option string)
    : body :=
  {| b_name := None; b_role := None; b_patient := None;
     b_doctor := None; b_date := date; b_steps := None;
     b_water_cups := None; b_sleep_hours := None; b_blood_glucose := glucose;
     b_blood_pressure_sys := sys; b_blood_pressure_dia := dia;
     b_heart_rate := heart; b_body_temperature := temp;
     b_doctor_id := None; b_patient_email := None |}.

Definition select_doctor (id : string) : body :=
  {| b_name := None; b_role := None; b_patient := None;
     b_doctor := None; b_date := None; b_steps := None;
     b_water_cups := None; b_sleep_hours := None; b_blood_glucose := None;
     b_blood_pressure_sys := None; b_blood_pressure_dia := None;
     b_heart_rate := None; b_body_temperature := None;
     b_doctor_id := Some id; b_patient_email := None |}.

Definition select_patient (email : string) : body :=
  {| b_name := None; b_role := None; b_patient := None;
     b_doctor := None; b_date := None; b_steps := None;
     b_water_cups := None; b_sleep_hours := None; b_blood_glucose := None;
     b_blood_pressure_sys := None; b_blood_pressure_dia := None;
     b_heart_rate := None; b_body_temperature := None;
     b_doctor_id := None; b_patient_email := Some email |}.

(** Alice and Bob are patients, Dana is a doctor. *)
Definition registered : db :=
  snd (serve [post "t-alice" "profile.upsert" (with_role "patient" "Alice");
              post "t-bob" "profile.upsert" (with_role "patient" "Bob");
              post "t-dana" "profile.upsert" (with_role "doctor" "Dana")]
         empty).

(** Alice and Dana have selected each other; Bob has selected Dana. *)
Definition linked : db :=
  snd (serve [post "t-alice" "link.select" (select_doctor dana_id);
              post "t-dana" "link.select" (select_patient "alice@example.org");
              post "t-bob" "link.select" (select_doctor dana_id)]
         registered).

(** Alice's habits with an entry dated 2999-01-01. *)
Definition planned : db :=
  snd (handler
         (post "t-alice" "habits.upsert"
            (habits_body (Some "2999-01-01") (Some "1") (Some "2")
               (Some "3")))
         registered).

(** Alice and Dana linked, and Alice's habits with an entry for 2024-01-01
    and one for 2023-11-01. *)
Definition tracked : db :=
  snd (serve
         [post "t-alice" "habits.upsert"
            (habits_body (Some "2023-11-01") (Some "4000") (Some "5")
               (Some "8"));
          post "t-alice" "habits.upsert"
            (habits_body (Some "2024-01-01") (Some "5000") (Some "6")
               (Some "7.5"))]
         linked).

(** Alice's vitals with a full entry for 2024-01-02. *)
Definition measured : db :=
  snd (handler
         (post "t-alice" "vitals.upsert"
            (vitals_body (Some "2024-01-02") (Some "98") (Some "120")
               (Some "80") (Some "64") (Some "36.6")))
         registered).

End Sample.

(* ================================================================== *)
(** * What the claims speak of                                         *)
(* ================================================================== *)

Module Schema.
Import PG Api.

(** No two elements of [l] are the same according to [same]. *)
Fixpoint distinct {A} (same : A -> A -> bool) (l : list A) : bool :=
  match l with
  | [] => true
  | x :: r => negb (existsb (same x) r) && distinct same r
  end.

(** When two rows collide on a key of [supabase.sql]. *)
Definition same_profile (a b : profile) : bool := String.eqb (p_id a) (p_id b).
Definition same_habit_id (a b : habit) : bool := h_id a =? h_id b.
Definition same_habit_key (a b : habit) : bool :=
  habit_at (h_user_id a) (h_date a) b.
Definition same_vital_id (a b : vital) : bool := v_id a =? v_id b.
Definition same_vital_key (a b : vital) : bool :=
  vital_at (v_user_id a) (v_date a) b.
Definition same_link_id (a b : link) : bool := l_id a =? l_id b.
Definition same_link_key (a b : link) : bool :=
  link_of (l_patient_id a) (l_doctor_id a) b.

(** A [profiles] row holds values of its columns' types: the id is a uuid as
    PostgreSQL prints it, email and name are texts it stores. *)
Definition typed_profile (p : profile) : bool :=
  is_uuid (p_id p) && text_ok (p_email p) && text_ok (p_name p).

(** What [supabase.sql] makes of the tables, as far as the handler relies
    on it: the primary keys of [profiles], [habits], [vitals] and
    [doctor_patient_links], [unique(user_id, date)] on both daily tables
    and [unique(patient_id, doctor_id)] on the links; the row identifiers
    in use lie below the next one to be drawn; and the [profiles] rows hold
    values of the column types. *)
Definition schema_ok (d : db) : bool :=
  distinct same_profile (profiles d)
  && distinct same_habit_id (habits d)
  && distinct same_habit_key (habits d)
  && distinct same_vital_id (vitals d)
  && distinct same_vital_key (vitals d)
  && distinct same_link_id (doctor_patient_links d)
  && distinct same_link_key (doctor_patient_links d)
  && forallb (fun h => h_id h <? next_rowid d) (habits d)
  && forallb (fun v => v_id v <? next_rowid d) (vitals d)
  && forallb (fun l => l_id l <? next_rowid d) (doctor_patient_links d)
  && forallb typed_profile (profiles d).

(** A step that keeps the keys. *)
Definition sound (d d' : db) : Prop :=
  schema_ok d = true -> schema_ok d' = true.

(** The account [id] has the role doctor. *)
Definition is_doctor (d : db) (id : uuid) : Prop :=
  exists p, In p (profiles d) /\ p_id p = id /\ p_role p = Some doctor.

(** The account [id] has the role patient. *)
Definition is_patient (d : db) (id : uuid) : Prop :=
  exists p, In p (profiles d) /\ p_id p = id /\ p_role p = Some patient.

(** A ConsentLink row for (patient, doctor) with both flags true. *)
Definition mutual_link (d : db) (pid did : uuid) : Prop :=
  exists l, In l (doctor_patient_links d) /\ l_patient_id l = pid /\
            l_doctor_id l = did /\ l_patient_selected l = true /\
            l_doctor_selected l = true.

(** The same for the account that a text of the request names. *)
Definition mutual_link_for (d : db) (t : string) (did : uuid) : Prop :=
  exists pid, uuid_in t = Some pid /\ mutual_link d pid did.

(** The account that a text of the request names has a profile. *)
Definition has_profile_for (t : string) (d : db) : bool :=
  match uuid_in t with
  | Some id => has_profile id d
  | None => false
  end.

(** The doctor's flag on the link of (patient, doctor): false while there is
    no row. *)
Definition doctor_consented (d : db) (pid did : uuid) : bool :=
  existsb (fun l => link_of pid did l && l_doctor_selected l)
    (doctor_patient_links d).

(** A link row and what it has become: the same row, no flag withdrawn. *)
Definition keeps_consent (l l' : link) : Prop :=
  l_id l' = l_id l /\ l_patient_id l' = l_patient_id l /\
  l_doctor_id l' = l_doctor_id l /\
  (l_patient_selected l = true -> l_patient_selected l' = true) /\
  (l_doctor_selected l = true -> l_doctor_selected l' = true).

Section Requests.
Context {B : Backend}.

(** An authenticated request of [user] for the action [act]. *)
Definition calls (req : request) (user : auth_user) (act : string) : Prop :=
  String.eqb (method req) "OPTIONS" = false /\
  getAuthUser req = Some user /\
  action req = Some act.

(** An authenticated POST of [user] for the action [act] with the body
    [b]. *)
Definition posts (req : request) (user : auth_user) (act : string)
    (b : body) : Prop :=
  method req = "POST" /\ getAuthUser req = Some user /\
  action req = Some act /\ req_body req = b.

(** The actions that read the rows of a target account. *)
Definition reads_account (act : string) : Prop :=
  act = "profile.get" \/ act = "habits.fetch" \/ act = "vitals.fetch".

(** Link rows stay where they are, with no flag withdrawn. *)
Definition links_kept (L L' : list link) : Prop :=
  forall n l, nth_error L n = Some l ->
  exists l', nth_error L' n = Some l' /\ keeps_consent l l'.

(** The habits row a successful [habits.upsert] with the body [b] leaves
    for the calendar day [day]. *)
Definition habit_written (user : auth_user) (day : Z) (b : body) (id : rowid)
    : habit :=
  {| h_id := id; h_user_id := au_id user; h_date := day;
     h_steps := Some (or_int (toInt (b_steps b)) 0);
     h_water_cups := Some (or_int (toInt (b_water_cups b)) 0);
     h_sleep_hours := Some (float8 (or_zero (toFloat (b_sleep_hours b)))) |}.

(** The vitals row a successful [vitals.upsert] with the body [b] leaves
    for the calendar day [day]. *)
Definition vital_written (user : auth_user) (day : Z) (b : body) (id : rowid)
    : vital :=
  {| v_id := id; v_user_id := au_id user; v_date := day;
     v_blood_glucose := toInt (b_blood_glucose b);
     v_blood_pressure_sys := toInt (b_blood_pressure_sys b);
     v_blood_pressure_dia := toInt (b_blood_pressure_dia b);
     v_heart_rate := toInt (b_heart_rate b);
     v_body_temperature :=
       option_map float8 (toFloat (b_body_temperature b)) |}.

(** A step that keeps the link rows. *)
Definition kept (d d' : db) : Prop :=
  links_kept (doctor_patient_links d) (doctor_patient_links d').

(** ** The answers of the reading actions past the check *)

(** What [profile.get] answers once the check has let it through. *)
Definition profile_found (t : string) (d : db) : response :=
  match for_uuid t (fun id => maybeSingle (profiles_by_id id d)) with
  | Data (Some prof) =>
      match p_role prof with
      | Some patient =>
          json 200
            (ProfilePatient prof
               (data_of
                  (for_uuid t (fun id =>
                     maybeSingle (patient_profiles_of id d)))))
      | Some doctor =>
          json 200
            (ProfileDoctor prof
               (data_of
                  (for_uuid t (fun id =>
                     maybeSingle (doctor_profiles_of id d)))))
      | None => json 200 (ProfileOnly prof)
      end
  | _ => json 404 (ErrorMsg "Not found")
  end.

(** What [habits.fetch] answers once the check has let it through. *)
Definition habits_found (t : string) (clock days : Z) (d : db) : response :=
  match daysAgoISO clock days with
  | Some since =>
      match select_habits_since t since d with
      | Data rows => json 200 (HabitItems (map habit_item_of rows))
      | Error => json 500 (Failure PgError)
      end
  | None => json 500 (Failure RangeError)
  end.

Definition vitals_found (t : string) (clock days : Z) (d : db) : response :=
  match daysAgoISO clock days with
  | Some since =>
      match select_vitals_since t since d with
      | Data rows => json 200 (VitalItems (map vital_item_of rows))
      | Error => json 500 (Failure PgError)
      end
  | None => json 500 (Failure RangeError)
  end.

End Requests.

(** The front of a text (after white space and a sign) that [parseInt]
    reads as a number: a decimal digit. *)
Definition int_literal (v : option string) : bool :=
  match snd (JS.scan_sign (JS.trim_start (JS.ToString v))) with
  | String c _ => JS.is_digit c
  | EmptyString => false
  end.

(** The front of a text that [parseFloat] reads as a number: [Infinity], a
    digit, or a point and a digit. *)
Definition float_literal (v : option string) : bool :=
  let r := snd (JS.scan_sign (JS.trim_start (JS.ToString v))) in
  prefix "Infinity" r ||
  match r with
  | String "." (String c _) => JS.is_digit c
  | String c _ => JS.is_digit c
  | EmptyString => false
  end.

(** The text carries a minus sign (after white space). *)
Definition minus_signed (v : option string) : bool :=
  fst (JS.scan_sign (JS.trim_start (JS.ToString v))).

End Schema.

(* ================================================================== *)
(** * Further notions: what the handler answers and what it changes    *)
(* ================================================================== *)

Module Conduct.
Import PG Api Schema.

(** The actions that write to the database. *)
Definition writes (act : option string) : bool :=
  is_str act "profile.upsert" || is_str act "habits.upsert"
  || is_str act "vitals.upsert" || is_str act "link.select".

(** A link row on which one side at least has consented. *)
Definition has_flag (l : link) : bool :=
  l_patient_selected l || l_doctor_selected l.

(** A link row with the patient's flag set, and with the doctor's. *)
Definition mark_patient (l : link) : link :=
  {| l_id := l_id l; l_patient_id := l_patient_id l;
     l_doctor_id := l_doctor_id l; l_patient_selected := true;
     l_doctor_selected := l_doctor_selected l |}.

Definition mark_doctor (l : link) : link :=
  {| l_id := l_id l; l_patient_id := l_patient_id l;
     l_doctor_id := l_doctor_id l;
     l_patient_selected := l_patient_selected l;
     l_doctor_selected := true |}.

(** What a request of [caller] may have made of the link row at a place,
    [before] being the row that was there: nothing, or the caller's own flag
    set on a row the caller is a party of; and a row that was not there is a
    row of the caller with the caller's flag alone. *)
Definition own_mark (caller : uuid) (before : option link) (l' : link)
    : Prop :=
  match before with
  | Some l =>
      l' = l \/
      (l_patient_id l = caller /\ l' = mark_patient l) \/
      (l_doctor_id l = caller /\ l' = mark_doctor l)
  | None =>
      (l_patient_id l' = caller /\ l_patient_selected l' = true /\
       l_doctor_selected l' = false) \/
      (l_doctor_id l' = caller /\ l_doctor_selected l' = true /\
       l_patient_selected l' = false)
  end.

(** The patient's flag on the link of (patient, doctor): false while there
    is no row. *)
Definition patient_consented (d : db) (pid did : uuid) : bool :=
  existsb (fun l => link_of pid did l && l_patient_selected l)
    (doctor_patient_links d).

(** The selection of [link.select], doctor's branch:
    [.eq('email', patientEmail).eq('role', 'patient')]. *)
Definition patient_by_email (e : string) (p : profile) : bool :=
  is_str (p_email p) e
  && match p_role p with
     | Some patient => true
     | _ => false
     end.

(** The foreign keys of [doctor_patient_links]: both accounts of every
    link row have a profile. *)
Definition links_refer (d : db) : bool :=
  forallb (fun l => has_profile (l_patient_id l) d
                    && has_profile (l_doctor_id l) d)
    (doctor_patient_links d).

(** The role column [profiles.upsert] is given for the text [role]: none
    when no role is sent; [None] when the check on the column refuses the
    text. *)
Definition role_sent (role : option string) : option (option PG.role) :=
  match role with
  | None => Some None
  | Some s => option_map Some (role_in s)
  end.

(** The profile row an upsert of [email], [name] and the role [r] leaves for
    the account [id], [old] being the row it had. *)
Definition profile_written (id : uuid) (email name : option string)
    (r : option PG.role) (old : option profile) : profile :=
  {| p_id := id;
     p_email := sent email (match old with
                            | Some p => p_email p
                            | None => None
                            end);
     p_name := sent name (match old with
                          | Some p => p_name p
                          | None => None
                          end);
     p_role := sent r (match old with
                       | Some p => p_role p
                       | None => None
                       end) |}.

(** The [patient_profiles] row [ensureProfile] sends for the payload [p]. *)
Definition patient_row (id : uuid) (p : patient_payload) : patient_profile :=
  {| pp_user_id := id;
     pp_age := toInt (pa_age p);
     pp_weight := option_map float8 (toFloat (pa_weight p));
     pp_height := option_map float8 (toFloat (pa_height p));
     pp_gender := or_null (pa_gender p);
     pp_nationality := or_null (pa_nationality p);
     pp_medical_history := or_null (pa_medical_history p);
     pp_current_medications := or_null (pa_current_medications p);
     pp_allergies := or_null (pa_allergies p);
     pp_family_history := or_null (pa_family_history p);
     pp_lifestyle_factors := or_null (pa_lifestyle_factors p) |}.

(** [payload.patient || {}]. *)
Definition patient_of (b : body) : patient_payload :=
  match b_patient b with
  | Some p => p
  | None => no_patient
  end.

(** The primary key of [patient_profiles] at the account [id]: at most one
    row. *)
Definition one_patient_row (id : uuid) (d : db) : bool :=
  (List.length (patient_profiles_of id d) <=? 1)%nat.

Section Acceptance.
Context {B : Backend}.

(** What PostgreSQL needs to take the row of [habits.upsert]: the caller
    has a profile, the date is one [date] reads, and both counts fit
    [int]. *)
Definition habits_fit (user : auth_user) (b : body) (t : Z) (d : db) : bool :=
  has_profile (au_id user) d
  && match date_in (upsert_date b t) with
     | Some _ => true
     | None => false
     end
  && int4 (or_int (toInt (b_steps b)) 0)
  && int4 (or_int (toInt (b_water_cups b)) 0).

(** The same for the row of [vitals.upsert]. *)
Definition vitals_fit (user : auth_user) (b : body) (t : Z) (d : db) : bool :=
  has_profile (au_id user) d
  && match date_in (upsert_date b t) with
     | Some _ => true
     | None => false
     end
  && int4_opt (toInt (b_blood_glucose b))
  && int4_opt (toInt (b_blood_pressure_sys b))
  && int4_opt (toInt (b_blood_pressure_dia b))
  && int4_opt (toInt (b_heart_rate b)).

End Acceptance.

(** The body of a [profile.upsert] with a patient's details. *)
Definition details_body (name : string) (p : patient_payload) : body :=
  {| b_name := Some name; b_role := Some "patient"; b_patient := Some p;
     b_doctor := None; b_date := None; b_steps := None;
     b_water_cups := None; b_sleep_hours := None; b_blood_glucose := None;
     b_blood_pressure_sys := None; b_blood_pressure_dia := None;
     b_heart_rate := None; b_body_temperature := None;
     b_doctor_id := None; b_patient_email := None |}.

(** Details as a form may send them: an age with a fraction, a weight with
    its unit, an empty gender. *)
Definition details (age : string) : patient_payload :=
  {| pa_age := Some age; pa_weight := Some "70.2kg";
     pa_height := Some "1.75"; pa_gender := Some "";
     pa_nationality := Some "NZ"; pa_medical_history := None;
     pa_current_medications := None; pa_allergies := Some "pollen";
     pa_family_history := None; pa_lifestyle_factors := None |}.

(** The primary key of [doctor_profiles] at the account [id]. *)
Definition one_doctor_row (id : uuid) (d : db) : bool :=
  (List.length (doctor_profiles_of id d) <=? 1)%nat.

(** The foreign keys of [supabase.sql]: every row of the detail tables, of
    the daily tables and of the links belongs to accounts with a profile. *)
Definition references_ok (d : db) : bool :=
  forallb (fun p => has_profile (pp_user_id p) d) (patient_profiles d)
  && forallb (fun p => has_profile (dp_user_id p) d) (doctor_profiles d)
  && forallb (fun h => has_profile (h_user_id h) d) (habits d)
  && forallb (fun v => has_profile (v_user_id v) d) (vitals d)
  && links_refer d.

(** A step that removes no profile and keeps the foreign keys and the
    primary keys of the detail tables. *)
Definition refs_kept (d d' : db) : Prop :=
  (forall id, has_profile id d = true -> has_profile id d' = true) /\
  (references_ok d = true -> references_ok d' = true) /\
  (forall id, one_patient_row id d = true -> one_patient_row id d' = true) /\
  (forall id, one_doctor_row id d = true -> one_doctor_row id d' = true).

(** A run of decimal digits. *)
Fixpoint all_digits (s : string) : bool :=
  match s with
  | String c r => JS.is_digit c && all_digits r
  | EmptyString => true
  end.

(** A text that does not go on with a digit. *)
Definition no_digit_ahead (s : string) : bool :=
  match s with
  | String c _ => negb (JS.is_digit c)
  | EmptyString => true
  end.

(** A step that changes nothing. *)
Definition unchanged (d d' : db) : Prop := d' = d.

(** A step that leaves the link rows as they were. *)
Definition links_untouched (d d' : db) : Prop :=
  doctor_patient_links d' = doctor_patient_links d.

(** A step that leaves no link row without a flag. *)
Definition flagged (d d' : db) : Prop :=
  forallb has_flag (doctor_patient_links d) = true ->
  forallb has_flag (doctor_patient_links d') = true.

(** Every response [m] returns satisfies [P]. *)
Definition answers {A} (P : A -> Prop) (m : M A) : Prop :=
  forall d, match fst (m d) with
            | Returned a => P a
            | Thrown _ => True
            end.

(** The statuses an authenticated request is answered with. *)
Definition served (r : response) : Prop :=
  In (status r) [200; 400; 403; 404; 500].

(** The statuses the handler answers with. *)
Definition statuses : list Z := [200; 204; 400; 401; 403; 404; 500].

End Conduct.

(* ================================================================== *)
(** * Proofs                                                           *)
(* ================================================================== *)

Module Scenarios.
Import PG Api Sample.

#[local] Existing Instance Sample.backend.

Example parseInt_digits : toInt (Some "5000") = Some 5000.
Proof. vm_compute. reflexivity. Qed.

Example parseInt_prefix : toInt (Some "  -12abc") = Some (-12).
Proof. vm_compute. reflexivity. Qed.

Example parseInt_fraction : toInt (Some "7.5") = Some 7.
Proof. vm_compute. reflexivity. Qed.

Example parseInt_rounds :
  toInt (Some "9007199254740993") = Some 9007199254740992.
Proof. vm_compute. reflexivity. Qed.

Example parseInt_empty : JS.parseInt (Some "") = S754_nan.
Proof. reflexivity. Qed.

Example parseInt_undefined : JS.parseInt None = S754_nan.
Proof. reflexivity. Qed.

Example parseFloat_decimal :
  JS.parseFloat (Some "7.5") = S754_finite false 8444249301319680 (-50).
Proof. vm_compute. reflexivity. Qed.

Example parseFloat_exponent :
  JS.parseFloat (Some "-.5e1x") = JS.of_Z (-5).
Proof. vm_compute. reflexivity. Qed.

Example parseFloat_overflow : toFloat (Some "1e400") = None.
Proof. vm_compute. reflexivity. Qed.

Example parseFloat_point : JS.parseFloat (Some ".") = S754_nan.
Proof. vm_compute. reflexivity. Qed.

Example isoSlice_epoch : JS.isoSlice 0 = "1970-01-01".
Proof. vm_compute. reflexivity. Qed.

Example isoSlice_leap : JS.isoSlice 1709164800000 = "2024-02-29".
Proof. vm_compute. reflexivity. Qed.

Example isoSlice_far : JS.isoSlice 253402300800000 = "+010000-01".
Proof. vm_compute. reflexivity. Qed.

Example daysAgoISO_week : daysAgoISO clock 7 = Some "2023-12-29".
Proof. vm_compute. reflexivity. Qed.

Example daysAgoISO_invalid : daysAgoISO clock 99999999999999 = None.
Proof. vm_compute. reflexivity. Qed.

(** A patient records a day and reads it back. *)
Example record_and_fetch :
  fst (serve
         [post "t-alice" "habits.upsert"
            (habits_body (Some "2024-01-01") (Some "5000") (Some "6")
               (Some "7.5"));
          get "t-alice" "habits.fetch" None (Some "7")] registered) =
  [json 200 Ok;
   json 200 (HabitItems
               [{| hi_date := 19723; hi_steps := Some 5000;
                   hi_water_cups := Some 6;
                   hi_sleep_hours := toFloat (Some "7.5") |}])].
Proof. vm_compute. reflexivity. Qed.

(** A doctor is refused until both sides have selected each other. *)
Example consent_then_fetch :
  map status
    (fst (serve
            [get "t-dana" "vitals.fetch" (Some alice_id) None;
             post "t-alice" "link.select" (select_doctor dana_id);
             get "t-dana" "vitals.fetch" (Some alice_id) None;
             post "t-dana" "link.select" (select_patient "alice@example.org");
             get "t-dana" "vitals.fetch" (Some alice_id) None]
            registered)) =
  [403; 200; 403; 200; 200].
Proof. vm_compute. reflexivity. Qed.

(** A consenting doctor reads the last thirty days of a patient. *)
Example fetch_last_month :
  fst (handler (get "t-dana" "habits.fetch" (Some alice_id) (Some "30"))
         tracked) =
  json 200 (HabitItems
              [{| hi_date := 19723; hi_steps := Some 5000;
                  hi_water_cups := Some 6;
                  hi_sleep_hours := toFloat (Some "7.5") |}]).
Proof. vm_compute. reflexivity. Qed.

Example no_bearer :
  fst (handler {| method := "GET"; authorization := None;
                  action := Some "me"; qp_user_id := None;
                  qp_rangeDays := None; req_body := no_body; now := clock |}
         registered) = json 401 (ErrorMsg "Unauthorized").
Proof. vm_compute. reflexivity. Qed.

Example unknown_action :
  fst (handler (get "t-bob" "habits.delete" None None) registered) =
  json 400 (ErrorMsg "Unknown action").
Proof. vm_compute. reflexivity. Qed.

(** A link to an account that does not exist violates the foreign key. *)
Example select_nobody :
  fst (handler (post "t-bob" "link.select" (select_doctor nobody_id))
         registered) = json 500 (Failure PgError).
Proof. vm_compute. reflexivity. Qed.

(** White space beyond ASCII is skipped before a number. *)
Example parseInt_no_break_space : toInt (Some (nbsp ++ "42")) = Some 42.
Proof. vm_compute. reflexivity. Qed.

Example parseInt_no_break_space_minus :
  toInt (Some (nbsp ++ "-5")) = Some (-5) /\
  Schema.minus_signed (Some (nbsp ++ "-5")) = true.
Proof. split; vm_compute; reflexivity. Qed.

Example parseFloat_ideographic_space :
  JS.parseFloat (Some (JS.bytes [227; 128; 128]%nat ++ "7.5")) =
  JS.parseFloat (Some "7.5").
Proof. vm_compute. reflexivity. Qed.

(** And trimmed from both ends of a token: U+FEFF before, U+2009 after. *)
Example trim_wide_spaces :
  JS.trim (JS.bytes [239; 187; 191]%nat ++ "t-bob"
           ++ JS.bytes [226; 128; 137]%nat) = "t-bob".
Proof. vm_compute. reflexivity. Qed.

(** A byte from 128 up that starts no white space stays. *)
Example trim_keeps_letters :
  JS.trim (JS.bytes [195; 169]%nat ++ " ") = JS.bytes [195; 169]%nat.
Proof. vm_compute. reflexivity. Qed.

(** PostgreSQL reads a uuid in upper case, without hyphens and in braces,
    and prints it in one way. *)
Example uuid_in_spellings :
  uuid_in alice_spelled = Some alice_id /\
  uuid_in dana_spelled = Some dana_id /\
  uuid_in alice_id = Some alice_id /\
  uuid_in "a11ce" = None /\
  uuid_in (alice_id ++ " ") = None.
Proof. repeat split; vm_compute; reflexivity. Qed.

(** A consenting doctor names the patient in another spelling. *)
Example fetch_other_spelling :
  fst (handler (get "t-dana" "habits.fetch" (Some alice_spelled) (Some "30"))
         tracked) =
  json 200 (HabitItems
              [{| hi_date := 19723; hi_steps := Some 5000;
                  hi_water_cups := Some 6;
                  hi_sleep_hours := toFloat (Some "7.5") |}]).
Proof. vm_compute. reflexivity. Qed.

(** The handler compares [forUserId] with [user.id] as texts: the caller's
    own account in another spelling goes through [canDoctorView]. *)
Example own_account_other_spelling :
  map status
    (fst (serve
            [get "t-alice" "habits.fetch" (Some alice_id) None;
             get "t-alice" "habits.fetch" (Some alice_spelled) None]
            tracked)) = [200; 403].
Proof. vm_compute. reflexivity. Qed.

(** A text that is no uuid is refused by PostgreSQL: the select of
    [canDoctorView] gives no row. *)
Example fetch_no_uuid :
  status (fst (handler (get "t-dana" "habits.fetch" (Some "a11ce") None)
                 tracked)) = 403.
Proof. vm_compute. reflexivity. Qed.

(** PostgreSQL stores no text that holds U+0000. *)
Example name_with_nul :
  handler (post "t-bob" "profile.upsert"
             (with_role "patient" (String zero "Bob"))) registered =
  (json 500 (Failure PgError), registered).
Proof. vm_compute. reflexivity. Qed.

End Scenarios.

Module ListFacts.
Import Schema.

Lemma existsb_false_In {A} (f : A -> bool) l x :
  existsb f l = false -> In x l -> f x = false.
Proof.
  intros H Hin. destruct (f x) eqn:E; [|reflexivity].
  assert (existsb f l = true) by (apply existsb_exists; eauto). congruence.
Qed.

(** Under a key, a selection that fixes the key has at most one row. *)
Lemma distinct_filter {A} (same : A -> A -> bool) (sel : A -> bool) l :
  distinct same l = true ->
  (forall a b, sel a = true -> sel b = true -> same a b = true) ->
  filter sel l = [] \/ exists x, filter sel l = [x].
Proof.
  intros Hd Hs. induction l as [|x r IH]; simpl in *; [now left|].
  apply andb_true_iff in Hd as [Hx Hr]. apply negb_true_iff in Hx.
  destruct (sel x) eqn:Ex; [|now apply IH].
  right. exists x. f_equal.
  destruct (filter sel r) as [|y r'] eqn:Ef; [reflexivity|exfalso].
  assert (Hy : In y (filter sel r)) by (rewrite Ef; now left).
  apply filter_In in Hy as [Hy1 Hy2].
  specialize (Hs x y Ex Hy2).
  rewrite (existsb_false_In _ _ _ Hx Hy1) in Hs. discriminate.
Qed.

Lemma distinct_filter_In {A} (same : A -> A -> bool) (sel : A -> bool) l x :
  distinct same l = true ->
  (forall a b, sel a = true -> sel b = true -> same a b = true) ->
  In x l -> sel x = true -> filter sel l = [x].
Proof.
  intros Hd Hs Hin Hx.
  assert (Hf : In x (filter sel l)) by (apply filter_In; auto).
  destruct (distinct_filter same sel l Hd Hs) as [E|[y E]]; rewrite E in *.
  - contradiction.
  - destruct Hf as [->|[]]. reflexivity.
Qed.

Lemma filter_nil_existsb {A} (f : A -> bool) l :
  filter f l = [] -> existsb f l = false.
Proof.
  induction l as [|x r IH]; simpl; [reflexivity|].
  destruct (f x); [discriminate|auto].
Qed.

Lemma existsb_filter_nil {A} (f : A -> bool) l :
  existsb f l = false -> filter f l = [].
Proof.
  induction l as [|x r IH]; simpl; [reflexivity|].
  destruct (f x); simpl; [discriminate|auto].
Qed.

Lemma filter_single_In {A} (f : A -> bool) l x :
  filter f l = [x] -> In x l /\ f x = true.
Proof.
  intros E. apply filter_In. rewrite E. now left.
Qed.

End ListFacts.

Module AccessFacts.
Import PG Api Schema ListFacts.

Lemma schema_profiles d :
  schema_ok d = true ->
  distinct same_profile (profiles d) = true.
Proof.
  unfold schema_ok. intros H.
  repeat (apply andb_true_iff in H as [H ?]). exact H.
Qed.

Lemma schema_links d :
  schema_ok d = true ->
  distinct same_link_key (doctor_patient_links d) = true.
Proof.
  unfold schema_ok. intros H.
  repeat (apply andb_true_iff in H as [H ?]). assumption.
Qed.

Section WithBackend.
Context {B : Backend}.

(** [getProfile] finds the row of an account that has one. *)
Lemma getProfile_Some d id p :
  getProfile id d = Some p -> In p (profiles d) /\ p_id p = id.
Proof.
  unfold getProfile, single, profiles_by_id.
  destruct (filter _ _) as [|x [|y r]] eqn:E; try discriminate.
  intros [= <-]. apply filter_single_In in E as [Hin Hx].
  split; [assumption|]. now apply String.eqb_eq.
Qed.

Lemma getProfile_In d id p :
  schema_ok d = true -> In p (profiles d) -> p_id p = id ->
  getProfile id d = Some p.
Proof.
  intros Hok Hin Hid. unfold getProfile, profiles_by_id.
  rewrite (distinct_filter_In _ _ _ p (schema_profiles d Hok)); auto.
  - intros a b Ha Hb. apply String.eqb_eq in Ha, Hb.
    apply String.eqb_eq. congruence.
  - now apply String.eqb_eq.
Qed.

Lemma canDoctorView_mutual d did t :
  canDoctorView did t d = true -> mutual_link_for d t did.
Proof.
  unfold canDoctorView, for_uuid, maybeSingle, mutual_link_for.
  destruct (uuid_in t) as [pid|]; [|discriminate].
  destruct (filter _ _) as [|l [|y r]] eqn:E; try discriminate.
  intros H. apply andb_true_iff in H as [Hp Hd].
  apply filter_single_In in E as [Hin Hl].
  apply andb_true_iff in Hl as [H1 H2].
  apply String.eqb_eq in H1, H2.
  exists pid. split; [reflexivity|]. exists l. auto.
Qed.

Lemma mutual_canDoctorView d did t :
  schema_ok d = true -> mutual_link_for d t did ->
  canDoctorView did t d = true.
Proof.
  intros Hok (pid & Ht & l & Hin & Hp & Hd & Hps & Hds).
  unfold canDoctorView, for_uuid. rewrite Ht.
  rewrite (distinct_filter_In _ _ _ l (schema_links d Hok)); auto.
  - simpl. now rewrite Hps, Hds.
  - intros a b Ha Hb. apply andb_true_iff in Ha as [Ha1 Ha2], Hb as [Hb1 Hb2].
    apply String.eqb_eq in Ha1, Ha2, Hb1, Hb2. unfold link_of.
    apply andb_true_iff. split; apply String.eqb_eq; congruence.
  - apply andb_true_iff. split; now apply String.eqb_eq.
Qed.

(** A refusal is a 403. *)
Lemma refusal_status user t d r :
  refusal user t d = Some r -> status r = 403.
Proof.
  unfold refusal. destruct (String.eqb t (au_id user)); [discriminate|].
  destruct (getProfile _ _) as [[? ? ? [[]|]]|];
    try destruct (canDoctorView _ _ _); intros [= <-]; reflexivity.
Qed.

Lemma refusal_self user d : refusal user (au_id user) d = None.
Proof. unfold refusal. now rewrite String.eqb_refl. Qed.

(** Across accounts, whoever is not a doctor holding a mutual link is
    refused. *)
Lemma refusal_cross_None user t d :
  t <> au_id user -> refusal user t d = None ->
  is_doctor d (au_id user) /\ mutual_link_for d t (au_id user).
Proof.
  intros Hne. unfold refusal.
  apply String.eqb_neq in Hne. rewrite Hne.
  destruct (getProfile _ _) as [p|] eqn:Ep; [|discriminate].
  destruct p as [pid pe pn [[]|]]; try discriminate.
  destruct (canDoctorView _ _ _) eqn:Ec; [|discriminate]. intros _.
  apply getProfile_Some in Ep as [Hin Hid]. split.
  - exists {| p_id := pid; p_email := pe; p_name := pn;
              p_role := Some doctor |}. auto.
  - now apply canDoctorView_mutual.
Qed.

Lemma refusal_cross_permits user t d :
  schema_ok d = true ->
  is_doctor d (au_id user) -> mutual_link_for d t (au_id user) ->
  refusal user t d = None.
Proof.
  intros Hok (p & Hin & Hid & Hr) Hm. unfold refusal.
  destruct (String.eqb t (au_id user)); [reflexivity|].
  rewrite (getProfile_In d _ p Hok Hin Hid).
  destruct p as [pid pe pn r]; simpl in *; subst r.
  now rewrite (mutual_canDoctorView d _ _ Hok Hm).
Qed.

End WithBackend.
End AccessFacts.

Module HandlerFacts.
Import PG Api Schema ListFacts AccessFacts.

Section WithBackend.
Context {B : Backend}.

(** The caller's id is a uuid as PostgreSQL prints it. *)
Lemma getAuthUser_uuid req user :
  getAuthUser req = Some user -> uuid_in (au_id user) = Some (au_id user).
Proof.
  unfold getAuthUser. destruct (JS.truthy_str (authorization req));
    [|discriminate].
  destruct (JS.truthy_str _); [|discriminate]. apply auth_uuid.
Qed.

Lemma getAuthUser_is_uuid req user :
  getAuthUser req = Some user -> is_uuid (au_id user) = true.
Proof.
  intros H. unfold is_uuid. rewrite (getAuthUser_uuid _ _ H).
  apply String.eqb_refl.
Qed.

Lemma handler_calls req user act d :
  calls req user act ->
  handler req d =
  catch (dispatch user req
           (if String.eqb (method req) "POST" then req_body req
            else no_body)) d.
Proof.
  intros (Hm & Hu & _). unfold handler. now rewrite Hm, Hu.
Qed.

Lemma handler_posts req user act b d :
  posts req user act b -> handler req d = catch (dispatch user req b) d.
Proof.
  intros (Hm & Hu & _ & Hb). unfold handler. rewrite Hm, Hu, Hb. reflexivity.
Qed.

Lemma posts_calls req user act b : posts req user act b -> calls req user act.
Proof. intros (Hm & Hu & Ha & _). unfold calls. rewrite Hm. auto. Qed.

Lemma dispatch_profile_get user req b :
  action req = Some "profile.get" -> dispatch user req b = profile_get user req.
Proof. intros H. unfold dispatch. rewrite H. reflexivity. Qed.

Lemma dispatch_habits_fetch user req b :
  action req = Some "habits.fetch" ->
  dispatch user req b = habits_fetch user req.
Proof. intros H. unfold dispatch. rewrite H. reflexivity. Qed.

Lemma dispatch_vitals_fetch user req b :
  action req = Some "vitals.fetch" ->
  dispatch user req b = vitals_fetch user req.
Proof. intros H. unfold dispatch. rewrite H. reflexivity. Qed.

Lemma dispatch_habits_upsert user req b :
  action req = Some "habits.upsert" ->
  dispatch user req b = habits_upsert user b (now req).
Proof. intros H. unfold dispatch. rewrite H. reflexivity. Qed.

Lemma dispatch_vitals_upsert user req b :
  action req = Some "vitals.upsert" ->
  dispatch user req b = vitals_upsert user b (now req).
Proof. intros H. unfold dispatch. rewrite H. reflexivity. Qed.

Lemma dispatch_link_select user req b :
  action req = Some "link.select" -> dispatch user req b = link_select user b.
Proof. intros H. unfold dispatch. rewrite H. reflexivity. Qed.

Lemma truthy_str_Some t : t <> "" -> JS.truthy_str (Some t) = true.
Proof. destruct t; [congruence|reflexivity]. Qed.


Lemma profile_get_run user req t d :
  qp_user_id req = Some t -> t <> "" ->
  catch (profile_get user req) d =
  (match refusal user t d with
   | Some r => r
   | None => profile_found t d
   end, d).
Proof.
  intros Hq Ht. unfold profile_get, catch, bind, query, ret, profile_found.
  rewrite Hq, (truthy_str_Some t Ht). simpl.
  destruct (refusal user t d); [reflexivity|].
  destruct (for_uuid t _) as [[prof|]|]; try reflexivity.
  destruct (p_role prof) as [[]|]; reflexivity.
Qed.



Lemma habits_fetch_run user req d :
  catch (habits_fetch user req) d =
  (match refusal user (fetch_forUserId user req) d with
   | Some r => r
   | None => habits_found (fetch_forUserId user req) (now req)
               (fetch_rangeDays req) d
   end, d).
Proof.
  unfold habits_fetch, catch, bind, query, ret, write, throw, habits_found.
  destruct (refusal _ _ _); [reflexivity|].
  destruct (daysAgoISO _ _); [|reflexivity].
  destruct (select_habits_since _ _ _); reflexivity.
Qed.

Lemma vitals_fetch_run user req d :
  catch (vitals_fetch user req) d =
  (match refusal user (fetch_forUserId user req) d with
   | Some r => r
   | None => vitals_found (fetch_forUserId user req) (now req)
               (fetch_rangeDays req) d
   end, d).
Proof.
  unfold vitals_fetch, catch, bind, query, ret, write, throw, vitals_found.
  destruct (refusal _ _ _); [reflexivity|].
  destruct (daysAgoISO _ _); [|reflexivity].
  destruct (select_vitals_since _ _ _); reflexivity.
Qed.

Lemma fetch_forUserId_Some user req t :
  qp_user_id req = Some t -> t <> "" -> fetch_forUserId user req = t.
Proof.
  intros Hq Ht. unfold fetch_forUserId, or_str.
  now rewrite Hq, (truthy_str_Some t Ht).
Qed.

Lemma profile_found_status t d :
  status (profile_found t d) = 200 \/
  (status (profile_found t d) = 404 /\
   forall id p, uuid_in t = Some id -> profiles_by_id id d <> [p]).
Proof.
  unfold profile_found, for_uuid, maybeSingle.
  destruct (uuid_in t) as [id|];
    [|right; split; [reflexivity|]; intros id q; discriminate].
  destruct (profiles_by_id id d) as [|prof [|prof' rest]] eqn:E; simpl.
  - right. split; [reflexivity|]. intros i q [= <-]. rewrite E. discriminate.
  - left. destruct (p_role prof) as [[]|]; reflexivity.
  - right. split; [reflexivity|]. intros i q [= <-]. rewrite E. discriminate.
Qed.

Lemma habits_found_status t c n d :
  status (habits_found t c n d) = 200 \/ status (habits_found t c n d) = 500.
Proof.
  unfold habits_found. destruct (daysAgoISO c n); [|now right].
  destruct (select_habits_since _ _ _); [now left|now right].
Qed.

Lemma vitals_found_status t c n d :
  status (vitals_found t c n d) = 200 \/ status (vitals_found t c n d) = 500.
Proof.
  unfold vitals_found. destruct (daysAgoISO c n); [|now right].
  destruct (select_vitals_since _ _ _); [now left|now right].
Qed.

(** The three reading actions answer the refusal when there is one, and a
    200, 404 or 500 otherwise; a 404 only from [profile.get] on a target
    with no profile row. *)
Lemma reading_answer req user act t d :
  calls req user act -> reads_account act ->
  qp_user_id req = Some t -> t <> "" ->
  match refusal user t d with
  | Some r => fst (handler req d) = r
  | None =>
      status (fst (handler req d)) <> 403 /\
      (status (fst (handler req d)) = 404 ->
       act = "profile.get" /\
       forall id p, uuid_in t = Some id -> profiles_by_id id d <> [p])
  end.
Proof.
  intros Hc Hr Hq Ht. rewrite (handler_calls _ _ _ _ Hc).
  destruct Hc as (_ & _ & Ha).
  destruct Hr as [-> | [-> | ->]].
  - rewrite (dispatch_profile_get _ _ _ Ha), (profile_get_run _ _ t _ Hq Ht).
    simpl. destruct (refusal user t d); [reflexivity|].
    destruct (profile_found_status t d) as [E | [E Hn]]; rewrite E;
      split; try discriminate; auto.
  - rewrite (dispatch_habits_fetch _ _ _ Ha), habits_fetch_run.
    rewrite (fetch_forUserId_Some _ _ t Hq Ht). simpl.
    destruct (refusal user t d); [reflexivity|].
    destruct (habits_found_status t (now req) (fetch_rangeDays req) d) as [E|E];
      rewrite E; split; discriminate.
  - rewrite (dispatch_vitals_fetch _ _ _ Ha), vitals_fetch_run.
    rewrite (fetch_forUserId_Some _ _ t Hq Ht). simpl.
    destruct (refusal user t d); [reflexivity|].
    destruct (vitals_found_status t (now req) (fetch_rangeDays req) d) as [E|E];
      rewrite E; split; discriminate.
Qed.

End WithBackend.
End HandlerFacts.

Module Access.
Import PG Api Schema ListFacts AccessFacts HandlerFacts.

Lemma missing_profile d t :
  schema_ok d = true ->
  (forall id p, uuid_in t = Some id -> profiles_by_id id d <> [p]) <->
  has_profile_for t d = false.
Proof.
  intros Hok. unfold has_profile_for, has_profile, profiles_by_id.
  destruct (uuid_in t) as [id|]; [|split; [reflexivity|discriminate]].
  split.
  - intros Hn.
    destruct (distinct_filter _ (fun p => String.eqb (p_id p) id) _
                (schema_profiles d Hok)) as [E | [x E]].
    + intros a b Ha Hb. apply String.eqb_eq in Ha, Hb.
      apply String.eqb_eq. congruence.
    + now apply filter_nil_existsb.
    + now elim (Hn id x).
  - intros He i p [= <-] E. apply existsb_filter_nil in He. congruence.
Qed.


#[local] Existing Instance Sample.backend.


(** C4. On the three reading actions, a request whose [user_id] is not the
    caller's id and that is not let through is answered 403, whether or not
    the account that [user_id] names exists; a 404 is answered only by
    [profile.get], only when [user_id] names no account with a profile
    row, and only once the check has let the request through ([user_id] is
    the caller's id, or the caller is a doctor holding a mutual link with
    the account named), and then it always is. *)
Theorem denial_before_existence `{Backend} req user act t d :
  schema_ok d = true ->
  calls req user act -> reads_account act ->
  qp_user_id req = Some t -> t <> "" ->
  (t <> au_id user ->
   ~ (is_doctor d (au_id user) /\ mutual_link_for d t (au_id user)) ->
   status (fst (handler req d)) = 403) /\
  (status (fst (handler req d)) = 404 ->
   act = "profile.get" /\ has_profile_for t d = false /\
   (t = au_id user \/
    is_doctor d (au_id user) /\ mutual_link_for d t (au_id user))) /\
  (act = "profile.get" -> has_profile_for t d = false ->
   t = au_id user \/
   is_doctor d (au_id user) /\ mutual_link_for d t (au_id user) ->
   status (fst (handler req d)) = 404).
Proof.
  intros Hok Hc Hr Hq Ht.
  pose proof (reading_answer req user act t d Hc Hr Hq Ht) as Ha.
  split; [|split].
  - intros Hne Hno. destruct (refusal user t d) as [r|] eqn:Er.
    + rewrite Ha. exact (refusal_status _ _ _ _ Er).
    + elim Hno. now apply refusal_cross_None.
  - intros Hs. destruct (refusal user t d) as [r|] eqn:Er.
    + rewrite Ha, (refusal_status _ _ _ _ Er) in Hs. discriminate.
    + destruct Ha as [_ Ha]. destruct (Ha Hs) as [-> Hn].
      split; [reflexivity|]. split; [now apply missing_profile|].
      destruct (String.eqb t (au_id user)) eqn:Et.
      * left. now apply String.eqb_eq.
      * right. apply refusal_cross_None; [|assumption].
        now apply String.eqb_neq.
  - intros -> Hmiss Hauth.
    assert (Er : refusal user t d = None).
    { destruct Hauth as [-> | [Hd Hm]];
        [apply refusal_self | now apply refusal_cross_permits]. }
    rewrite (handler_calls _ _ _ _ Hc).
    destruct Hc as (_ & _ & Hact).
    rewrite (dispatch_profile_get _ _ _ Hact), (profile_get_run _ _ t _ Hq Ht).
    rewrite Er. simpl. unfold profile_found, for_uuid.
    unfold has_profile_for, has_profile in Hmiss.
    destruct (uuid_in t) as [id|]; [|reflexivity].
    apply existsb_filter_nil in Hmiss.
    unfold profiles_by_id. now rewrite Hmiss.
Qed.

Lemma denial_before_existence_witness :
  let req := Sample.get "t-bob" "profile.get" (Some Sample.nobody_id) None in
  schema_ok Sample.linked = true /\
  calls req Sample.bob "profile.get" /\
  reads_account "profile.get" /\
  qp_user_id req = Some Sample.nobody_id /\ Sample.nobody_id <> "" /\
  has_profile_for Sample.nobody_id Sample.linked = false /\
  status (fst (handler req Sample.linked)) = 403.
Proof.
  intros req.
  assert (H1 : schema_ok Sample.linked = true) by (vm_compute; reflexivity).
  assert (H2 : calls req Sample.bob "profile.get")
    by (repeat split; vm_compute; reflexivity).
  assert (H3 : reads_account "profile.get") by (left; reflexivity).
  assert (H4 : qp_user_id req = Some Sample.nobody_id) by reflexivity.
  assert (H5 : Sample.nobody_id <> "") by (vm_compute; discriminate).
  repeat (split; [assumption|]).
  split; [vm_compute; reflexivity|].
  apply (denial_before_existence req Sample.bob "profile.get"
           Sample.nobody_id Sample.linked H1 H2 H3 H4 H5).
  - vm_compute. discriminate.
  - intros [(p & Hin & Hid & Hrole) _].
    vm_compute in Hin.
    repeat (destruct Hin as [<- | Hin]; [discriminate|]). exact Hin.
Defined.

End Access.

Module Steps.
Import PG Api Schema ListFacts.

(** ** Relating the database before and after a computation *)

Section Within.
Variable R : db -> db -> Prop.
Hypothesis R_refl : forall d, R d d.
Hypothesis R_trans : forall a b c, R a b -> R b c -> R a c.

Lemma within_ret {A} (a : A) : steps_within R (ret a).
Proof. intros d. apply R_refl. Qed.

Lemma within_throw {A} e : steps_within R (@throw A e).
Proof. intros d. apply R_refl. Qed.

Lemma within_query {A} (q : db -> A) : steps_within R (query q).
Proof. intros d. apply R_refl. Qed.

Lemma within_bind {A C} (m : M A) (k : A -> M C) :
  steps_within R m -> (forall a, steps_within R (k a)) ->
  steps_within R (bind m k).
Proof.
  intros Hm Hk d. unfold bind. specialize (Hm d).
  destruct (m d) as [[a|e] d']; simpl in *.
  - eapply R_trans; [exact Hm | apply Hk].
  - exact Hm.
Qed.

Lemma within_write {A} (w : db -> result A * db) :
  (forall d, R d (snd (w d))) -> steps_within R (write w).
Proof.
  intros Hw d. unfold write. specialize (Hw d).
  destruct (w d) as [[a|] d']; exact Hw.
Qed.

Lemma within_catch (m : M response) d :
  steps_within R m -> R d (snd (catch m d)).
Proof.
  intros Hm. unfold catch. specialize (Hm d).
  destruct (m d) as [[a|e] d']; exact Hm.
Qed.

End Within.


(** Unfolds an action into reads, writes and binds and splits on what it
    inspects. *)
Ltac within_steps Hr Ht :=
  repeat lazymatch goal with
    | |- steps_within _ (ret _) => apply (within_ret _ Hr)
    | |- steps_within _ (throw _) => apply (within_throw _ Hr)
    | |- steps_within _ (query _) => apply (within_query _ Hr)
    | |- steps_within _ (bind _ _) => apply (within_bind _ Ht); [ | intros ? ]
    | |- steps_within _ (match ?x with _ => _ end) => destruct x
    | |- steps_within _ (let _ := _ in _) => cbv zeta
    end.

End Steps.

Module Links.
Import PG Api Schema ListFacts Steps HandlerFacts.

Lemma keeps_consent_refl l : keeps_consent l l.
Proof. unfold keeps_consent. auto. Qed.

Lemma keeps_consent_trans a b c :
  keeps_consent a b -> keeps_consent b c -> keeps_consent a c.
Proof.
  unfold keeps_consent.
  intros (A1 & A2 & A3 & A4 & A5) (B1 & B2 & B3 & B4 & B5).
  repeat split; try congruence; auto.
Qed.

Lemma links_kept_refl L : links_kept L L.
Proof.
  intros n l H. exists l. split; [assumption|apply keeps_consent_refl].
Qed.

Lemma links_kept_trans L1 L2 L3 :
  links_kept L1 L2 -> links_kept L2 L3 -> links_kept L1 L3.
Proof.
  intros H12 H23 n l H.
  destruct (H12 n l H) as (l2 & E2 & K2).
  destruct (H23 n l2 E2) as (l3 & E3 & K3).
  exists l3. split; [assumption|]. eapply keeps_consent_trans; eassumption.
Qed.

Lemma links_kept_app L x : links_kept L (L ++ x).
Proof.
  intros n l H. exists l. split; [|apply keeps_consent_refl].
  rewrite nth_error_app1; [assumption|].
  apply nth_error_Some. congruence.
Qed.

Lemma links_kept_map (f : link -> link) L :
  (forall l, keeps_consent l (f l)) -> links_kept L (map f L).
Proof.
  intros Hf n l H. exists (f l). split; [|apply Hf].
  now rewrite nth_error_map, H.
Qed.

Lemma kept_refl d : kept d d.
Proof. apply links_kept_refl. Qed.

Lemma kept_trans a b c : kept a b -> kept b c -> kept a c.
Proof. apply links_kept_trans. Qed.

Lemma kept_same d d' :
  doctor_patient_links d' = doctor_patient_links d -> kept d d'.
Proof. unfold kept. intros ->. apply links_kept_refl. Qed.

Ltac same_links :=
  intros; apply kept_same;
  repeat match goal with
         | |- context [match ?x with _ => _ end] => destruct x
         end; reflexivity.

Lemma upsert_profile_kept id e n r d : kept d (snd (upsert_profile id e n r d)).
Proof. unfold upsert_profile. same_links. Qed.

Lemma upsert_patient_profile_kept row d :
  kept d (snd (upsert_patient_profile row d)).
Proof. unfold upsert_patient_profile. same_links. Qed.

Lemma upsert_doctor_profile_kept row d :
  kept d (snd (upsert_doctor_profile row d)).
Proof. unfold upsert_doctor_profile. same_links. Qed.

Lemma insert_link_kept p q d : kept d (snd (insert_link p q d)).
Proof.
  unfold insert_link. destruct (_ && _); [|apply kept_refl].
  apply links_kept_app.
Qed.

Lemma update_patient_selected_kept id d :
  kept d (snd (update_patient_selected id d)).
Proof.
  apply links_kept_map. intros l. destruct (l_id l =? id);
    [|apply keeps_consent_refl]. unfold keeps_consent; simpl; auto.
Qed.

Lemma update_doctor_selected_kept id d :
  kept d (snd (update_doctor_selected id d)).
Proof.
  apply links_kept_map. intros l. destruct (l_id l =? id);
    [|apply keeps_consent_refl]. unfold keeps_consent; simpl; auto.
Qed.

Section WithBackend.
Context {B : Backend}.

Lemma insert_habit_kept r d : kept d (snd (insert_habit r d)).
Proof. unfold insert_habit. same_links. Qed.

Lemma update_habit_kept r id d : kept d (snd (update_habit r id d)).
Proof. unfold update_habit. same_links. Qed.

Lemma insert_vital_kept r d : kept d (snd (insert_vital r d)).
Proof. unfold insert_vital. same_links. Qed.

Lemma update_vital_kept r id d : kept d (snd (update_vital r id d)).
Proof. unfold update_vital. same_links. Qed.

Ltac kept_write :=
  lazymatch goal with
  | |- kept _ (snd (upsert_profile _ _ _ _ _)) => apply upsert_profile_kept
  | |- kept _ (snd (upsert_patient_profile _ _)) =>
      apply upsert_patient_profile_kept
  | |- kept _ (snd (upsert_doctor_profile _ _)) =>
      apply upsert_doctor_profile_kept
  | |- kept _ (snd (insert_link _ _ _)) => apply insert_link_kept
  | |- kept _ (snd (writing_uuid _ (insert_link _) _)) =>
      unfold writing_uuid; destruct (uuid_in _);
      [apply insert_link_kept|apply kept_refl]
  | |- kept _ (snd (update_patient_selected _ _)) =>
      apply update_patient_selected_kept
  | |- kept _ (snd (update_doctor_selected _ _)) =>
      apply update_doctor_selected_kept
  | |- kept _ (snd (insert_habit _ _)) => apply insert_habit_kept
  | |- kept _ (snd (update_habit _ _ _)) => apply update_habit_kept
  | |- kept _ (snd (insert_vital _ _)) => apply insert_vital_kept
  | |- kept _ (snd (update_vital _ _ _)) => apply update_vital_kept
  | |- kept _ _ => apply kept_refl
  end.

Ltac kept_steps :=
  within_steps kept_refl kept_trans;
  try lazymatch goal with
      | |- steps_within _ (write _) =>
          apply (within_write _); intros; kept_write
      end.

Lemma getOrCreateLink_kept p q : steps_within kept (getOrCreateLink p q).
Proof. unfold getOrCreateLink. kept_steps. Qed.

Lemma dispatch_kept user req b : steps_within kept (dispatch user req b).
Proof.
  unfold dispatch, me, profile_get, profile_upsert, ensureProfile,
    habits_upsert, habits_fetch, vitals_upsert, vitals_fetch, doctors_list,
    link_select, link_list.
  repeat match goal with
         | |- steps_within _ (if ?x then _ else _) => destruct x
         end;
    kept_steps; try apply getOrCreateLink_kept; kept_steps.
Qed.

Lemma handler_kept req d : kept d (snd (handler req d)).
Proof.
  unfold handler. destruct (String.eqb (method req) "OPTIONS");
    [apply kept_refl|].
  destruct (getAuthUser req); [|apply kept_refl].
  apply (within_catch _). apply dispatch_kept.
Qed.

Lemma serve_kept reqs d : kept d (snd (serve reqs d)).
Proof.
  revert d. induction reqs as [|r rest IH]; intros d; simpl.
  - apply kept_refl.
  - pose proof (handler_kept r d) as H1.
    destruct (handler r d) as [resp d1]. specialize (IH d1).
    destruct (serve rest d1) as [resps d2]. simpl in *.
    eapply kept_trans; eassumption.
Qed.

(** C2. Whatever requests are served, one after the other, every link row
    is still in its place afterwards, with its identifier and its pair, and
    each of its two flags that was true is true; a row with both flags true
    is still there unchanged. *)
Theorem consent_never_withdrawn (reqs : list request) (d : db) :
  links_kept (doctor_patient_links d)
    (doctor_patient_links (snd (serve reqs d))) /\
  (forall l, In l (doctor_patient_links d) ->
     l_patient_selected l = true -> l_doctor_selected l = true ->
     In l (doctor_patient_links (snd (serve reqs d)))).
Proof.
  pose proof (serve_kept reqs d) as Hk. split; [exact Hk|].
  intros l Hin Hp Hd.
  apply In_nth_error in Hin as [n Hn].
  destruct (Hk n l Hn) as (l' & Hn' & (K1 & K2 & K3 & K4 & K5)).
  apply nth_error_In in Hn'.
  replace l with l'; [assumption|].
  destruct l, l'; simpl in *. rewrite (K4 Hp), (K5 Hd). congruence.
Qed.

End WithBackend.
End Links.

Module KeyFacts.
Import Schema ListFacts.

Lemma existsb_app_single {A} (f : A -> bool) l x :
  existsb f (l ++ [x]) = existsb f l || f x.
Proof. rewrite existsb_app. simpl. now rewrite orb_false_r. Qed.

(** A row that differs from all rows may be appended. *)
Lemma distinct_app_single {A} (same : A -> A -> bool) l x :
  distinct same l = true ->
  (forall y, In y l -> same y x = false) ->
  distinct same (l ++ [x]) = true.
Proof.
  induction l as [|y r IH]; simpl; intros Hd Hx; [reflexivity|].
  apply andb_true_iff in Hd as [Hy Hr].
  apply andb_true_iff. split.
  - rewrite existsb_app_single. apply negb_true_iff in Hy.
    rewrite Hy. simpl. apply negb_true_iff. apply Hx. now left.
  - apply IH; [assumption|]. intros z Hz. apply Hx. now right.
Qed.

(** Rewriting rows leaves a key distinct when it leaves the key alone. *)
Lemma distinct_map_same {A} (same : A -> A -> bool) (f : A -> A) l :
  (forall a b, same (f a) (f b) = same a b) ->
  distinct same (map f l) = distinct same l.
Proof.
  intros Hf. induction l as [|x r IH]; simpl; [reflexivity|].
  rewrite IH. f_equal. f_equal.
  clear IH. induction r as [|y r IH]; simpl; [reflexivity|].
  now rewrite Hf, IH.
Qed.

Lemma map_id_ext {A} (f : A -> A) l :
  (forall x, In x l -> f x = x) -> map f l = l.
Proof.
  induction l as [|x r IH]; simpl; intros H; [reflexivity|].
  rewrite H by now left. f_equal. apply IH. intros y Hy. apply H. now right.
Qed.

Section Replace.
Context {A : Type} (same : A -> A -> bool) (idf : A -> Z) (id : Z) (h : A).
Hypothesis same_sym : forall a, same a h = same h a.

(** [update ... eq('id', id)] keeps a key distinct when no other row holds
    the key of the values written. *)
Lemma distinct_replace l :
  distinct same l = true ->
  distinct (fun a b => idf a =? idf b) l = true ->
  existsb (fun x => negb (idf x =? id) && same h x) l = false ->
  distinct same (map (fun x => if idf x =? id then h else x) l) = true.
Proof.
  induction l as [|x r IH]; simpl; intros Hk Hi Hc; [reflexivity|].
  apply andb_true_iff in Hk as [Hkx Hkr], Hi as [Hix Hir].
  apply orb_false_iff in Hc as [Hcx Hcr].
  apply negb_true_iff in Hkx, Hix.
  apply andb_true_iff. split; [|now apply IH].
  apply negb_true_iff.
  destruct (existsb _ (map _ r)) eqn:E; [exfalso|reflexivity].
  apply existsb_exists in E as (y' & Hy' & Hs).
  apply in_map_iff in Hy' as (y & <- & Hy).
  pose proof (existsb_false_In _ _ _ Hkx Hy) as Hxy.
  pose proof (existsb_false_In _ _ _ Hix Hy) as Hixy.
  pose proof (existsb_false_In _ _ _ Hcr Hy) as Hcy.
  simpl in Hxy, Hixy, Hcy.
  destruct (idf x =? id) eqn:Ex; destruct (idf y =? id) eqn:Ey; simpl in *.
  - apply Z.eqb_eq in Ex, Ey. rewrite Ex, Ey, Z.eqb_refl in Hixy. discriminate.
  - congruence.
  - rewrite same_sym in Hs. congruence.
  - congruence.
Qed.

Lemma ids_replace l :
  idf h = id ->
  map idf (map (fun x => if idf x =? id then h else x) l) = map idf l.
Proof.
  intros Hh. rewrite map_map. apply map_ext. intros x.
  destruct (idf x =? id) eqn:E; [|reflexivity].
  apply Z.eqb_eq in E. congruence.
Qed.

End Replace.

(** A key that depends on the rows through [key] only. *)
Lemma distinct_by_key {A K} (same : A -> A -> bool) (key : A -> K) l l' :
  (forall a b a' b', key a = key a' -> key b = key b' ->
                     same a b = same a' b') ->
  map key l = map key l' ->
  distinct same l = distinct same l'.
Proof.
  intros Hs. revert l'.
  induction l as [|x r IH]; intros [|x' r']; simpl; try discriminate;
    [reflexivity|].
  intros [= Hx Hr]. rewrite (IH r' Hr). f_equal. f_equal.
  clear IH. revert r' Hr. induction r as [|y r IH]; intros [|y' r']; simpl;
    try discriminate; [reflexivity|].
  intros [= Hy Hr]. rewrite (IH r' Hr). f_equal. now apply Hs.
Qed.

Lemma forallb_map_key {A} (f : A -> bool) (key : A -> Z) l l' :
  (forall a a', key a = key a' -> f a = f a') ->
  map key l = map key l' -> forallb f l = forallb f l'.
Proof.
  intros Hf. revert l'.
  induction l as [|x r IH]; intros [|x' r']; simpl; try discriminate;
    [reflexivity|].
  intros [= Hx Hr]. now rewrite (IH r' Hr), (Hf x x' Hx).
Qed.

Lemma forallb_below {A} (key : A -> Z) n l :
  forallb (fun x => key x <? n) l = true ->
  forallb (fun x => key x <? n + 1) l = true.
Proof.
  rewrite !forallb_forall. intros H x Hx. specialize (H x Hx).
  apply Z.ltb_lt in H. apply Z.ltb_lt. lia.
Qed.

Lemma fresh_id {A} (key : A -> Z) n l :
  forallb (fun x => key x <? n) l = true ->
  forall y, In y l -> (key y =? n) = false.
Proof.
  rewrite forallb_forall. intros H y Hy. specialize (H y Hy).
  apply Z.ltb_lt in H. apply Z.eqb_neq. lia.
Qed.

End KeyFacts.

Module SchemaFacts.
Import PG Api Schema ListFacts KeyFacts HandlerFacts Steps.

Lemma schema_ok_spec d :
  schema_ok d = true <->
  distinct same_profile (profiles d) = true /\
  distinct same_habit_id (habits d) = true /\
  distinct same_habit_key (habits d) = true /\
  distinct same_vital_id (vitals d) = true /\
  distinct same_vital_key (vitals d) = true /\
  distinct same_link_id (doctor_patient_links d) = true /\
  distinct same_link_key (doctor_patient_links d) = true /\
  forallb (fun h => h_id h <? next_rowid d) (habits d) = true /\
  forallb (fun v => v_id v <? next_rowid d) (vitals d) = true /\
  forallb (fun l => l_id l <? next_rowid d) (doctor_patient_links d) = true /\
  forallb typed_profile (profiles d) = true.
Proof.
  unfold schema_ok. rewrite !andb_true_iff.
  unfold same_profile, same_habit_id, same_habit_key, same_vital_id,
    same_vital_key, same_link_id, same_link_key. tauto.
Qed.

Lemma same_habit_key_sym a b : same_habit_key a b = same_habit_key b a.
Proof.
  unfold same_habit_key, habit_at.
  now rewrite String.eqb_sym, Z.eqb_sym.
Qed.

Lemma same_vital_key_sym a b : same_vital_key a b = same_vital_key b a.
Proof.
  unfold same_vital_key, vital_at.
  now rewrite String.eqb_sym, Z.eqb_sym.
Qed.

Lemma same_link_key_sym a b : same_link_key a b = same_link_key b a.
Proof.
  unfold same_link_key, link_of.
  now rewrite String.eqb_sym, (String.eqb_sym (l_doctor_id b)).
Qed.

Lemma sound_refl d : sound d d.
Proof. unfold sound. auto. Qed.

Lemma sound_trans a b c : sound a b -> sound b c -> sound a c.
Proof. unfold sound. auto. Qed.

Lemma text_ok_sent e old :
  text_ok e = true -> text_ok old = true -> text_ok (sent e old) = true.
Proof. destruct e; auto. Qed.

Lemma upsert_profile_sound id e n r d :
  is_uuid id = true -> sound d (snd (upsert_profile id e n r d)).
Proof.
  intros Hu. unfold upsert_profile.
  destruct (match r with Some _ => _ | None => _ end); [|apply sound_refl].
  destruct (text_ok e && text_ok n) eqn:Et; [|apply sound_refl].
  apply andb_true_iff in Et as [Te Tn]. cbn [negb].
  destruct (email_free id e d); [|apply sound_refl].
  destruct (has_profile id d) eqn:Eh; simpl; intros Hok;
    apply schema_ok_spec in Hok as (H1&H2&H3&H4&H5&H6&H7&H8&H9&H10&H11);
    apply schema_ok_spec; simpl; repeat split; try assumption.
  - rewrite <- H1. apply distinct_map_same. intros a b. unfold same_profile.
    destruct (String.eqb (p_id a) id) eqn:Ea;
      destruct (String.eqb (p_id b) id) eqn:Eb; simpl;
      try apply String.eqb_eq in Ea; try apply String.eqb_eq in Eb;
      congruence.
  - rewrite forallb_forall in *. intros x Hx.
    apply in_map_iff in Hx as (y & <- & Hy). specialize (H11 y Hy).
    destruct (String.eqb (p_id y) id); [|exact H11].
    unfold typed_profile in *. cbn [p_id p_email p_name].
    apply andb_true_iff in H11 as [H11 Hn].
    apply andb_true_iff in H11 as [_ He].
    now rewrite Hu, !text_ok_sent.
  - apply distinct_app_single; [assumption|].
    intros y Hy. unfold has_profile in Eh.
    exact (existsb_false_In _ _ _ Eh Hy).
  - rewrite forallb_app, H11. cbn. unfold typed_profile. cbn.
    now rewrite Hu, Te, Tn.
Qed.

Lemma upsert_patient_profile_sound row d :
  sound d (snd (upsert_patient_profile row d)).
Proof.
  unfold upsert_patient_profile.
  repeat match goal with
         | |- context [if ?x then _ else _] => destruct x
         end; simpl; intros Hok; exact Hok.
Qed.

Lemma upsert_doctor_profile_sound row d :
  sound d (snd (upsert_doctor_profile row d)).
Proof.
  unfold upsert_doctor_profile.
  repeat match goal with
         | |- context [if ?x then _ else _] => destruct x
         end; simpl; intros Hok; exact Hok.
Qed.

Lemma insert_link_sound p q d : sound d (snd (insert_link p q d)).
Proof.
  unfold insert_link.
  destruct (has_profile p d && has_profile q d) eqn:E1; simpl;
    [|apply sound_refl].
  destruct (existsb (link_of p q) (doctor_patient_links d)) eqn:E2; simpl;
    [apply sound_refl|].
  intros Hok.
  apply schema_ok_spec in Hok as (H1&H2&H3&H4&H5&H6&H7&H8&H9&H10&H11).
  apply schema_ok_spec. simpl.
  repeat split; try assumption; try now apply forallb_below.
  - apply distinct_app_single; [assumption|].
    intros y Hy. exact (fresh_id l_id _ _ H10 y Hy).
  - apply distinct_app_single; [assumption|].
    intros y Hy. rewrite same_link_key_sym.
    exact (existsb_false_In _ _ _ E2 Hy).
  - rewrite forallb_app. rewrite (forallb_below _ _ _ H10). simpl.
    rewrite andb_true_r. apply Z.ltb_lt. lia.
Qed.

Lemma update_flags_sound (f : link -> link) d :
  (forall l, l_id (f l) = l_id l /\ l_patient_id (f l) = l_patient_id l /\
             l_doctor_id (f l) = l_doctor_id l) ->
  sound d (set_links d (map f (doctor_patient_links d)) (next_rowid d)).
Proof.
  intros Hf Hok.
  apply schema_ok_spec in Hok as (H1&H2&H3&H4&H5&H6&H7&H8&H9&H10&H11).
  apply schema_ok_spec. simpl.
  repeat split; try assumption.
  - rewrite <- H6. apply distinct_map_same. intros a b. unfold same_link_id.
    destruct (Hf a) as (-> & _). destruct (Hf b) as (-> & _). reflexivity.
  - rewrite <- H7. apply distinct_map_same. intros a b.
    unfold same_link_key, link_of.
    destruct (Hf a) as (_ & -> & ->). destruct (Hf b) as (_ & -> & ->).
    reflexivity.
  - rewrite <- H10. apply forallb_map_key with (key := l_id).
    + intros a a' E. now rewrite E.
    + rewrite map_map. apply map_ext. intros a. apply Hf.
Qed.

Lemma update_patient_selected_sound id d :
  sound d (snd (update_patient_selected id d)).
Proof.
  apply update_flags_sound. intros l. destruct (l_id l =? id); simpl; auto.
Qed.

Lemma update_doctor_selected_sound id d :
  sound d (snd (update_doctor_selected id d)).
Proof.
  apply update_flags_sound. intros l. destruct (l_id l =? id); simpl; auto.
Qed.


Section WithBackend.
Context {B : Backend}.

Lemma habit_of_row_Some id r h :
  habit_of_row id r = Some h ->
  h_id h = id /\ h_user_id h = hr_user_id r /\
  date_in (hr_date r) = Some (h_date h) /\
  h_steps h = Some (hr_steps r) /\
  h_water_cups h = Some (hr_water_cups r) /\
  h_sleep_hours h = Some (float8 (hr_sleep_hours r)).
Proof.
  unfold habit_of_row. destruct (date_in (hr_date r)); [|discriminate].
  destruct (_ && _); [|discriminate]. intros [= <-]. simpl. auto 10.
Qed.

Lemma vital_of_row_Some id r v :
  vital_of_row id r = Some v ->
  v_id v = id /\ v_user_id v = vr_user_id r /\
  date_in (vr_date r) = Some (v_date v) /\
  v_blood_glucose v = vr_blood_glucose r /\
  v_blood_pressure_sys v = vr_blood_pressure_sys r /\
  v_blood_pressure_dia v = vr_blood_pressure_dia r /\
  v_heart_rate v = vr_heart_rate r /\
  v_body_temperature v = option_map float8 (vr_body_temperature r).
Proof.
  unfold vital_of_row. destruct (date_in (vr_date r)); [|discriminate].
  destruct (_ && _); [|discriminate]. intros [= <-]. simpl. auto 10.
Qed.

Lemma insert_habit_sound r d : sound d (snd (insert_habit r d)).
Proof.
  unfold insert_habit.
  destruct (habit_of_row (next_rowid d) r) as [h|] eqn:Eh; [|apply sound_refl].
  apply habit_of_row_Some in Eh as (Hid & _).
  destruct (has_profile (h_user_id h) d); simpl; [|apply sound_refl].
  destruct (existsb _ (habits d)) eqn:E2; simpl; [apply sound_refl|].
  intros Hok.
  apply schema_ok_spec in Hok as (H1&H2&H3&H4&H5&H6&H7&H8&H9&H10&H11).
  apply schema_ok_spec. simpl.
  repeat split; try assumption; try now apply forallb_below.
  - apply distinct_app_single; [assumption|].
    intros y Hy. unfold same_habit_id. rewrite Hid.
    exact (fresh_id h_id _ _ H8 y Hy).
  - apply distinct_app_single; [assumption|].
    intros y Hy. rewrite same_habit_key_sym.
    exact (existsb_false_In _ _ _ E2 Hy).
  - rewrite forallb_app. rewrite (forallb_below _ _ _ H8). simpl.
    rewrite andb_true_r. apply Z.ltb_lt. lia.
Qed.

Lemma update_habit_sound r id d : sound d (snd (update_habit r id d)).
Proof.
  unfold update_habit.
  destruct (habit_of_row id r) as [h|] eqn:Eh; [|apply sound_refl].
  apply habit_of_row_Some in Eh as (Hid & _).
  destruct (existsb _ (habits d)); [|apply sound_refl].
  destruct (has_profile (h_user_id h) d); simpl; [|apply sound_refl].
  destruct (existsb _ (habits d)) eqn:E2; simpl; [apply sound_refl|].
  intros Hok.
  apply schema_ok_spec in Hok as (H1&H2&H3&H4&H5&H6&H7&H8&H9&H10&H11).
  apply schema_ok_spec. simpl.
  repeat split; try assumption.
  - rewrite <- H2. apply distinct_by_key with (key := h_id).
    + intros a b a' b' Ea Eb. unfold same_habit_id. now rewrite Ea, Eb.
    + now apply ids_replace.
  - apply (distinct_replace same_habit_key h_id id h); auto.
    intros a. apply same_habit_key_sym.
  - rewrite <- H8. apply forallb_map_key with (key := h_id).
    + intros a a' E. now rewrite E.
    + now apply ids_replace.
Qed.

Lemma insert_vital_sound r d : sound d (snd (insert_vital r d)).
Proof.
  unfold insert_vital.
  destruct (vital_of_row (next_rowid d) r) as [h|] eqn:Eh; [|apply sound_refl].
  apply vital_of_row_Some in Eh as (Hid & _).
  destruct (has_profile (v_user_id h) d); simpl; [|apply sound_refl].
  destruct (existsb _ (vitals d)) eqn:E2; simpl; [apply sound_refl|].
  intros Hok.
  apply schema_ok_spec in Hok as (H1&H2&H3&H4&H5&H6&H7&H8&H9&H10&H11).
  apply schema_ok_spec. simpl.
  repeat split; try assumption; try now apply forallb_below.
  - apply distinct_app_single; [assumption|].
    intros y Hy. unfold same_vital_id. rewrite Hid.
    exact (fresh_id v_id _ _ H9 y Hy).
  - apply distinct_app_single; [assumption|].
    intros y Hy. rewrite same_vital_key_sym.
    exact (existsb_false_In _ _ _ E2 Hy).
  - rewrite forallb_app. rewrite (forallb_below _ _ _ H9). simpl.
    rewrite andb_true_r. apply Z.ltb_lt. lia.
Qed.

Lemma update_vital_sound r id d : sound d (snd (update_vital r id d)).
Proof.
  unfold update_vital.
  destruct (vital_of_row id r) as [h|] eqn:Eh; [|apply sound_refl].
  apply vital_of_row_Some in Eh as (Hid & _).
  destruct (existsb _ (vitals d)); [|apply sound_refl].
  destruct (has_profile (v_user_id h) d); simpl; [|apply sound_refl].
  destruct (existsb _ (vitals d)) eqn:E2; simpl; [apply sound_refl|].
  intros Hok.
  apply schema_ok_spec in Hok as (H1&H2&H3&H4&H5&H6&H7&H8&H9&H10&H11).
  apply schema_ok_spec. simpl.
  repeat split; try assumption.
  - rewrite <- H4. apply distinct_by_key with (key := v_id).
    + intros a b a' b' Ea Eb. unfold same_vital_id. now rewrite Ea, Eb.
    + now apply ids_replace.
  - apply (distinct_replace same_vital_key v_id id h); auto.
    intros a. apply same_vital_key_sym.
  - rewrite <- H9. apply forallb_map_key with (key := v_id).
    + intros a a' E. now rewrite E.
    + now apply ids_replace.
Qed.

Ltac sound_write :=
  lazymatch goal with
  | |- sound _ (snd (upsert_profile _ _ _ _ _)) =>
      apply upsert_profile_sound; assumption
  | |- sound _ (snd (upsert_patient_profile _ _)) =>
      apply upsert_patient_profile_sound
  | |- sound _ (snd (upsert_doctor_profile _ _)) =>
      apply upsert_doctor_profile_sound
  | |- sound _ (snd (insert_link _ _ _)) => apply insert_link_sound
  | |- sound _ (snd (writing_uuid _ (insert_link _) _)) =>
      unfold writing_uuid; destruct (uuid_in _);
      [apply insert_link_sound|apply sound_refl]
  | |- sound _ (snd (update_patient_selected _ _)) =>
      apply update_patient_selected_sound
  | |- sound _ (snd (update_doctor_selected _ _)) =>
      apply update_doctor_selected_sound
  | |- sound _ (snd (insert_habit _ _)) => apply insert_habit_sound
  | |- sound _ (snd (update_habit _ _ _)) => apply update_habit_sound
  | |- sound _ (snd (insert_vital _ _)) => apply insert_vital_sound
  | |- sound _ (snd (update_vital _ _ _)) => apply update_vital_sound
  | |- sound _ _ => apply sound_refl
  end.

Ltac sound_steps :=
  within_steps sound_refl sound_trans;
  try lazymatch goal with
      | |- steps_within _ (write _) =>
          apply (within_write _); intros; sound_write
      end.

Lemma getOrCreateLink_sound p q : steps_within sound (getOrCreateLink p q).
Proof. unfold getOrCreateLink. sound_steps. Qed.

Lemma dispatch_sound user req b :
  is_uuid (au_id user) = true -> steps_within sound (dispatch user req b).
Proof.
  intros Hu. unfold dispatch, me, profile_get, profile_upsert, ensureProfile,
    habits_upsert, habits_fetch, vitals_upsert, vitals_fetch, doctors_list,
    link_select, link_list.
  repeat match goal with
         | |- steps_within _ (if ?x then _ else _) => destruct x
         end;
    sound_steps; try apply getOrCreateLink_sound; sound_steps.
Qed.

(** Every request leaves the keys of the schema in force. *)
Lemma handler_sound req d :
  schema_ok d = true -> schema_ok (snd (handler req d)) = true.
Proof.
  unfold handler. destruct (String.eqb (method req) "OPTIONS"); [auto|].
  destruct (getAuthUser req) eqn:Eu; [|auto].
  apply (within_catch sound). apply dispatch_sound.
  exact (getAuthUser_is_uuid _ _ Eu).
Qed.

Lemma serve_sound reqs d :
  schema_ok d = true -> schema_ok (snd (serve reqs d)) = true.
Proof.
  revert d. induction reqs as [|r rest IH]; intros d Hok; simpl; [assumption|].
  pose proof (handler_sound r d Hok) as H1.
  destruct (handler r d) as [resp d1]. specialize (IH d1 H1).
  destruct (serve rest d1) as [resps d2]. exact IH.
Qed.

End WithBackend.
End SchemaFacts.

Module SelectFacts.
Import PG Api Schema ListFacts KeyFacts AccessFacts HandlerFacts SchemaFacts.

Lemma distinct_In_eq {A} (same : A -> A -> bool) l a b :
  (forall x y, same x y = same y x) ->
  distinct same l = true -> In a l -> In b l -> same a b = true -> a = b.
Proof.
  intros Hsym. induction l as [|x r IH]; simpl; [contradiction|].
  intros Hd Ha Hb Hs. apply andb_true_iff in Hd as [Hx Hr].
  apply negb_true_iff in Hx.
  destruct Ha as [->|Ha], Hb as [->|Hb]; auto.
  - rewrite (existsb_false_In _ _ _ Hx Hb) in Hs. discriminate.
  - rewrite Hsym, (existsb_false_In _ _ _ Hx Ha) in Hs. discriminate.
Qed.

Lemma filter_map_commute {A} (sel : A -> bool) (f : A -> A) l :
  (forall x, sel (f x) = sel x) ->
  filter sel (map f l) = map f (filter sel l).
Proof.
  intros Hf. induction l as [|x r IH]; simpl; [reflexivity|].
  rewrite Hf. destruct (sel x); simpl; now rewrite IH.
Qed.

Lemma existsb_filter {A} (sel g : A -> bool) l :
  existsb (fun x => sel x && g x) l = existsb g (filter sel l).
Proof.
  induction l as [|x r IH]; simpl; [reflexivity|].
  destruct (sel x); simpl; now rewrite IH.
Qed.

Lemma set_links_same d :
  set_links d (doctor_patient_links d) (next_rowid d) = d.
Proof. now destruct d. Qed.

Lemma link_of_pair p q a b :
  link_of p q a = true -> link_of p q b = true -> same_link_key a b = true.
Proof.
  unfold same_link_key, link_of. intros Ha Hb.
  apply andb_true_iff in Ha as [A1 A2], Hb as [B1 B2].
  apply String.eqb_eq in A1, A2, B1, B2.
  apply andb_true_iff. split; apply String.eqb_eq; congruence.
Qed.

Section WithBackend.
Context {B : Backend}.

Lemma getProfile_has d id p :
  getProfile id d = Some p -> has_profile id d = true.
Proof.
  intros H. apply getProfile_Some in H as [Hin Hid].
  unfold has_profile. apply existsb_exists. exists p.
  split; [assumption|]. now apply String.eqb_eq.
Qed.

(** The id of a profile row is a uuid as PostgreSQL prints it. *)
Lemma has_profile_uuid d id :
  schema_ok d = true -> has_profile id d = true -> uuid_in id = Some id.
Proof.
  intros Hok Hh.
  apply schema_ok_spec in Hok as (H1&H2&H3&H4&H5&H6&H7&H8&H9&H10&H11).
  apply existsb_exists in Hh as (p & Hin & Hp). apply String.eqb_eq in Hp.
  rewrite forallb_forall in H11. specialize (H11 p Hin).
  unfold typed_profile, is_uuid in H11.
  apply andb_true_iff in H11 as [H11 _].
  apply andb_true_iff in H11 as [H11 _]. rewrite Hp in H11.
  destruct (uuid_in id) as [c|]; [|discriminate].
  apply String.eqb_eq in H11. now subst c.
Qed.

(** The patient's branch of [link.select], at a patient with a profile and
    a text [t] that names an existing account [D]. *)
Lemma select_doctor_step user b t D mine d :
  schema_ok d = true ->
  getProfile (au_id user) d = Some mine -> p_role mine = Some patient ->
  b_doctor_id b = Some t -> t <> "" -> uuid_in t = Some D ->
  has_profile D d = true ->
  exists d',
    catch (link_select user b) d = (json 200 Ok, d') /\
    profiles d' = profiles d /\
    (exists l,
       filter (link_of (au_id user) D) (doctor_patient_links d') = [l] /\
       l_patient_selected l = true /\
       l_doctor_selected l = doctor_consented d (au_id user) D) /\
    (forall l0,
       filter (link_of (au_id user) D) (doctor_patient_links d) = [l0] ->
       l_patient_selected l0 = true -> d' = d).
Proof.
  intros Hok Hp Hrole Hb HD Hu HhD.
  pose proof (getProfile_has _ _ _ Hp) as HhP.
  apply schema_ok_spec in Hok as (H1&H2&H3&H4&H5&H6&H7&H8&H9&H10&H11).
  unfold link_select, getOrCreateLink, catch, bind, query, ret, write.
  rewrite Hp, Hrole, Hb, (truthy_str_Some t HD). cbn [negb JS.ToString].
  unfold for_uuid, writing_uuid. rewrite Hu.
  unfold doctor_consented. rewrite existsb_filter.
  destruct (distinct_filter same_link_key (link_of (au_id user) D)
              (doctor_patient_links d) H7 (link_of_pair _ _))
    as [E | [l0 E]]; rewrite E; cbn [maybeSingle data_of].
  - unfold insert_link.
    rewrite HhP, HhD, (filter_nil_existsb _ _ E). cbn [andb negb].
    eexists. split; [reflexivity|]. cbn.
    split; [reflexivity|]. split; [|intros l0; discriminate].
    rewrite map_app, filter_app. cbn [map filter].
    rewrite Z.eqb_refl. unfold link_of at 2.
    cbn [l_patient_id l_doctor_id l_id l_doctor_selected].
    rewrite !String.eqb_refl. cbn [andb].
    rewrite (map_id_ext _ (doctor_patient_links d)).
    + rewrite E. cbn. eexists. split; [reflexivity|]. split; reflexivity.
    + intros x Hx. now rewrite (fresh_id l_id _ _ H10 x Hx).
  - eexists. split; [reflexivity|]. cbn.
    split; [reflexivity|]. split.
    + rewrite filter_map_commute.
      * rewrite E. cbn [map]. rewrite Z.eqb_refl.
        eexists. split; [reflexivity|]. cbn. split; [reflexivity|].
        now rewrite orb_false_r.
      * intros x. destruct (l_id x =? l_id l0); reflexivity.
    + intros l1 [= <-] Hsel.
      rewrite (map_id_ext _ (doctor_patient_links d)).
      * apply set_links_same.
      * intros x Hx. destruct (l_id x =? l_id l0) eqn:Ex; [|reflexivity].
        apply filter_single_In in E as [Hin _].
        assert (x = l0) as ->.
        { apply (distinct_In_eq same_link_id (doctor_patient_links d));
            auto. intros a c. apply Z.eqb_sym. }
        destruct l0; simpl in *. now rewrite Hsel.
Qed.


Lemma getProfile_profiles id d d' :
  profiles d' = profiles d -> getProfile id d' = getProfile id d.
Proof. unfold getProfile, profiles_by_id. now intros ->. Qed.

Lemma has_profile_profiles id d d' :
  profiles d' = profiles d -> has_profile id d' = has_profile id d.
Proof. unfold has_profile. now intros ->. Qed.

(** C3. When a patient selects the same doctor (an existing account)
    twice, both calls succeed, the second leaves the database as the first
    left it, and there is then exactly one link row for the pair, with the
    patient's flag true and the doctor's flag as it was before the first
    call (false when there was no row). *)
Theorem link_select_idempotent req1 req2 b1 b2 user D d :
  schema_ok d = true ->
  is_patient d (au_id user) ->
  has_profile D d = true -> D <> "" ->
  posts req1 user "link.select" b1 -> b_doctor_id b1 = Some D ->
  posts req2 user "link.select" b2 -> b_doctor_id b2 = Some D ->
  let d1 := snd (handler req1 d) in
  let d2 := snd (handler req2 d1) in
  fst (handler req1 d) = json 200 Ok /\
  fst (handler req2 d1) = json 200 Ok /\
  d2 = d1 /\
  exists l,
    filter (link_of (au_id user) D) (doctor_patient_links d2) = [l] /\
    l_patient_selected l = true /\
    l_doctor_selected l = doctor_consented d (au_id user) D.
Proof.
  intros Hok (mine & Hin & Hid & Hrole) HhD HD Hp1 Hb1 Hp2 Hb2 d1 d2.
  pose proof (getProfile_In d _ mine Hok Hin Hid) as Hg.
  pose proof (handler_sound req1 d Hok) as Hok1. fold d1 in Hok1.
  subst d2 d1.
  rewrite (handler_posts _ _ _ _ _ Hp1) in *.
  rewrite (dispatch_link_select _ _ _ (proj1 (proj2 (proj2 Hp1)))) in *.
  pose proof (has_profile_uuid d D Hok HhD) as Hu.
  destruct (select_doctor_step user b1 D D mine d Hok Hg Hrole Hb1 HD Hu HhD)
    as (d1 & E1 & Hprof & (l & Hl & Hlp & Hld) & _).
  rewrite E1 in *. cbn [fst snd] in *.
  rewrite (handler_posts _ _ _ _ _ Hp2).
  rewrite (dispatch_link_select _ _ _ (proj1 (proj2 (proj2 Hp2)))).
  rewrite <- (getProfile_profiles (au_id user) d d1 Hprof) in Hg.
  rewrite <- (has_profile_profiles D d d1 Hprof) in HhD.
  destruct (select_doctor_step user b2 D D mine d1 Hok1 Hg Hrole Hb2 HD Hu
              HhD)
    as (d2 & E2 & _ & _ & Hsame).
  rewrite E2. cbn [fst snd].
  rewrite (Hsame l Hl Hlp).
  repeat split; try reflexivity. exists l. auto.
Qed.

End WithBackend.

#[local] Existing Instance Sample.backend.

Lemma link_select_idempotent_witness :
  let req := Sample.post "t-bob" "link.select"
               (Sample.select_doctor Sample.dana_id) in
  let d1 := snd (handler req Sample.registered) in
  schema_ok Sample.registered = true /\
  is_patient Sample.registered (au_id Sample.bob) /\
  has_profile Sample.dana_id Sample.registered = true /\ Sample.dana_id <> "" /\
  posts req Sample.bob "link.select" (Sample.select_doctor Sample.dana_id) /\
  b_doctor_id (Sample.select_doctor Sample.dana_id) = Some Sample.dana_id /\
  fst (handler req Sample.registered) = json 200 Ok /\
  fst (handler req d1) = json 200 Ok /\
  snd (handler req d1) = d1 /\
  exists l,
    filter (link_of (au_id Sample.bob) Sample.dana_id)
      (doctor_patient_links (snd (handler req d1))) = [l] /\
    l_patient_selected l = true /\
    l_doctor_selected l =
    doctor_consented Sample.registered (au_id Sample.bob) Sample.dana_id.
Proof.
  intros req d1.
  assert (H1 : schema_ok Sample.registered = true) by (vm_compute; reflexivity).
  assert (H2 : is_patient Sample.registered (au_id Sample.bob)).
  { exists {| p_id := Sample.bob_id; p_email := Some "bob@example.org";
              p_name := Some "Bob"; p_role := Some patient |}.
    split; [vm_compute; tauto|split; reflexivity]. }
  assert (H3 : has_profile Sample.dana_id Sample.registered = true)
    by (vm_compute; reflexivity).
  assert (H4 : Sample.dana_id <> "") by discriminate.
  assert (H5 : posts req Sample.bob "link.select"
                 (Sample.select_doctor Sample.dana_id))
    by (repeat split; vm_compute; reflexivity).
  assert (H6 : b_doctor_id (Sample.select_doctor Sample.dana_id)
               = Some Sample.dana_id)
    by reflexivity.
  repeat (split; [assumption|]).
  exact (link_select_idempotent req req _ _ Sample.bob Sample.dana_id
           Sample.registered H1 H2 H3 H4 H5 H6 H5 H6).
Defined.

End SelectFacts.

Module UpsertFacts.
Import PG Api Schema ListFacts KeyFacts AccessFacts HandlerFacts SchemaFacts
  SelectFacts.

Lemma filter_map_commute_In {A} (sel : A -> bool) (f : A -> A) l :
  (forall x, In x l -> sel (f x) = sel x) ->
  filter sel (map f l) = map f (filter sel l).
Proof.
  induction l as [|x r IH]; simpl; intros Hf; [reflexivity|].
  rewrite Hf by now left. rewrite IH by (intros y Hy; apply Hf; now right).
  now destruct (sel x).
Qed.

Lemma habit_at_key u day a b :
  habit_at u day a = true -> habit_at u day b = true ->
  same_habit_key a b = true.
Proof.
  unfold same_habit_key, habit_at. intros Ha Hb.
  apply andb_true_iff in Ha as [A1 A2], Hb as [B1 B2].
  apply String.eqb_eq in A1, B1. apply Z.eqb_eq in A2, B2.
  apply andb_true_iff. split; [apply String.eqb_eq|apply Z.eqb_eq]; congruence.
Qed.

Lemma vital_at_key u day a b :
  vital_at u day a = true -> vital_at u day b = true ->
  same_vital_key a b = true.
Proof.
  unfold same_vital_key, vital_at. intros Ha Hb.
  apply andb_true_iff in Ha as [A1 A2], Hb as [B1 B2].
  apply String.eqb_eq in A1, B1. apply Z.eqb_eq in A2, B2.
  apply andb_true_iff. split; [apply String.eqb_eq|apply Z.eqb_eq]; congruence.
Qed.

Section WithBackend.
Context {B : Backend}.

Lemma habit_of_row_written user date b id h day :
  habit_of_row id (habits_row user date b) = Some h ->
  date_in date = Some day -> h = habit_written user day b id.
Proof.
  unfold habit_of_row, habits_row, habit_written. simpl.
  intros H E. rewrite E in H. destruct (_ && _); [|discriminate].
  now injection H as <-.
Qed.

Lemma vital_of_row_written user date b id v day :
  vital_of_row id (vitals_row user date b) = Some v ->
  date_in date = Some day -> v = vital_written user day b id.
Proof.
  unfold vital_of_row, vitals_row, vital_written. simpl.
  intros H E. rewrite E in H. destruct (_ && _); [|discriminate].
  now injection H as <-.
Qed.

(** A successful [habits.upsert] leaves exactly one row for the caller and
    the day: the row written, in the place of the row that was there if
    there was one, appended otherwise. *)
Lemma habits_upsert_step user b t d :
  schema_ok d = true ->
  status (fst (catch (habits_upsert user b t) d)) = 200 ->
  let d' := snd (catch (habits_upsert user b t) d) in
  exists day id,
    date_in (upsert_date b t) = Some day /\
    filter (habit_at (au_id user) day) (habits d') =
      [habit_written user day b id] /\
    (forall h0, filter (habit_at (au_id user) day) (habits d) = [h0] ->
       id = h_id h0 /\ List.length (habits d') = List.length (habits d)) /\
    (filter (habit_at (au_id user) day) (habits d) = [] ->
       habits d' = (habits d ++ [habit_written user day b id])%list).
Proof.
  intros Hok.
  apply schema_ok_spec in Hok as (H1&H2&H3&H4&H5&H6&H7&H8&H9&H10&H11).
  unfold habits_upsert, catch, bind, query, ret, write, select_habit_id.
  destruct (date_in (upsert_date b t)) as [day|] eqn:Ed; cbn [data_of].
  2:{ unfold insert_habit, habit_of_row. cbn [hr_date habits_row].
      rewrite Ed. cbn. discriminate. }
  destruct (distinct_filter same_habit_key (habit_at (au_id user) day)
              (habits d) H3 (habit_at_key _ _)) as [E | [h0 E]];
    rewrite E; cbn [map maybeSingle data_of].
  - unfold insert_habit.
    destruct (habit_of_row _ _) as [h|] eqn:Eh; [|cbn; discriminate].
    rewrite (habit_of_row_written _ _ _ _ _ _ Eh Ed) in *. clear Eh.
    cbn [h_user_id h_date habit_written].
    destruct (has_profile _ _ && _); [|cbn; intros Hs; discriminate Hs].
    cbn. intros _. exists day, (next_rowid d). rewrite E.
    split; [reflexivity|].
    split; [|split; [intros h1 Hh; discriminate Hh|reflexivity]].
    rewrite filter_app, E. cbn. unfold habit_at at 1. cbn.
    now rewrite String.eqb_refl, Z.eqb_refl.
  - unfold update_habit.
    destruct (habit_of_row _ _) as [h|] eqn:Eh; [|cbn; discriminate].
    rewrite (habit_of_row_written _ _ _ _ _ _ Eh Ed) in *. clear Eh.
    cbn [h_user_id h_date habit_written].
    pose proof (filter_single_In _ _ _ E) as [Hin0 Hsel0].
    assert (Hex : existsb (fun x => h_id x =? h_id h0) (habits d) = true).
    { apply existsb_exists. exists h0. split; [assumption|apply Z.eqb_refl]. }
    rewrite Hex.
    destruct (has_profile _ _ && _); [|cbn; intros Hs; discriminate Hs].
    cbn. intros _. exists day, (h_id h0). rewrite E.
    split; [reflexivity|]. split; [|split].
    + rewrite filter_map_commute_In.
      * rewrite E. cbn. now rewrite Z.eqb_refl.
      * intros x Hx. destruct (h_id x =? h_id h0) eqn:Ex; [|reflexivity].
        assert (x = h0) as ->.
        { apply (distinct_In_eq same_habit_id (habits d)); auto.
          intros a c. apply Z.eqb_sym. }
        rewrite Hsel0. unfold habit_at. cbn.
        now rewrite String.eqb_refl, Z.eqb_refl.
    + intros h1 [= <-]. split; [reflexivity|]. apply length_map.
    + discriminate.
Qed.

(** The same for [vitals.upsert]. *)
Lemma vitals_upsert_step user b t d :
  schema_ok d = true ->
  status (fst (catch (vitals_upsert user b t) d)) = 200 ->
  let d' := snd (catch (vitals_upsert user b t) d) in
  exists day id,
    date_in (upsert_date b t) = Some day /\
    filter (vital_at (au_id user) day) (vitals d') =
      [vital_written user day b id] /\
    (forall v0, filter (vital_at (au_id user) day) (vitals d) = [v0] ->
       id = v_id v0 /\ List.length (vitals d') = List.length (vitals d)) /\
    (filter (vital_at (au_id user) day) (vitals d) = [] ->
       vitals d' = (vitals d ++ [vital_written user day b id])%list).
Proof.
  intros Hok.
  apply schema_ok_spec in Hok as (H1&H2&H3&H4&H5&H6&H7&H8&H9&H10&H11).
  unfold vitals_upsert, catch, bind, query, ret, write, select_vital_id.
  destruct (date_in (upsert_date b t)) as [day|] eqn:Ed; cbn [data_of].
  2:{ unfold insert_vital, vital_of_row. cbn [vr_date vitals_row].
      rewrite Ed. cbn. discriminate. }
  destruct (distinct_filter same_vital_key (vital_at (au_id user) day)
              (vitals d) H5 (vital_at_key _ _)) as [E | [h0 E]];
    rewrite E; cbn [map maybeSingle data_of].
  - unfold insert_vital.
    destruct (vital_of_row _ _) as [h|] eqn:Eh; [|cbn; discriminate].
    rewrite (vital_of_row_written _ _ _ _ _ _ Eh Ed) in *. clear Eh.
    cbn [v_user_id v_date vital_written].
    destruct (has_profile _ _ && _); [|cbn; intros Hs; discriminate Hs].
    cbn. intros _. exists day, (next_rowid d). rewrite E.
    split; [reflexivity|].
    split; [|split; [intros h1 Hh; discriminate Hh|reflexivity]].
    rewrite filter_app, E. cbn. unfold vital_at at 1. cbn.
    now rewrite String.eqb_refl, Z.eqb_refl.
  - unfold update_vital.
    destruct (vital_of_row _ _) as [h|] eqn:Eh; [|cbn; discriminate].
    rewrite (vital_of_row_written _ _ _ _ _ _ Eh Ed) in *. clear Eh.
    cbn [v_user_id v_date vital_written].
    pose proof (filter_single_In _ _ _ E) as [Hin0 Hsel0].
    assert (Hex : existsb (fun x => v_id x =? v_id h0) (vitals d) = true).
    { apply existsb_exists. exists h0. split; [assumption|apply Z.eqb_refl]. }
    rewrite Hex.
    destruct (has_profile _ _ && _); [|cbn; intros Hs; discriminate Hs].
    cbn. intros _. exists day, (v_id h0). rewrite E.
    split; [reflexivity|]. split; [|split].
    + rewrite filter_map_commute_In.
      * rewrite E. cbn. now rewrite Z.eqb_refl.
      * intros x Hx. destruct (v_id x =? v_id h0) eqn:Ex; [|reflexivity].
        assert (x = h0) as ->.
        { apply (distinct_In_eq same_vital_id (vitals d)); auto.
          intros a c. apply Z.eqb_sym. }
        rewrite Hsel0. unfold vital_at. cbn.
        now rewrite String.eqb_refl, Z.eqb_refl.
    + intros h1 [= <-]. split; [reflexivity|]. apply length_map.
    + discriminate.
Qed.

End WithBackend.
End UpsertFacts.

Module AcceptFacts.
Import PG Api Schema ListFacts KeyFacts AccessFacts HandlerFacts SchemaFacts
  SelectFacts UpsertFacts.

Section WithBackend.
Context {B : Backend}.

(** [habits.upsert] succeeds for a caller with a profile, a date
    PostgreSQL can read and numbers that fit [int]. *)
Lemma habits_upsert_accepted user b t day d :
  schema_ok d = true ->
  has_profile (au_id user) d = true ->
  date_in (upsert_date b t) = Some day ->
  int4 (or_int (toInt (b_steps b)) 0) = true ->
  int4 (or_int (toInt (b_water_cups b)) 0) = true ->
  fst (catch (habits_upsert user b t) d) = json 200 Ok.
Proof.
  intros Hok Hp Hd Hs Hw.
  apply schema_ok_spec in Hok as (H1&H2&H3&H4&H5&H6&H7&H8&H9&H10&H11).
  unfold habits_upsert, catch, bind, query, ret, write, select_habit_id.
  rewrite Hd. cbn [data_of].
  destruct (distinct_filter same_habit_key (habit_at (au_id user) day)
              (habits d) H3 (habit_at_key _ _)) as [E | [h0 E]];
    rewrite E; cbn [map maybeSingle data_of].
  - unfold insert_habit, habit_of_row, habits_row.
    cbn [hr_date hr_steps hr_water_cups hr_user_id hr_sleep_hours].
    rewrite Hd, Hs, Hw. cbn [andb h_user_id h_date].
    now rewrite Hp, (filter_nil_existsb _ _ E).
  - pose proof (filter_single_In _ _ _ E) as [Hin0 Hsel0].
    unfold update_habit, habit_of_row, habits_row.
    cbn [hr_date hr_steps hr_water_cups hr_user_id hr_sleep_hours].
    rewrite Hd, Hs, Hw. cbn [andb h_user_id h_date].
    assert (Hex : existsb (fun x => h_id x =? h_id h0) (habits d) = true).
    { apply existsb_exists. exists h0. split; [assumption|apply Z.eqb_refl]. }
    rewrite Hex, Hp.
    assert (Hno : existsb (fun x => negb (h_id x =? h_id h0)
                                    && habit_at (au_id user) day x)
                    (habits d) = false).
    { destruct (existsb (fun x => negb _ && _) _) eqn:Ex;
        [exfalso|reflexivity].
      apply existsb_exists in Ex as (x & Hx & Hc).
      apply andb_true_iff in Hc as [Hne Hat].
      assert (Hf : In x (filter (habit_at (au_id user) day) (habits d)))
        by (apply filter_In; auto).
      rewrite E in Hf. destruct Hf as [<- | []].
      now rewrite Z.eqb_refl in Hne. }
    now rewrite Hno.
Qed.

(** [vitals.upsert] succeeds under the same conditions. *)
Lemma vitals_upsert_accepted user b t day d :
  schema_ok d = true ->
  has_profile (au_id user) d = true ->
  date_in (upsert_date b t) = Some day ->
  int4_opt (toInt (b_blood_glucose b)) = true ->
  int4_opt (toInt (b_blood_pressure_sys b)) = true ->
  int4_opt (toInt (b_blood_pressure_dia b)) = true ->
  int4_opt (toInt (b_heart_rate b)) = true ->
  fst (catch (vitals_upsert user b t) d) = json 200 Ok.
Proof.
  intros Hok Hp Hd Hg Hs Hdi Hh.
  apply schema_ok_spec in Hok as (H1&H2&H3&H4&H5&H6&H7&H8&H9&H10&H11).
  unfold vitals_upsert, catch, bind, query, ret, write, select_vital_id.
  rewrite Hd. cbn [data_of].
  destruct (distinct_filter same_vital_key (vital_at (au_id user) day)
              (vitals d) H5 (vital_at_key _ _)) as [E | [h0 E]];
    rewrite E; cbn [map maybeSingle data_of].
  - unfold insert_vital, vital_of_row, vitals_row.
    cbn [vr_date vr_blood_glucose vr_blood_pressure_sys
         vr_blood_pressure_dia vr_heart_rate vr_user_id
         vr_body_temperature].
    rewrite Hd, Hg, Hs, Hdi, Hh. cbn [andb v_user_id v_date].
    now rewrite Hp, (filter_nil_existsb _ _ E).
  - pose proof (filter_single_In _ _ _ E) as [Hin0 Hsel0].
    unfold update_vital, vital_of_row, vitals_row.
    cbn [vr_date vr_blood_glucose vr_blood_pressure_sys
         vr_blood_pressure_dia vr_heart_rate vr_user_id
         vr_body_temperature].
    rewrite Hd, Hg, Hs, Hdi, Hh. cbn [andb v_user_id v_date].
    assert (Hex : existsb (fun x => v_id x =? v_id h0) (vitals d) = true).
    { apply existsb_exists. exists h0. split; [assumption|apply Z.eqb_refl]. }
    rewrite Hex, Hp.
    assert (Hno : existsb (fun x => negb (v_id x =? v_id h0)
                                    && vital_at (au_id user) day x)
                    (vitals d) = false).
    { destruct (existsb (fun x => negb _ && _) _) eqn:Ex;
        [exfalso|reflexivity].
      apply existsb_exists in Ex as (x & Hx & Hc).
      apply andb_true_iff in Hc as [Hne Hat].
      assert (Hf : In x (filter (vital_at (au_id user) day) (vitals d)))
        by (apply filter_In; auto).
      rewrite E in Hf. destruct Hf as [<- | []].
      now rewrite Z.eqb_refl in Hne. }
    now rewrite Hno.
Qed.

End WithBackend.
End AcceptFacts.

Module ParseFacts.
Import PG Api Schema.

(** Rounding keeps the sign it is given. *)
Lemma binary_round_aux_sign s m e l :
  match binary_round_aux JS.prec JS.emax s m e l with
  | S754_zero s' | S754_infinity s' | S754_finite s' _ _ => s' = s
  | S754_nan => True
  end.
Proof.
  unfold binary_round_aux.
  destruct (shr_fexp _ _ m e l) as [mrs' e'].
  destruct (shr_fexp _ _ _ e' loc_Exact) as [mrs'' e''].
  destruct (shr_m mrs''); [reflexivity| |exact I].
  destruct (e'' <=? _); reflexivity.
Qed.

Lemma binary_round_sign s m e :
  match binary_round JS.prec JS.emax s m e with
  | S754_zero s' | S754_infinity s' | S754_finite s' _ _ => s' = s
  | S754_nan => True
  end.
Proof.
  unfold binary_round. destruct (shl_align _ _ _) as [mz ez].
  apply binary_round_aux_sign.
Qed.

(** The number of a non-negative integer is not negative. *)
Lemma of_Z_sign n :
  0 <= n -> JS.sign (JS.of_Z n) = false \/ JS.of_Z n = S754_nan.
Proof.
  intros Hn. unfold JS.of_Z, binary_normalize.
  destruct n as [|p|p]; [now left| |lia].
  pose proof (binary_round_sign false p 0) as H.
  destruct (binary_round _ _ false p 0); simpl; auto.
Qed.

Lemma of_decimal_sign m k :
  JS.sign (JS.of_decimal false m k) = false \/
  JS.of_decimal false m k = S754_nan.
Proof.
  unfold JS.of_decimal. destruct m as [|p|p]; [now left| |now right].
  destruct k as [|e|e].
  - apply (of_Z_sign (Zpos p)). lia.
  - apply (of_Z_sign (Zpos p * 10 ^ Zpos e)).
    apply Z.mul_nonneg_nonneg; [lia|]. apply Z.pow_nonneg. lia.
  - unfold JS.of_ratio, SFdiv.
    destruct (SFdiv_core_binary _ _ _ _ _ _) as [[mz ez] lz].
    pose proof (binary_round_aux_sign (xorb false false) mz ez lz) as H.
    destruct (binary_round_aux _ _ _ mz ez lz); simpl in *; auto.
Qed.

Lemma to_Z_nonneg x : JS.sign x = false -> 0 <= JS.to_Z x.
Proof.
  destruct x as [s|s| |s m e]; cbn [JS.to_Z JS.sign]; try lia.
  intros ->. cbv zeta. destruct (0 <=? e) eqn:Ee.
  - apply Z.mul_nonneg_nonneg; [lia|]. apply Z.pow_nonneg. lia.
  - apply Z.leb_gt in Ee. apply Z.div_pos; [lia|].
    apply Z.pow_pos_nonneg; lia.
Qed.

Lemma scan_digits_nonneg s acc cnt :
  0 <= acc -> 0 <= fst (fst (JS.scan_digits s acc cnt)).
Proof.
  revert acc cnt.
  induction s as [|c r IH]; intros acc cnt Ha; cbn [JS.scan_digits fst];
    [assumption|].
  destruct (JS.is_digit c) eqn:Ec; [|assumption].
  apply IH. unfold JS.digit_val, JS.is_digit in *.
  apply andb_true_iff in Ec as [E1 _]. apply Nat.leb_le in E1. lia.
Qed.

(** A text without a digit in front has no digits to read. *)
Lemma scan_digits_none r acc :
  match r with
  | String c _ => JS.is_digit c
  | EmptyString => false
  end = false ->
  JS.scan_digits r acc 0 = (acc, 0, r).
Proof. destruct r as [|c r]; simpl; [reflexivity|]. now intros ->. Qed.

Lemma toInt_invalid v : int_literal v = false -> toInt v = None.
Proof.
  unfold int_literal, toInt, JS.parseInt.
  destruct (JS.scan_sign _) as [neg r]. simpl. intros H.
  now rewrite (scan_digits_none r 0 H).
Qed.

Lemma toFloat_invalid v : float_literal v = false -> toFloat v = None.
Proof.
  unfold float_literal, toFloat, JS.parseFloat.
  destruct (JS.scan_sign _) as [neg r]. cbn [snd]. intros H.
  apply orb_false_iff in H as [Hp Hd]. rewrite Hp.
  assert (Hr : match r with
               | String c _ => JS.is_digit c
               | EmptyString => false
               end = false).
  { destruct r as [|c r]; [reflexivity|].
    destruct (Ascii.eqb c ".") eqn:Ec.
    - apply Ascii.eqb_eq in Ec. subst c. reflexivity.
    - destruct c as [[] [] [] [] [] [] [] []]; try discriminate Ec;
        destruct r; exact Hd. }
  rewrite (scan_digits_none r 0 Hr).
  destruct r as [|c r]; [reflexivity|].
  destruct (Ascii.eqb c ".") eqn:Ec.
  - apply Ascii.eqb_eq in Ec. subst c.
    rewrite (scan_digits_none r 0); [reflexivity|].
    destruct r; [reflexivity|exact Hd].
  - destruct c as [[] [] [] [] [] [] [] []]; try discriminate Ec; reflexivity.
Qed.

Lemma toInt_missing : toInt None = None.
Proof. reflexivity. Qed.

Lemma toFloat_missing : toFloat None = None.
Proof. reflexivity. Qed.

(** Without a minus sign, what [toInt] reads is not negative. *)
Lemma toInt_unsigned v n :
  minus_signed v = false -> toInt v = Some n -> 0 <= n.
Proof.
  unfold minus_signed, toInt, JS.parseInt.
  destruct (JS.scan_sign _) as [neg r]. cbn [fst]. intros ->.
  pose proof (scan_digits_nonneg r 0 0 (Z.le_refl 0)) as Hn.
  destruct (JS.scan_digits r 0 0) as [[n' cnt] r']. cbn [fst] in Hn.
  destruct (cnt =? 0); [discriminate|].
  destruct (n' =? 0); [intros [= <-]; reflexivity|].
  destruct (of_Z_sign n' Hn) as [Hs | Hnan].
  - destruct (JS.isFinite _); [|discriminate].
    intros [= <-]. now apply to_Z_nonneg.
  - rewrite Hnan. discriminate.
Qed.

Lemma or_int_unsigned v :
  minus_signed v = false -> 0 <= or_int (toInt v) 0.
Proof.
  intros H. unfold or_int. destruct (toInt v) as [n|] eqn:E; [|lia].
  destruct (n =? 0); [lia|]. exact (toInt_unsigned v n H E).
Qed.

(** Without a minus sign, what [toFloat(x) || 0] gives is not negative. *)
Lemma or_zero_unsigned v :
  minus_signed v = false -> JS.geq0 (float8 (or_zero (toFloat v))) = true.
Proof.
  unfold minus_signed, or_zero, toFloat, JS.parseFloat.
  destruct (JS.scan_sign _) as [neg r]. cbn [fst]. intros ->.
  destruct (prefix "Infinity" r); [reflexivity|].
  destruct (JS.scan_digits r 0 0) as [[ip icnt] r1].
  destruct (match r1 with
            | String "." r1' => _
            | _ => _
            end) as [[m fcnt] r2].
  destruct ((icnt =? 0) && (fcnt =? 0)); [reflexivity|].
  destruct (of_decimal_sign m (JS.scan_exponent r2 - fcnt)) as [Hs | Hnan].
  - destruct (JS.of_decimal false m _) as [s|s| |s p e]; simpl in *;
      subst; reflexivity.
  - rewrite Hnan. reflexivity.
Qed.

End ParseFacts.

Module Records.
Import PG Api Schema ListFacts KeyFacts AccessFacts HandlerFacts SchemaFacts
  SelectFacts UpsertFacts ParseFacts.

Section WithBackend.
Context {B : Backend}.

Lemma habits_upsert_handler req user b d :
  posts req user "habits.upsert" b ->
  handler req d = catch (habits_upsert user b (now req)) d.
Proof.
  intros Hp. rewrite (handler_posts _ _ _ _ _ Hp).
  now rewrite (dispatch_habits_upsert _ _ _ (proj1 (proj2 (proj2 Hp)))).
Qed.

Lemma vitals_upsert_handler req user b d :
  posts req user "vitals.upsert" b ->
  handler req d = catch (vitals_upsert user b (now req)) d.
Proof.
  intros Hp. rewrite (handler_posts _ _ _ _ _ Hp).
  now rewrite (dispatch_vitals_upsert _ _ _ (proj1 (proj2 (proj2 Hp)))).
Qed.


(** C9. When [vitals.upsert] succeeds on a day for which the caller has a
    row, that row (same identifier, same place) then holds, in all five
    vital fields, what the request parses to and nothing of what it held:
    a field the request omits or does not give as a number is null. *)
Theorem vitals_update_overwrites req user b day v0 d :
  schema_ok d = true ->
  posts req user "vitals.upsert" b ->
  date_in (upsert_date b (now req)) = Some day ->
  In v0 (vitals d) -> v_user_id v0 = au_id user -> v_date v0 = day ->
  status (fst (handler req d)) = 200 ->
  let d' := snd (handler req d) in
  let v := vital_written user day b (v_id v0) in
  filter (vital_at (au_id user) day) (vitals d') = [v] /\
  List.length (vitals d') = List.length (vitals d) /\
  (int_literal (b_blood_glucose b) = false -> v_blood_glucose v = None) /\
  (int_literal (b_blood_pressure_sys b) = false ->
   v_blood_pressure_sys v = None) /\
  (int_literal (b_blood_pressure_dia b) = false ->
   v_blood_pressure_dia v = None) /\
  (int_literal (b_heart_rate b) = false -> v_heart_rate v = None) /\
  (float_literal (b_body_temperature b) = false ->
   v_body_temperature v = None).
Proof.
  intros Hok Hp Hd Hin Hu Hday Hs d' v.
  subst d'. rewrite (vitals_upsert_handler _ _ _ _ Hp) in *.
  destruct (vitals_upsert_step user b (now req) d Hok Hs)
    as (day1 & id1 & E1 & F1 & U1 & _).
  rewrite Hd in E1. injection E1 as <-.
  assert (F0 : filter (vital_at (au_id user) day) (vitals d) = [v0]).
  { apply schema_ok_spec in Hok as (H1&H2&H3&H4&H5&_).
    apply (distinct_filter_In same_vital_key); auto.
    - apply vital_at_key.
    - unfold vital_at. rewrite Hu, Hday.
      now rewrite String.eqb_refl, Z.eqb_refl. }
  destruct (U1 _ F0) as [-> Hlen].
  subst v. cbn [vital_written v_blood_glucose v_blood_pressure_sys
                v_blood_pressure_dia v_heart_rate v_body_temperature].
  repeat split; try assumption;
    intros Hi; try now rewrite (toInt_invalid _ Hi).
  now rewrite (toFloat_invalid _ Hi).
Qed.



(** C7, as the code has it. A successful [habits.upsert] writes, for each
    of steps, water_cups and sleep_hours, a value that is not negative
    whenever the request's value carries no minus sign; a value with a
    minus sign is written as it parses. *)
Theorem habits_unsigned_nonneg req user b d :
  schema_ok d = true ->
  posts req user "habits.upsert" b ->
  status (fst (handler req d)) = 200 ->
  exists day h,
    filter (habit_at (au_id user) day) (habits (snd (handler req d))) = [h] /\
    h_steps h = Some (or_int (toInt (b_steps b)) 0) /\
    h_water_cups h = Some (or_int (toInt (b_water_cups b)) 0) /\
    h_sleep_hours h = Some (float8 (or_zero (toFloat (b_sleep_hours b)))) /\
    (minus_signed (b_steps b) = false ->
     0 <= or_int (toInt (b_steps b)) 0) /\
    (minus_signed (b_water_cups b) = false ->
     0 <= or_int (toInt (b_water_cups b)) 0) /\
    (minus_signed (b_sleep_hours b) = false ->
     JS.geq0 (float8 (or_zero (toFloat (b_sleep_hours b)))) = true).
Proof.
  intros Hok Hp Hs.
  rewrite (habits_upsert_handler _ _ _ _ Hp) in *.
  destruct (habits_upsert_step user b (now req) d Hok Hs)
    as (day & id & E & F & _ & _).
  exists day, (habit_written user day b id).
  split; [exact F|]. cbn [habit_written h_steps h_water_cups h_sleep_hours].
  repeat split.
  - apply or_int_unsigned.
  - apply or_int_unsigned.
  - apply or_zero_unsigned.
Qed.

End WithBackend.

#[local] Existing Instance Sample.backend.


End Records.

Module Fetch.
Import PG Api Schema ListFacts AccessFacts HandlerFacts ParseFacts.

(** ** Ordering by decreasing date *)

Section Order.
Context {A : Type} (key : A -> Z).





End Order.


Section WithBackend.
Context {B : Backend}.



Lemma or_int_default x :
  x = None \/ x = Some 0 -> or_int x 7 = 7.
Proof. intros [-> | ->]; reflexivity. Qed.

(** C10. On [habits.fetch] and [vitals.fetch], a request without
    [user_id] is answered with the caller's own entries, whatever the
    profiles and links are; and a [rangeDays] that is missing, does not
    start as a number, or reads as 0 is taken as 7. *)
Theorem fetch_defaults req user d :
  (qp_user_id req = None ->
   fetch_forUserId user req = au_id user /\
   (calls req user "habits.fetch" ->
    fst (handler req d) =
    habits_found (au_id user) (now req) (fetch_rangeDays req) d) /\
   (calls req user "vitals.fetch" ->
    fst (handler req d) =
    vitals_found (au_id user) (now req) (fetch_rangeDays req) d)) /\
  (qp_rangeDays req = None \/ int_literal (qp_rangeDays req) = false \/
   toInt (qp_rangeDays req) = Some 0 ->
   fetch_rangeDays req = 7 /\
   (calls req user "habits.fetch" ->
    fst (handler req d) =
    match refusal user (fetch_forUserId user req) d with
    | Some r => r
    | None => habits_found (fetch_forUserId user req) (now req) 7 d
    end) /\
   (calls req user "vitals.fetch" ->
    fst (handler req d) =
    match refusal user (fetch_forUserId user req) d with
    | Some r => r
    | None => vitals_found (fetch_forUserId user req) (now req) 7 d
    end)).
Proof.
  split.
  - intros Hq.
    assert (Hf : fetch_forUserId user req = au_id user).
    { unfold fetch_forUserId, or_str. now rewrite Hq. }
    split; [exact Hf|].
    split; intros Hc; rewrite (handler_calls _ _ _ _ Hc);
      destruct Hc as (_ & _ & Ha).
    + rewrite (dispatch_habits_fetch _ _ _ Ha), habits_fetch_run.
      now rewrite Hf, refusal_self.
    + rewrite (dispatch_vitals_fetch _ _ _ Ha), vitals_fetch_run.
      now rewrite Hf, refusal_self.
  - intros Hr.
    assert (H7 : fetch_rangeDays req = 7).
    { unfold fetch_rangeDays. apply or_int_default.
      destruct Hr as [-> | [Hr | Hr]]; auto.
      left. now apply toInt_invalid. }
    split; [exact H7|].
    split; intros Hc; rewrite (handler_calls _ _ _ _ Hc);
      destruct Hc as (_ & _ & Ha).
    + rewrite (dispatch_habits_fetch _ _ _ Ha), habits_fetch_run.
      now rewrite H7.
    + rewrite (dispatch_vitals_fetch _ _ _ Ha), vitals_fetch_run.
      now rewrite H7.
Qed.

End WithBackend.
End Fetch.

Module Cases.
Import PG Api Schema Records Fetch.

#[local] Existing Instance Sample.backend.


(** C7 as stated fails: a request with negative numbers is accepted and the
    negative numbers are stored. *)
Lemma habits_nonneg_counterexample :
  let req := Sample.post "t-alice" "habits.upsert"
               (Sample.habits_body (Some "2024-01-01") (Some "-5")
                  (Some "-2") (Some "-7.5")) in
  status (fst (handler req Sample.registered)) = 200 /\
  exists h x,
    habits (snd (handler req Sample.registered)) = [h] /\
    h_steps h = Some (-5) /\ h_water_cups h = Some (-2) /\
    h_sleep_hours h = Some x /\ JS.geq0 x = false /\
    ~ (0 <= -5) /\ ~ (0 <= -2).
Proof.
  intros req. split; [vm_compute; reflexivity|].
  eexists. eexists. split; [vm_compute; reflexivity|].
  cbn. repeat split; lia.
Qed.

Lemma habits_unsigned_nonneg_witness :
  let req := Sample.post "t-alice" "habits.upsert"
               (Sample.habits_body (Some "2024-01-01") (Some "5000")
                  (Some "6") (Some "7.5")) in
  schema_ok Sample.registered = true /\
  posts req Sample.alice "habits.upsert" (req_body req) /\
  status (fst (handler req Sample.registered)) = 200 /\
  exists day h,
    filter (habit_at Sample.alice_id day)
      (habits (snd (handler req Sample.registered))) = [h] /\
    h_steps h = Some (or_int (toInt (Some "5000")) 0) /\
    h_water_cups h = Some (or_int (toInt (Some "6")) 0) /\
    h_sleep_hours h = Some (float8 (or_zero (toFloat (Some "7.5")))) /\
    (minus_signed (Some "5000") = false ->
     0 <= or_int (toInt (Some "5000")) 0) /\
    (minus_signed (Some "6") = false -> 0 <= or_int (toInt (Some "6")) 0) /\
    (minus_signed (Some "7.5") = false ->
     JS.geq0 (float8 (or_zero (toFloat (Some "7.5")))) = true).
Proof.
  intros req.
  assert (H1 : schema_ok Sample.registered = true) by (vm_compute; reflexivity).
  assert (H2 : posts req Sample.alice "habits.upsert" (req_body req))
    by (repeat split; vm_compute; reflexivity).
  assert (H3 : status (fst (handler req Sample.registered)) = 200)
    by (vm_compute; reflexivity).
  repeat (split; [assumption|]).
  exact (habits_unsigned_nonneg req Sample.alice (req_body req)
           Sample.registered H1 H2 H3).
Defined.



Lemma vitals_update_overwrites_witness :
  let req := Sample.post "t-alice" "vitals.upsert"
               (Sample.vitals_body (Some "2024-01-02") None None None
                  (Some "70") None) in
  let v0 := {| v_id := 0; v_user_id := Sample.alice_id; v_date := 19724;
               v_blood_glucose := Some 98; v_blood_pressure_sys := Some 120;
               v_blood_pressure_dia := Some 80; v_heart_rate := Some 64;
               v_body_temperature := toFloat (Some "36.6") |} in
  schema_ok Sample.measured = true /\
  posts req Sample.alice "vitals.upsert" (req_body req) /\
  date_in (upsert_date (req_body req) (now req)) = Some 19724 /\
  In v0 (vitals Sample.measured) /\
  status (fst (handler req Sample.measured)) = 200 /\
  vitals (snd (handler req Sample.measured)) =
    [{| v_id := 0; v_user_id := Sample.alice_id; v_date := 19724;
        v_blood_glucose := None; v_blood_pressure_sys := None;
        v_blood_pressure_dia := None; v_heart_rate := Some 70;
        v_body_temperature := None |}] /\
  filter (vital_at Sample.alice_id 19724)
    (vitals (snd (handler req Sample.measured))) =
    [vital_written Sample.alice 19724 (req_body req) 0].
Proof.
  intros req v0.
  assert (H1 : schema_ok Sample.measured = true) by (vm_compute; reflexivity).
  assert (H2 : posts req Sample.alice "vitals.upsert" (req_body req))
    by (repeat split; vm_compute; reflexivity).
  assert (H3 : date_in (upsert_date (req_body req) (now req)) = Some 19724)
    by (vm_compute; reflexivity).
  assert (H4 : In v0 (vitals Sample.measured)) by (vm_compute; tauto).
  assert (H5 : status (fst (handler req Sample.measured)) = 200)
    by (vm_compute; reflexivity).
  repeat (split; [assumption|]).
  split; [vm_compute; reflexivity|].
  exact (proj1 (vitals_update_overwrites req Sample.alice (req_body req)
                  19724 v0 Sample.measured H1 H2 H3 H4 eq_refl eq_refl H5)).
Defined.

Lemma fetch_defaults_witness :
  let req := Sample.get "t-alice" "habits.fetch" None (Some "0") in
  qp_user_id req = None /\
  toInt (qp_rangeDays req) = Some 0 /\
  calls req Sample.alice "habits.fetch" /\
  fetch_forUserId Sample.alice req = Sample.alice_id /\
  fetch_rangeDays req = 7 /\
  fst (handler req Sample.planned) =
    habits_found Sample.alice_id (now req) (fetch_rangeDays req)
      Sample.planned /\
  fst (handler req Sample.planned) =
    match refusal Sample.alice (fetch_forUserId Sample.alice req)
            Sample.planned with
    | Some r => r
    | None => habits_found (fetch_forUserId Sample.alice req) (now req) 7
                Sample.planned
    end.
Proof.
  intros req.
  assert (H1 : qp_user_id req = None) by reflexivity.
  assert (H2 : toInt (qp_rangeDays req) = Some 0) by (vm_compute; reflexivity).
  assert (H3 : calls req Sample.alice "habits.fetch")
    by (repeat split; vm_compute; reflexivity).
  repeat (split; [assumption|]).
  destruct (fetch_defaults req Sample.alice Sample.planned) as [Hu Hr].
  destruct (Hu H1) as (U1 & U2 & _).
  destruct (Hr (or_intror (or_intror H2))) as (R1 & R2 & _).
  repeat split; auto.
Defined.

End Cases.

(* ================================================================== *)
(** * Further properties of the handler                                *)
(* ================================================================== *)

Module Answers.
Import PG Api Schema Conduct ListFacts AccessFacts HandlerFacts Steps
  SchemaFacts.

(** The relation of a step that changes nothing. *)
Lemma unchanged_refl d : unchanged d d.
Proof. reflexivity. Qed.

Lemma unchanged_trans a b c : unchanged a b -> unchanged b c -> unchanged a c.
Proof. unfold unchanged. congruence. Qed.

Section WithBackend.
Context {B : Backend}.

Ltac same_steps :=
  within_steps unchanged_refl unchanged_trans;
  try lazymatch goal with
      | |- steps_within _ (write _) =>
          apply (within_write _); intros; apply unchanged_refl
      end.

Lemma dispatch_reads user req b :
  writes (action req) = false ->
  steps_within unchanged (dispatch user req b).
Proof.
  unfold writes. intros Hw.
  apply orb_false_iff in Hw as [Hw H4]. apply orb_false_iff in Hw as [Hw H3].
  apply orb_false_iff in Hw as [H1 H2].
  unfold dispatch. rewrite H1, H2, H3, H4.
  unfold me, profile_get, habits_fetch, vitals_fetch, doctors_list,
    link_list.
  repeat match goal with
         | |- steps_within _ (if ?x then _ else _) => destruct x
         end; same_steps.
Qed.

(** X1. A request that is a preflight, does not authenticate, or asks for an
    action other than the four that write leaves the database as it
    was. *)
Theorem reads_change_nothing req d :
  String.eqb (method req) "OPTIONS" = true \/ getAuthUser req = None \/
  writes (action req) = false ->
  snd (handler req d) = d.
Proof.
  intros H. unfold handler.
  destruct (String.eqb (method req) "OPTIONS") eqn:Em; [reflexivity|].
  destruct (getAuthUser req) as [user|] eqn:Eu; [|reflexivity].
  destruct H as [H | [H | H]]; try discriminate.
  apply (within_catch unchanged). now apply dispatch_reads.
Qed.

Lemma answers_ret {A} (P : A -> Prop) a : P a -> answers P (ret a).
Proof. intros H d. exact H. Qed.

Lemma answers_throw {A} (P : A -> Prop) e : answers P (throw e).
Proof. intros d. exact I. Qed.

Lemma answers_bind {A C} (P : C -> Prop) (m : M A) (k : A -> M C) :
  (forall a, answers P (k a)) -> answers P (bind m k).
Proof.
  intros Hk d. unfold bind. destruct (m d) as [[a|e] d']; [apply Hk|exact I].
Qed.

Lemma answers_catch m d :
  answers served m -> served (fst (catch m d)).
Proof.
  intros H. specialize (H d). unfold catch.
  destruct (m d) as [[r|e] d']; simpl in *; [exact H|].
  unfold served. simpl. tauto.
Qed.

Ltac served_steps :=
  repeat lazymatch goal with
    | |- answers _ (ret _) =>
        apply answers_ret; unfold served; simpl; tauto
    | |- answers _ (throw _) => apply answers_throw
    | |- answers _ (bind _ _) => apply answers_bind; intros ?
    | |- answers _ (match ?x with _ => _ end) => destruct x
    | |- answers _ (let _ := _ in _) => cbv zeta
    end.

Lemma served_refusal user t d r : refusal user t d = Some r -> served r.
Proof.
  intros H. unfold served. rewrite (refusal_status _ _ _ _ H). simpl. tauto.
Qed.

Lemma dispatch_served user req b d :
  served (fst (catch (dispatch user req b) d)).
Proof.
  unfold dispatch.
  repeat match goal with
         | |- context [if is_str (action req) ?a then _ else _] =>
             destruct (is_str (action req) a)
         end.
  - apply answers_catch. unfold me. served_steps.
  - destruct (JS.truthy_str (qp_user_id req)) eqn:Eq.
    + destruct (qp_user_id req) as [t|] eqn:Et; [|discriminate].
      assert (Ht : t <> "") by (destruct t; [discriminate|congruence]).
      rewrite (profile_get_run user req t d Et Ht). cbn [fst].
      destruct (refusal user t d) as [r|] eqn:Er;
        [exact (served_refusal _ _ _ _ Er)|].
      unfold served.
      destruct (profile_found_status t d) as [E | [E _]]; rewrite E;
        simpl; tauto.
    + apply answers_catch. unfold profile_get. rewrite Eq. cbn [negb].
      served_steps.
  - apply answers_catch. unfold profile_upsert. served_steps.
  - apply answers_catch. unfold habits_upsert. served_steps.
  - rewrite habits_fetch_run. cbn [fst].
    destruct (refusal _ _ _) as [r|] eqn:Er;
      [exact (served_refusal _ _ _ _ Er)|].
    unfold served.
    destruct (habits_found_status (fetch_forUserId user req) (now req)
                (fetch_rangeDays req) d) as [E | E]; rewrite E; simpl; tauto.
  - apply answers_catch. unfold vitals_upsert. served_steps.
  - rewrite vitals_fetch_run. cbn [fst].
    destruct (refusal _ _ _) as [r|] eqn:Er;
      [exact (served_refusal _ _ _ _ Er)|].
    unfold served.
    destruct (vitals_found_status (fetch_forUserId user req) (now req)
                (fetch_rangeDays req) d) as [E | E]; rewrite E; simpl; tauto.
  - apply answers_catch. unfold doctors_list. served_steps.
  - apply answers_catch. unfold link_select. served_steps.
  - apply answers_catch. unfold link_list. served_steps.
  - apply answers_catch. served_steps.
Qed.

(** X2. The handler answers with one of seven statuses: 204 exactly to a
    preflight, 401 exactly to a request that is no preflight and does not
    authenticate, and 200, 400, 403, 404 or 500 to every other. *)
Theorem handler_statuses req d :
  In (status (fst (handler req d))) statuses /\
  (status (fst (handler req d)) = 204 <->
   String.eqb (method req) "OPTIONS" = true) /\
  (status (fst (handler req d)) = 401 <->
   String.eqb (method req) "OPTIONS" = false /\ getAuthUser req = None).
Proof.
  unfold handler, statuses.
  destruct (String.eqb (method req) "OPTIONS") eqn:Em.
  - simpl. repeat split; auto; try discriminate. intros [? _]. discriminate.
  - destruct (getAuthUser req) as [user|] eqn:Eu.
    + pose proof (dispatch_served user req
                    (if String.eqb (method req) "POST" then req_body req
                     else no_body) d) as Hs.
      unfold served in Hs. simpl in Hs.
      destruct Hs as [E | [E | [E | [E | [E | []]]]]]; rewrite <- E;
        simpl; repeat split; auto 10; try discriminate;
        intros [_ ?]; discriminate.
    + simpl. repeat split; auto 10; discriminate.
Qed.

End WithBackend.
End Answers.

Module Credentials.
Import PG Api Schema Conduct ListFacts AccessFacts HandlerFacts.

Lemma substring_all s n :
  (String.length s <= n)%nat -> substring 0 n s = s.
Proof.
  revert n. induction s as [|c r IH]; intros [|n] H; simpl in *;
    try reflexivity; try lia.
  f_equal. apply IH. lia.
Qed.

Lemma remove_bearer tok : JS.remove_first "Bearer " ("Bearer " ++ tok) = tok.
Proof.
  destruct tok as [|c r]; [reflexivity|].
  cbn. f_equal. apply substring_all. lia.
Qed.

Section WithBackend.
Context {B : Backend}.

(** X3. The word Bearer is optional: a token that does not contain it and
    has no white space around it authenticates the same whether the header
    is the token alone or Bearer and the token; in both cases the identity
    provider is asked about the token, unless it is empty. *)
Theorem bearer_prefix_optional req1 req2 tok :
  JS.remove_first "Bearer " tok = tok -> JS.trim tok = tok ->
  authorization req1 = Some tok ->
  authorization req2 = Some ("Bearer " ++ tok) ->
  getAuthUser req1 = getAuthUser req2 /\
  (tok <> "" -> getAuthUser req2 = auth_getUser tok) /\
  (tok = "" -> getAuthUser req2 = None).
Proof.
  intros Hr Ht H1 H2. unfold getAuthUser. rewrite H1, H2.
  cbn [JS.ToString]. rewrite remove_bearer, Hr, Ht.
  destruct tok as [|c r]; cbn; repeat split; congruence.
Qed.

End WithBackend.
End Credentials.

Module Edges.
Import PG Api Schema Conduct ListFacts AccessFacts HandlerFacts SchemaFacts.

Section WithBackend.
Context {B : Backend}.

(** X4. A fetch that is let through but asks for more than 200 000 000 days
    back fails: the start date is no valid date, [toISOString] throws, and
    the answer is 500 with the database unchanged. *)
Theorem fetch_range_overflow req user act d :
  calls req user act ->
  act = "habits.fetch" \/ act = "vitals.fetch" ->
  status (fst (handler req d)) <> 403 ->
  JS.valid_time (now req) = true ->
  200000000 < fetch_rangeDays req ->
  handler req d = (json 500 (Failure RangeError), d).
Proof.
  intros Hc Ha Hs Hv Hn.
  assert (Hd : daysAgoISO (now req) (fetch_rangeDays req) = None).
  { unfold daysAgoISO, JS.valid_time, JS.msPerDay in *.
    apply Z.leb_le in Hv.
    destruct (_ <=? _) eqn:E; [|reflexivity].
    apply Z.leb_le in E. lia. }
  rewrite (handler_calls _ _ _ _ Hc) in *.
  destruct Hc as (_ & _ & Hact).
  destruct Ha as [-> | ->].
  - rewrite (dispatch_habits_fetch _ _ _ Hact) in *.
    rewrite habits_fetch_run in *. cbn [fst] in Hs.
    destruct (refusal _ _ _) as [r|] eqn:Er.
    { now rewrite (refusal_status _ _ _ _ Er) in Hs. }
    unfold habits_found. now rewrite Hd.
  - rewrite (dispatch_vitals_fetch _ _ _ Hact) in *.
    rewrite vitals_fetch_run in *. cbn [fst] in Hs.
    destruct (refusal _ _ _) as [r|] eqn:Er.
    { now rewrite (refusal_status _ _ _ _ Er) in Hs. }
    unfold vitals_found. now rewrite Hd.
Qed.

(** X5. [doctors.list] answers any authenticated caller with exactly the
    accounts that have the role doctor and a [doctor_profiles] row. *)
Theorem doctors_list_members req user d :
  calls req user "doctors.list" ->
  exists items,
    handler req d = (json 200 (DoctorItems items), d) /\
    forall id, In id (map di_id items) <->
      exists p, In p (profiles d) /\ p_id p = id /\
                p_role p = Some doctor /\ doctor_profiles_of id d <> [].
Proof.
  intros Hc. rewrite (handler_calls _ _ _ _ Hc).
  destruct Hc as (_ & _ & Ha). unfold dispatch. rewrite Ha. cbn.
  eexists. split; [reflexivity|].
  intros id. rewrite in_map_iff. split.
  - intros (it & Hid & Hin). apply in_flat_map in Hin as (p & Hp & Hit).
    destruct (p_role p) as [[]|] eqn:Er; try contradiction.
    destruct (doctor_profiles_of (p_id p) d) as [|dp rest] eqn:Ed;
      [contradiction|].
    destruct Hit as [<- | []]. simpl in Hid. subst id.
    exists p. rewrite Ed. repeat split; auto. discriminate.
  - intros (p & Hp & Hid & Hr & Hd). subst id.
    destruct (doctor_profiles_of (p_id p) d) as [|dp rest] eqn:Ed;
      [congruence|].
    eexists. split; [|apply in_flat_map; exists p; split; [exact Hp|]].
    2:{ rewrite Hr, Ed. left. reflexivity. }
    reflexivity.
Qed.

End WithBackend.
End Edges.

Module Consent.
Import PG Api Schema Conduct ListFacts KeyFacts AccessFacts HandlerFacts Steps
  SchemaFacts SelectFacts Answers.

Lemma links_untouched_refl d : links_untouched d d.
Proof. reflexivity. Qed.

Lemma links_untouched_trans a b c :
  links_untouched a b -> links_untouched b c -> links_untouched a c.
Proof. unfold links_untouched. congruence. Qed.

Section WithBackend.
Context {B : Backend}.

Ltac untouched_write :=
  unfold links_untouched, upsert_profile, upsert_patient_profile,
    upsert_doctor_profile, insert_habit, update_habit, insert_vital,
    update_vital;
  repeat match goal with
         | |- context [match ?x with _ => _ end] => destruct x
         end; reflexivity.

Ltac untouched_steps :=
  within_steps links_untouched_refl links_untouched_trans;
  try lazymatch goal with
      | |- steps_within _ (write _) =>
          apply (within_write _); intros; untouched_write
      end.

(** Only [link.select] writes to the links. *)
Lemma dispatch_links_untouched user req b :
  is_str (action req) "link.select" = false ->
  steps_within links_untouched (dispatch user req b).
Proof.
  intros Hl. unfold dispatch. rewrite Hl.
  unfold me, profile_get, profile_upsert, ensureProfile, habits_upsert,
    habits_fetch, vitals_upsert, vitals_fetch, doctors_list, link_list.
  repeat match goal with
         | |- steps_within _ (if ?x then _ else _) => destruct x
         end; untouched_steps.
Qed.

(** What the pair of [getOrCreateLink] and the update that follows it does
    to the links, [mark] being the flag the update sets: a row that is there
    stays as it is unless it is the row of the pair, which is marked; a row
    that is new is the marked row of the pair. *)
Lemma link_step pid t (mark : link -> link) (r : response) d :
  schema_ok d = true ->
  let m :=
    bind (getOrCreateLink pid t) (fun l =>
      bind (write (fun d0 =>
              (Data tt,
               set_links d0
                 (map (fun x => if l_id x =? l_id l then mark x else x)
                    (doctor_patient_links d0))
                 (next_rowid d0))))
        (fun _ => ret r)) in
  forall n l',
    nth_error (doctor_patient_links (snd (m d))) n = Some l' ->
    match nth_error (doctor_patient_links d) n with
    | Some l =>
        l' = l \/
        exists did, uuid_in t = Some did /\ link_of pid did l = true /\
                    l' = mark l
    | None =>
        exists did,
          uuid_in t = Some did /\
          l' = mark {| l_id := next_rowid d; l_patient_id := pid;
                       l_doctor_id := did; l_patient_selected := false;
                       l_doctor_selected := false |}
    end.
Proof.
  intros Hok m n l'. subst m.
  apply schema_ok_spec in Hok as (H1&H2&H3&H4&H5&H6&H7&H8&H9&H10&H11).
  unfold getOrCreateLink, bind, query, ret, write, for_uuid, writing_uuid.
  destruct (uuid_in t) as [did|] eqn:Hu.
  2:{ cbn. intros En. rewrite En. now left. }
  destruct (distinct_filter same_link_key (link_of pid did)
              (doctor_patient_links d) H7 (link_of_pair _ _))
    as [E | [l0 E]]; rewrite E; cbn [maybeSingle data_of].
  - unfold insert_link.
    destruct (has_profile pid d && has_profile did d
              && negb (existsb (link_of pid did) (doctor_patient_links d))).
    + cbn. rewrite nth_error_map.
      destruct (nth_error (doctor_patient_links d) n) as [l|] eqn:En.
      * rewrite nth_error_app1 by (apply nth_error_Some; congruence).
        rewrite En. cbn. intros [= <-]. left.
        apply nth_error_In in En.
        now rewrite (fresh_id l_id _ _ H10 l En).
      * apply nth_error_None in En.
        rewrite nth_error_app2 by exact En.
        destruct (n - List.length (doctor_patient_links d))%nat as [|k];
          cbn; [|destruct k; discriminate].
        rewrite Z.eqb_refl. intros [= <-]. now exists did.
    + cbn. intros En. rewrite En. now left.
  - cbn. rewrite nth_error_map.
    destruct (nth_error (doctor_patient_links d) n) as [l|] eqn:En;
      [|discriminate].
    cbn. intros [= <-].
    destruct (l_id l =? l_id l0) eqn:Ei; [right|now left].
    apply filter_single_In in E as [Hin Hpair].
    assert (l = l0) as ->.
    { apply (distinct_In_eq same_link_id (doctor_patient_links d)); auto.
      - intros a c. apply Z.eqb_sym.
      - eapply nth_error_In; eassumption. }
    exists did. auto.
Qed.

Lemma snd_catch (m : M response) d : snd (catch m d) = snd (m d).
Proof. unfold catch. now destruct (m d) as [[r|e] d']. Qed.

Lemma bind_query {A C} (q : db -> A) (k : A -> M C) d :
  bind (query q) k d = k (q d) d.
Proof. reflexivity. Qed.

Lemma link_of_ids pid did l :
  link_of pid did l = true -> l_patient_id l = pid /\ l_doctor_id l = did.
Proof.
  unfold link_of. intros H. apply andb_true_iff in H as [H1 H2].
  now apply String.eqb_eq in H1, H2.
Qed.

(** What [link.select] does to the links. *)
Lemma link_select_rows user b d :
  schema_ok d = true -> uuid_in (au_id user) = Some (au_id user) ->
  forall n l',
    nth_error (doctor_patient_links (snd (catch (link_select user b) d))) n
    = Some l' ->
    own_mark (au_id user) (nth_error (doctor_patient_links d) n) l'.
Proof.
  intros Hok Hcan n l'. rewrite snd_catch. unfold link_select.
  rewrite bind_query.
  assert (Hsame : nth_error (doctor_patient_links d) n = Some l' ->
                  own_mark (au_id user)
                    (nth_error (doctor_patient_links d) n) l').
  { intros ->. now left. }
  destruct (getProfile (au_id user) d) as [mine|]; [|exact Hsame].
  destruct (p_role mine) as [[]|]; [| |exact Hsame].
  - destruct (JS.truthy_str (b_doctor_id b)); cbn [negb]; [|exact Hsame].
    intros Hn.
    pose proof (link_step (au_id user) (JS.ToString (b_doctor_id b))
                  mark_patient (json 200 Ok) d Hok n l' Hn) as H.
    unfold own_mark.
    destruct (nth_error (doctor_patient_links d) n) as [l|].
    + destruct H as [H | (did & _ & Hp & H)]; [now left|].
      right. left. split; [|exact H]. now apply link_of_ids in Hp.
    + destruct H as (did & _ & ->). left. cbn. auto.
  - destruct (JS.truthy_str (b_patient_email b)); cbn [negb]; [|exact Hsame].
    rewrite bind_query.
    destruct (if text_ok (b_patient_email b) then _ else _) as [[p|]|];
      [|exact Hsame|exact Hsame].
    intros Hn.
    pose proof (link_step (p_id p) (au_id user) mark_doctor (json 200 Ok)
                  d Hok n l' Hn) as H.
    unfold own_mark. rewrite Hcan in H.
    destruct (nth_error (doctor_patient_links d) n) as [l|].
    + destruct H as [H | (did & [= <-] & Hp & H)]; [now left|].
      right. right. split; [|exact H]. now apply link_of_ids in Hp.
    + destruct H as (did & [= <-] & ->). right. cbn. auto.
Qed.

(** What any request of an authenticated caller does to the links. *)
Lemma handler_rows req user d :
  schema_ok d = true -> getAuthUser req = Some user ->
  forall n l',
    nth_error (doctor_patient_links (snd (handler req d))) n = Some l' ->
    own_mark (au_id user) (nth_error (doctor_patient_links d) n) l'.
Proof.
  intros Hok Hu n l'. unfold handler.
  destruct (String.eqb (method req) "OPTIONS");
    [cbn; intros ->; now left|].
  rewrite Hu.
  destruct (is_str (action req) "link.select") eqn:El.
  - replace (dispatch user req _) with
      (link_select user
         (if String.eqb (method req) "POST" then req_body req else no_body)).
    + apply link_select_rows; [exact Hok|].
      exact (getAuthUser_uuid _ _ Hu).
    + unfold dispatch.
      destruct (action req) as [a|]; [|discriminate].
      apply String.eqb_eq in El. subst a. reflexivity.
  - pose proof (within_catch links_untouched _ d
                  (dispatch_links_untouched user req
                     (if String.eqb (method req) "POST" then req_body req
                      else no_body) El)) as Hl.
    unfold links_untouched in Hl. rewrite Hl. intros ->. now left.
Qed.

(** X6. A consent flag is set only by its own party: after any request of an
    authenticated caller, a link row whose patient flag is true either had
    it true before the request (same place in the table) or is a row whose
    patient is the caller; and the same for the doctor flag. *)
Theorem consent_by_own_party req user d :
  schema_ok d = true -> getAuthUser req = Some user ->
  forall n l',
    nth_error (doctor_patient_links (snd (handler req d))) n = Some l' ->
    (l_patient_selected l' = true ->
     l_patient_id l' = au_id user \/
     exists l, nth_error (doctor_patient_links d) n = Some l /\
               l_patient_selected l = true) /\
    (l_doctor_selected l' = true ->
     l_doctor_id l' = au_id user \/
     exists l, nth_error (doctor_patient_links d) n = Some l /\
               l_doctor_selected l = true).
Proof.
  intros Hok Hu n l' Hn.
  pose proof (handler_rows req user d Hok Hu n l' Hn) as H.
  unfold own_mark in H.
  destruct (nth_error (doctor_patient_links d) n) as [l|].
  - destruct H as [-> | [[Hp ->] | [Hd ->]]]; cbn; split; intros Hf; eauto.
  - destruct H as [(Hp & Hps & Hds) | (Hd & Hds & Hps)]; split; intros Hf;
      auto; congruence.
Qed.

Lemma handler_anonymous req d :
  getAuthUser req = None -> snd (handler req d) = d.
Proof.
  intros Hu. unfold handler. rewrite Hu.
  now destruct (String.eqb (method req) "OPTIONS").
Qed.

Lemma handler_flagged req d :
  schema_ok d = true -> flagged d (snd (handler req d)).
Proof.
  intros Hok Hf. apply forallb_forall. intros l' Hin.
  rewrite forallb_forall in Hf.
  destruct (getAuthUser req) as [user|] eqn:Eu.
  - apply In_nth_error in Hin as [n Hn].
    pose proof (handler_rows req user d Hok Eu n l' Hn) as H.
    unfold own_mark in H.
    destruct (nth_error (doctor_patient_links d) n) as [l|] eqn:El.
    + apply nth_error_In in El. specialize (Hf l El).
      unfold has_flag in *.
      destruct H as [-> | [[_ ->] | [_ ->]]]; cbn; auto.
      now rewrite orb_true_r.
    + unfold has_flag.
      destruct H as [(_ & -> & _) | (_ & -> & _)];
        [reflexivity|apply orb_true_r].
  - rewrite (handler_anonymous req d Eu) in Hin. now apply Hf.
Qed.

(** X7. No link row is left without a flag: if every link row has at least
    one of its flags set, the same holds after any list of requests. *)
Theorem links_stay_flagged (reqs : list request) (d : db) :
  schema_ok d = true ->
  forallb has_flag (doctor_patient_links d) = true ->
  forallb has_flag (doctor_patient_links (snd (serve reqs d))) = true.
Proof.
  revert d. induction reqs as [|r rest IH]; intros d Hok Hf; [exact Hf|].
  cbn [serve].
  pose proof (handler_sound r d Hok) as Hok1.
  pose proof (handler_flagged r d Hok Hf) as Hf1.
  destruct (handler r d) as [resp d1]. cbn [snd] in *.
  specialize (IH d1 Hok1 Hf1).
  destruct (serve rest d1) as [resps d2]. exact IH.
Qed.

End WithBackend.
End Consent.

Module Handshake.
Import PG Api Schema Conduct ListFacts KeyFacts AccessFacts HandlerFacts Steps
  SchemaFacts SelectFacts Answers Consent.

Section WithBackend.
Context {B : Backend}.

(** The doctor's branch of [link.select], at a doctor with a profile and an
    email address that finds one patient. *)
Lemma select_patient_step user b e mine pp d :
  schema_ok d = true ->
  getProfile (au_id user) d = Some mine -> p_role mine = Some doctor ->
  b_patient_email b = Some e -> e <> "" ->
  filter (patient_by_email e) (profiles d) = [pp] ->
  exists d',
    catch (link_select user b) d = (json 200 Ok, d') /\
    profiles d' = profiles d /\
    exists l,
      filter (link_of (p_id pp) (au_id user)) (doctor_patient_links d') = [l]
      /\ l_doctor_selected l = true /\
      l_patient_selected l = patient_consented d (p_id pp) (au_id user).
Proof.
  intros Hok Hp Hrole Hb He Hf.
  pose proof (getProfile_has _ _ _ Hp) as HhD.
  assert (HhP : has_profile (p_id pp) d = true).
  { apply filter_single_In in Hf as [Hin _]. unfold has_profile.
    apply existsb_exists. exists pp. split; [exact Hin|apply String.eqb_refl]. }
  assert (Hf' : filter (fun p => is_str (p_email p) e
                                 && match p_role p with
                                    | Some patient => true
                                    | _ => false
                                    end) (profiles d) = [pp]) by exact Hf.
  pose proof (has_profile_uuid d _ Hok HhD) as Hcan.
  assert (Hte : text_ok (Some e) = true).
  { apply filter_single_In in Hf as [Hin Hsel].
    apply schema_ok_spec in Hok as (_&_&_&_&_&_&_&_&_&_&H11).
    rewrite forallb_forall in H11. specialize (H11 pp Hin).
    unfold typed_profile in H11. apply andb_true_iff in H11 as [H11 _].
    apply andb_true_iff in H11 as [_ H11].
    unfold patient_by_email, is_str in Hsel.
    apply andb_true_iff in Hsel as [Hsel _].
    destruct (p_email pp) as [e'|]; [|discriminate].
    apply String.eqb_eq in Hsel. now subst e'. }
  apply schema_ok_spec in Hok as (H1&H2&H3&H4&H5&H6&H7&H8&H9&H10&H11).
  unfold link_select, getOrCreateLink, catch, bind, query, ret, write.
  rewrite Hp, Hrole, Hb, (truthy_str_Some e He). cbn [negb JS.ToString].
  rewrite Hte, Hf'. cbn [maybeSingle].
  unfold for_uuid, writing_uuid. rewrite Hcan.
  unfold patient_consented. rewrite existsb_filter.
  destruct (distinct_filter same_link_key (link_of (p_id pp) (au_id user))
              (doctor_patient_links d) H7 (link_of_pair _ _))
    as [E | [l0 E]]; rewrite E; cbn [maybeSingle data_of].
  - unfold insert_link.
    rewrite HhP, HhD, (filter_nil_existsb _ _ E). cbn [andb negb].
    eexists. split; [reflexivity|]. cbn.
    split; [reflexivity|].
    rewrite map_app, filter_app. cbn [map filter].
    rewrite Z.eqb_refl. unfold link_of at 2.
    cbn [l_patient_id l_doctor_id l_id l_patient_selected].
    rewrite !String.eqb_refl. cbn [andb].
    rewrite (map_id_ext _ (doctor_patient_links d)).
    + rewrite E. cbn. eexists. split; [reflexivity|]. split; reflexivity.
    + intros x Hx. now rewrite (fresh_id l_id _ _ H10 x Hx).
  - eexists. split; [reflexivity|]. cbn.
    split; [reflexivity|].
    rewrite filter_map_commute.
    + rewrite E. cbn [map]. rewrite Z.eqb_refl.
      eexists. split; [reflexivity|]. cbn. split; [reflexivity|].
      now rewrite orb_false_r.
    + intros x. destruct (l_id x =? l_id l0); reflexivity.
Qed.

Lemma single_flag (f : link -> bool) sel L l :
  filter sel L = [l] -> existsb (fun x => sel x && f x) L = f l.
Proof. intros E. rewrite existsb_filter, E. cbn. apply orb_false_r. Qed.

Lemma is_doctor_profiles id d d' :
  profiles d' = profiles d -> is_doctor d id -> is_doctor d' id.
Proof. unfold is_doctor. now intros ->. Qed.

(** X8. Mutual selection opens access: once a patient has selected a doctor
    by id and the doctor has selected the patient by email, in either
    order, both calls having answered 200, the pair has a link with both
    flags and the doctor's [profile.get], [habits.fetch] and [vitals.fetch]
    for the patient are no longer answered 403. *)
Theorem mutual_selection_opens_access reqP reqD bP bD P D pp e reqs d :
  schema_ok d = true ->
  is_patient d (au_id P) -> is_doctor d (au_id D) ->
  au_id P <> "" -> au_id D <> "" ->
  filter (patient_by_email e) (profiles d) = [pp] -> p_id pp = au_id P ->
  e <> "" ->
  posts reqP P "link.select" bP -> b_doctor_id bP = Some (au_id D) ->
  posts reqD D "link.select" bD -> b_patient_email bD = Some e ->
  reqs = [reqP; reqD] \/ reqs = [reqD; reqP] ->
  let d2 := snd (serve reqs d) in
  map status (fst (serve reqs d)) = [200; 200] /\
  mutual_link d2 (au_id P) (au_id D) /\
  forall freq act,
    calls freq D act -> reads_account act ->
    qp_user_id freq = Some (au_id P) ->
    status (fst (handler freq d2)) <> 403.
Proof.
  intros Hok (mp & HinP & HidP & HrP) HdD HneP HneD Hf Hpp He
    HpP HbP HpD HbD Hreqs d2.
  assert (HdD' := HdD). destruct HdD' as (md & HinD & HidD & HrD).
  pose proof (getProfile_In d _ mp Hok HinP HidP) as HgP.
  pose proof (getProfile_In d _ md Hok HinD HidD) as HgD.
  pose proof (getProfile_has _ _ _ HgD) as HhD.
  pose proof (has_profile_uuid d _ Hok HhD) as HuD.
  pose proof (has_profile_uuid d _ Hok (getProfile_has _ _ _ HgP)) as HuP.
  assert (Hrun : exists l d',
             serve reqs d = ([json 200 Ok; json 200 Ok], d') /\
             schema_ok d' = true /\ profiles d' = profiles d /\
             filter (link_of (au_id P) (au_id D)) (doctor_patient_links d')
             = [l] /\
             l_patient_selected l = true /\ l_doctor_selected l = true).
  { destruct Hreqs as [-> | ->]; cbn [serve].
    - pose proof (handler_sound reqP d Hok) as Hok1.
      rewrite (handler_posts _ _ _ _ _ HpP) in *.
      rewrite (dispatch_link_select _ _ _ (proj1 (proj2 (proj2 HpP)))) in *.
      destruct (select_doctor_step P bP (au_id D) (au_id D) mp d Hok HgP HrP
                  HbP HneD HuD HhD)
        as (d1 & E1 & Hprof1 & (l1 & Hl1 & Hl1p & _) & _).
      rewrite E1 in *. cbn [snd] in Hok1.
      pose proof (handler_sound reqD d1 Hok1) as Hok2.
      rewrite (handler_posts _ _ _ _ _ HpD) in *.
      rewrite (dispatch_link_select _ _ _ (proj1 (proj2 (proj2 HpD)))) in *.
      rewrite <- (getProfile_profiles (au_id D) d d1 Hprof1) in HgD.
      rewrite <- Hprof1 in Hf.
      destruct (select_patient_step D bD e md pp d1 Hok1 HgD HrD HbD He Hf)
        as (d3 & E2 & Hprof2 & l2 & Hl2 & Hl2d & Hl2p).
      rewrite E2 in *. cbn [snd] in Hok2.
      rewrite Hpp in *.
      exists l2, d3. repeat split; auto; try congruence.
      rewrite Hl2p. unfold patient_consented.
      now rewrite (single_flag l_patient_selected _ _ _ Hl1).
    - pose proof (handler_sound reqD d Hok) as Hok1.
      rewrite (handler_posts _ _ _ _ _ HpD) in *.
      rewrite (dispatch_link_select _ _ _ (proj1 (proj2 (proj2 HpD)))) in *.
      destruct (select_patient_step D bD e md pp d Hok HgD HrD HbD He Hf)
        as (d1 & E1 & Hprof1 & l1 & Hl1 & Hl1d & _).
      rewrite E1 in *. cbn [snd] in Hok1.
      pose proof (handler_sound reqP d1 Hok1) as Hok2.
      rewrite (handler_posts _ _ _ _ _ HpP) in *.
      rewrite (dispatch_link_select _ _ _ (proj1 (proj2 (proj2 HpP)))) in *.
      rewrite <- (getProfile_profiles (au_id P) d d1 Hprof1) in HgP.
      rewrite <- (has_profile_profiles (au_id D) d d1 Hprof1) in HhD.
      destruct (select_doctor_step P bP (au_id D) (au_id D) mp d1 Hok1 HgP
                  HrP HbP HneD HuD HhD)
        as (d3 & E2 & Hprof2 & (l2 & Hl2 & Hl2p & Hl2d) & _).
      rewrite E2 in *. cbn [snd] in Hok2.
      rewrite Hpp in *.
      exists l2, d3. repeat split; auto; try congruence.
      rewrite Hl2d. unfold doctor_consented.
      now rewrite (single_flag l_doctor_selected _ _ _ Hl1). }
  destruct Hrun as (l & d' & Es & Hok' & Hprof & Hl & Hlp & Hld).
  subst d2. rewrite Es. cbn [fst snd map status json].
  assert (Hm : mutual_link d' (au_id P) (au_id D)).
  { apply filter_single_In in Hl as [Hin Hpair].
    apply link_of_ids in Hpair as [H1 H2]. exists l. auto. }
  split; [reflexivity|]. split; [exact Hm|].
  intros freq act Hc Hr Hq.
  pose proof (reading_answer freq D act (au_id P) d' Hc Hr Hq HneP) as Ha.
  assert (Hmf : mutual_link_for d' (au_id P) (au_id D))
    by (exists (au_id P); auto).
  rewrite (refusal_cross_permits D (au_id P) d' Hok'
             (is_doctor_profiles _ _ _ Hprof HdD) Hmf) in Ha.
  apply Ha.
Qed.

End WithBackend.
End Handshake.

Module Selection.
Import PG Api Schema Conduct ListFacts KeyFacts AccessFacts HandlerFacts Steps
  SchemaFacts SelectFacts Consent Handshake.

Section WithBackend.
Context {B : Backend}.

Lemma getOrCreateLink_thrown pid did e d d' :
  getOrCreateLink pid did d = (Thrown e, d') -> d' = d.
Proof.
  unfold getOrCreateLink, bind, query, ret, write, writing_uuid, insert_link.
  destruct (data_of _); [discriminate|].
  destruct (uuid_in did); [|now intros [= _ <-]].
  destruct (_ && _); [discriminate|]. now intros [= _ <-].
Qed.

Lemma link_select_run user b d r d' :
  catch (link_select user b) d = (r, d') -> status r <> 200 -> d' = d.
Proof.
  unfold link_select, catch. unfold bind at 1. unfold query at 1.
  destruct (getProfile (au_id user) d) as [mine|];
    [|now intros [= _ <-]].
  destruct (p_role mine) as [[]|]; [| |now intros [= _ <-]].
  - destruct (negb _); [now intros [= _ <-]|].
    unfold bind at 1.
    destruct (getOrCreateLink _ _ d) as [[l|e] d1] eqn:E.
    + unfold bind, write, ret, update_patient_selected.
      intros [= <- _]. cbn. congruence.
    + intros [= _ <-] _. eapply getOrCreateLink_thrown, E.
  - destruct (negb _); [now intros [= _ <-]|].
    unfold bind at 1. unfold query at 1.
    destruct (if text_ok (b_patient_email b) then _ else _) as [[p|]|];
      [|now intros [= _ <-]|now intros [= _ <-]].
    unfold bind at 1.
    destruct (getOrCreateLink _ _ d) as [[l|e] d1] eqn:E.
    + unfold bind, write, ret, update_doctor_selected.
      intros [= <- _]. cbn. congruence.
    + intros [= _ <-] _. eapply getOrCreateLink_thrown, E.
Qed.

Lemma link_select_refused user b d :
  status (fst (catch (link_select user b) d)) <> 200 ->
  snd (catch (link_select user b) d) = d.
Proof.
  destruct (catch (link_select user b) d) as [r d'] eqn:E.
  apply (link_select_run _ _ _ _ _ E).
Qed.

(** X9. [link.select] is all or nothing: a request for it that is not
    answered 200 leaves the database as it was, whoever sent it. *)
Theorem link_select_all_or_nothing req d :
  action req = Some "link.select" ->
  status (fst (handler req d)) <> 200 ->
  snd (handler req d) = d.
Proof.
  intros Ha. unfold handler.
  destruct (String.eqb (method req) "OPTIONS"); [reflexivity|].
  destruct (getAuthUser req) as [user|]; [|reflexivity].
  rewrite (dispatch_link_select _ _ _ Ha). apply link_select_refused.
Qed.

Lemma typed_email d p e :
  schema_ok d = true -> In p (profiles d) -> p_email p = Some e ->
  text_ok (Some e) = true.
Proof.
  intros Hok Hin He.
  apply schema_ok_spec in Hok as (_&_&_&_&_&_&_&_&_&_&H11).
  rewrite forallb_forall in H11. specialize (H11 p Hin).
  unfold typed_profile in H11. apply andb_true_iff in H11 as [H11 _].
  apply andb_true_iff in H11 as [_ H11]. now rewrite He in H11.
Qed.

(** X10. What [link.select] answers to a caller with a profile.  A patient
    naming an account by a text is answered 200 when the text is a uuid, in
    whatever spelling, of an account with a profile, of whatever role, and
    500 (not 404) otherwise; a doctor naming an email address is answered
    200 when exactly one patient's profile carries it and 404 otherwise. *)
Theorem link_select_outcome req user b mine d :
  schema_ok d = true -> links_refer d = true ->
  posts req user "link.select" b ->
  getProfile (au_id user) d = Some mine ->
  (p_role mine = Some patient ->
   forall t, b_doctor_id b = Some t -> t <> "" ->
   status (fst (handler req d)) = if has_profile_for t d then 200 else 500) /\
  (p_role mine = Some doctor ->
   forall e, b_patient_email b = Some e -> e <> "" ->
   status (fst (handler req d)) =
   match filter (patient_by_email e) (profiles d) with
   | [_] => 200
   | _ => 404
   end).
Proof.
  intros Hok Hfk Hp Hg.
  rewrite (handler_posts _ _ _ _ _ Hp).
  rewrite (dispatch_link_select _ _ _ (proj1 (proj2 (proj2 Hp)))).
  split.
  - intros Hr t Hb Hne. unfold has_profile_for.
    destruct (uuid_in t) as [did|] eqn:Hu.
    2:{ unfold link_select, getOrCreateLink, catch, bind, query, ret, write.
        rewrite Hg, Hr, Hb, (truthy_str_Some t Hne). cbn [negb JS.ToString].
        unfold for_uuid, writing_uuid. now rewrite Hu. }
    destruct (has_profile did d) eqn:Hh.
    + destruct (select_doctor_step user b t did mine d Hok Hg Hr Hb Hne Hu Hh)
        as (d' & E & _). now rewrite E.
    + unfold link_select, getOrCreateLink, catch, bind, query, ret, write.
      rewrite Hg, Hr, Hb, (truthy_str_Some t Hne). cbn [negb JS.ToString].
      unfold for_uuid, writing_uuid. rewrite Hu.
      pose proof (schema_links d Hok) as Hd.
      destruct (distinct_filter same_link_key (link_of (au_id user) did)
                  (doctor_patient_links d) Hd (link_of_pair _ _))
        as [E | [l0 E]]; rewrite E; cbn [maybeSingle data_of].
      * unfold insert_link. rewrite Hh, andb_false_r. reflexivity.
      * apply filter_single_In in E as [Hin Hl0].
        apply link_of_ids in Hl0 as [_ Hl0].
        unfold links_refer in Hfk. rewrite forallb_forall in Hfk.
        apply Hfk, andb_true_iff in Hin as [_ Hin]. congruence.
  - intros Hr e Hb Hne.
    destruct (filter (patient_by_email e) (profiles d)) as [|pp [|q r]] eqn:Hf.
    + unfold link_select, catch, bind, query, ret.
      rewrite Hg, Hr, Hb, (truthy_str_Some e Hne). cbn [negb JS.ToString].
      change (filter _ (profiles d))
        with (filter (patient_by_email e) (profiles d)).
      rewrite Hf. now destruct (text_ok (Some e)).
    + destruct (select_patient_step user b e mine pp d Hok Hg Hr Hb Hne Hf)
        as (d' & E & _). now rewrite E.
    + unfold link_select, catch, bind, query, ret.
      rewrite Hg, Hr, Hb, (truthy_str_Some e Hne). cbn [negb JS.ToString].
      change (filter _ (profiles d))
        with (filter (patient_by_email e) (profiles d)).
      rewrite Hf. now destruct (text_ok (Some e)).
Qed.

Lemma dispatch_link_list user req b :
  action req = Some "link.list" -> dispatch user req b = link_list user.
Proof. intros E. unfold dispatch. now rewrite E. Qed.

(** X11. A doctor's [link.list] names exactly the accounts that doctor may
    read: [canDoctorView] holds for a text when, and only when, the text is
    a uuid, in whatever spelling, of an account that is listed. *)
Theorem doctor_list_is_readable req user d :
  schema_ok d = true ->
  calls req user "link.list" ->
  is_doctor d (au_id user) ->
  exists items,
    fst (handler req d) = json 200 (LinkedItems items) /\
    snd (handler req d) = d /\
    forall t,
      canDoctorView (au_id user) t d = true <->
      exists pid, uuid_in t = Some pid /\ In pid (map li_id items).
Proof.
  intros Hok Hc (mine & Hin & Hid & Hr).
  pose proof (getProfile_In d _ mine Hok Hin Hid) as Hg.
  rewrite (handler_calls _ _ _ _ Hc).
  rewrite (dispatch_link_list _ _ _ (proj2 (proj2 Hc))).
  unfold link_list, catch, bind, query, ret. rewrite Hg, Hr.
  eexists. split; [reflexivity|]. split; [reflexivity|].
  intros t. rewrite map_map. cbn [li_id]. split.
  - intros Hv. apply canDoctorView_mutual in Hv
      as (pid & Ht & l & Hl & Hp & Hdoc & Hps & Hds).
    exists pid. split; [exact Ht|]. apply in_map_iff.
    exists l. split; [exact Hp|]. apply filter_In. split; [exact Hl|].
    rewrite Hdoc, Hps, Hds, String.eqb_refl. reflexivity.
  - intros (pid & Ht & Hpid). apply in_map_iff in Hpid as (l & <- & Hl).
    apply filter_In in Hl as [Hl Hsel].
    apply andb_true_iff in Hsel as [Hsel Hd].
    apply andb_true_iff in Hsel as [Hdoc Hp].
    apply String.eqb_eq in Hdoc.
    apply (mutual_canDoctorView d _ _ Hok).
    exists (l_patient_id l). split; [exact Ht|]. exists l. auto.
Qed.

End WithBackend.
End Selection.

Module Profiles.
Import PG Api Schema Conduct ListFacts KeyFacts AccessFacts HandlerFacts Steps
  SchemaFacts SelectFacts UpsertFacts.

Section WithBackend.
Context {B : Backend}.

Lemma dispatch_profile_upsert user req b :
  action req = Some "profile.upsert" ->
  dispatch user req b = profile_upsert user b.
Proof. intros E. unfold dispatch. now rewrite E. Qed.

Lemma dispatch_me user req b :
  action req = Some "me" -> dispatch user req b = me user.
Proof. intros E. unfold dispatch. now rewrite E. Qed.

Lemma profiles_by_id_none id d :
  has_profile id d = false -> profiles_by_id id d = [].
Proof. intros H. now apply existsb_filter_nil. Qed.

Lemma profiles_by_id_one id d :
  schema_ok d = true -> has_profile id d = true ->
  exists p, profiles_by_id id d = [p] /\ p_id p = id.
Proof.
  intros Hok H. apply existsb_exists in H as (p & Hin & Hp).
  exists p. split; [|now apply String.eqb_eq].
  apply (distinct_filter_In same_profile); auto using schema_profiles.
  intros a c Ha Hc. unfold same_profile.
  apply String.eqb_eq in Ha, Hc. rewrite Ha, Hc. apply String.eqb_refl.
Qed.

(** The base row after [profiles.upsert] has gone through. *)
Lemma upsert_profile_row id email name role r d :
  schema_ok d = true ->
  role_sent role = Some r -> text_ok email && text_ok name = true ->
  email_free id email d = true ->
  exists d1,
    upsert_profile id email name role d = (Data tt, d1) /\
    profiles_by_id id d1 =
      [profile_written id email name r (getProfile id d)] /\
    patient_profiles d1 = patient_profiles d /\
    doctor_profiles d1 = doctor_profiles d /\
    habits d1 = habits d /\ vitals d1 = vitals d /\
    doctor_patient_links d1 = doctor_patient_links d /\
    next_rowid d1 = next_rowid d /\
    has_profile id d1 = true.
Proof.
  intros Hok Hr Ht He. unfold upsert_profile.
  assert (Hc : match role with
               | None => Some None
               | Some s => match role_in s with
                           | Some r => Some (Some r)
                           | None => None
                           end
               end = Some r).
  { unfold role_sent in Hr. destruct role as [s|]; [|exact Hr].
    destruct (role_in s); exact Hr. }
  rewrite Hc, Ht, He. cbn [negb].
  destruct (has_profile id d) eqn:Hh.
  - destruct (profiles_by_id_one id d Hok Hh) as (p & Hp & Hid).
    eexists. split; [reflexivity|]. cbn.
    repeat split; try reflexivity.
    + unfold getProfile, profiles_by_id in *. cbn [profiles]. rewrite Hp.
      cbn [single].
      rewrite filter_map_commute_In.
      * rewrite Hp. cbn [map]. subst id. rewrite String.eqb_refl. reflexivity.
      * intros x _. destruct (String.eqb (p_id x) id) eqn:Ex; cbn [p_id].
        -- now rewrite String.eqb_refl.
        -- exact Ex.
    + unfold has_profile in *. cbn [profiles].
      apply existsb_exists in Hh as (x & Hx & Hxe).
      apply existsb_exists. eexists. split; [apply in_map, Hx|].
      rewrite Hxe. cbn. apply String.eqb_refl.
  - eexists. split; [reflexivity|]. cbn.
    repeat split; try reflexivity.
    + unfold getProfile, profiles_by_id. cbn [profiles].
      rewrite filter_app. fold (profiles_by_id id d).
      rewrite (profiles_by_id_none id d Hh). cbn.
      rewrite String.eqb_refl. unfold profile_written.
      destruct email, name, r; reflexivity.
    + unfold has_profile. cbn [profiles]. rewrite existsb_app. cbn.
      rewrite String.eqb_refl. now rewrite orb_true_r.
Qed.

(** [profiles.upsert] refused: nothing is written. *)
Lemma upsert_profile_refused id email name role d :
  role_sent role = None \/ text_ok email && text_ok name = false \/
  email_free id email d = false ->
  upsert_profile id email name role d = (Error, d).
Proof.
  unfold upsert_profile, role_sent. intros [Hr | [Ht | He]].
  - destruct role as [s|]; [|discriminate].
    destruct (role_in s); [discriminate|reflexivity].
  - rewrite Ht. destruct role as [s|]; [|reflexivity].
    destruct (role_in s); reflexivity.
  - rewrite He. destruct (negb _); destruct role as [s|]; try reflexivity;
      destruct (role_in s); reflexivity.
Qed.

Lemma getProfile_by_id id d p :
  profiles_by_id id d = [p] -> getProfile id d = Some p.
Proof. unfold getProfile. now intros ->. Qed.

Lemma same_by_id id d d' :
  profiles d' = profiles d -> profiles_by_id id d' = profiles_by_id id d.
Proof. unfold profiles_by_id. now intros ->. Qed.

(** The detail write of [ensureProfile] leaves the base rows alone. *)
Lemma upsert_patient_profile_base row d r d' :
  upsert_patient_profile row d = (r, d') -> profiles d' = profiles d.
Proof.
  unfold upsert_patient_profile.
  destruct (negb _); [now intros [= _ <-]|].
  destruct (_ && _); [|now intros [= _ <-]].
  destruct (existsb _ _); now intros [= _ <-].
Qed.

Lemma upsert_doctor_profile_base row d r d' :
  upsert_doctor_profile row d = (r, d') -> profiles d' = profiles d.
Proof.
  unfold upsert_doctor_profile.
  destruct (negb _); [now intros [= _ <-]|].
  destruct (_ && _); [|now intros [= _ <-]].
  destruct (existsb _ _); now intros [= _ <-].
Qed.

(** What [ensureProfile] does once the base row is accepted: the base row
    is as written whether the detail row is accepted or not. *)
Lemma ensureProfile_base id email b r d :
  schema_ok d = true ->
  role_sent (b_role b) = Some r ->
  text_ok email && text_ok (b_name b) = true ->
  email_free id email d = true ->
  profiles_by_id id (snd (ensureProfile id email b d)) =
    [profile_written id email (b_name b) r (getProfile id d)].
Proof.
  intros Hok Hr Ht He.
  destruct (upsert_profile_row id email (b_name b) (b_role b) r d Hok Hr Ht
              He)
    as (d1 & E & Hp & _).
  unfold ensureProfile, bind, write. rewrite E.
  destruct (is_str (b_role b) "patient").
  - destruct (upsert_patient_profile _ d1) as [[] d2] eqn:E2; cbn [snd];
      now rewrite (same_by_id _ _ _ (upsert_patient_profile_base _ _ _ _ E2)).
  - destruct (is_str (b_role b) "doctor").
    + destruct (upsert_doctor_profile _ d1) as [[] d2] eqn:E2; cbn [snd];
        now rewrite (same_by_id _ _ _ (upsert_doctor_profile_base _ _ _ _ E2)).
    + exact Hp.
Qed.

Lemma ensureProfile_refused id email b d :
  role_sent (b_role b) = None \/
  text_ok email && text_ok (b_name b) = false \/
  email_free id email d = false ->
  ensureProfile id email b d = (Thrown PgError, d).
Proof.
  intros H. unfold ensureProfile, bind, write.
  now rewrite (upsert_profile_refused _ _ _ _ _ H).
Qed.

(** [ensureProfile] for the role patient. *)
Lemma ensureProfile_patient id email b :
  b_role b = Some "patient" ->
  ensureProfile id email b =
  bind (write (upsert_profile id email (b_name b) (b_role b)))
    (fun _ => write (upsert_patient_profile (patient_row id (patient_of b)))).
Proof. intros Hr. unfold ensureProfile. rewrite Hr. reflexivity. Qed.

Lemma profile_upsert_handler req user b d :
  posts req user "profile.upsert" b ->
  handler req d = catch (profile_upsert user b) d.
Proof.
  intros Hp. rewrite (handler_posts _ _ _ _ _ Hp).
  now rewrite (dispatch_profile_upsert _ _ _ (proj1 (proj2 (proj2 Hp)))).
Qed.

Lemma me_handler req user d :
  calls req user "me" ->
  handler req d = (json 200 (Me (getProfile (au_id user) d)), d).
Proof.
  intros Hc. rewrite (handler_calls _ _ _ _ Hc).
  now rewrite (dispatch_me _ _ _ (proj2 (proj2 Hc))).
Qed.

(** X12. [profile.upsert], then [me]: a [profile.upsert] answered 200 carries
    the caller's profile as it is stored afterwards, and the caller's next
    [me] answers the same profile.  It has the caller's id; the role sent,
    which is patient or doctor, or the role stored before when none is
    sent; the name sent; and the session's email address. *)
Theorem profile_upsert_round_trip req req' user b d :
  schema_ok d = true ->
  posts req user "profile.upsert" b -> calls req' user "me" ->
  status (fst (handler req d)) = 200 ->
  exists r p,
    role_sent (b_role b) = Some r /\
    p = profile_written (au_id user) (au_email user) (b_name b) r
          (getProfile (au_id user) d) /\
    fst (handler req d) = json 200 (OkProfile (Some p)) /\
    fst (handler req' (snd (handler req d))) = json 200 (Me (Some p)) /\
    p_id p = au_id user /\
    (forall s, b_role b = Some s -> role_in s = p_role p /\ r <> None) /\
    (forall n, b_name b = Some n -> p_name p = Some n) /\
    (forall e, au_email user = Some e -> p_email p = Some e).
Proof.
  intros Hok Hp Hc H200.
  rewrite (me_handler _ _ _ Hc).
  rewrite (profile_upsert_handler _ _ _ _ Hp) in *.
  destruct (role_sent (b_role b)) as [r|] eqn:Hr.
  2:{ exfalso. revert H200. unfold profile_upsert, catch, bind.
      rewrite (ensureProfile_refused _ _ _ _ (or_introl Hr)). discriminate. }
  destruct (text_ok (au_email user) && text_ok (b_name b)) eqn:Ht.
  2:{ exfalso. revert H200. unfold profile_upsert, catch, bind.
      rewrite (ensureProfile_refused _ _ _ _ (or_intror (or_introl Ht))).
      discriminate. }
  destruct (email_free (au_id user) (au_email user) d) eqn:He.
  2:{ exfalso. revert H200. unfold profile_upsert, catch, bind.
      rewrite (ensureProfile_refused _ _ _ _ (or_intror (or_intror He))).
      discriminate. }
  pose proof (ensureProfile_base (au_id user) (au_email user) b r d Hok Hr Ht
                He)
    as Hb.
  apply getProfile_by_id in Hb.
  exists r, (profile_written (au_id user) (au_email user) (b_name b) r
               (getProfile (au_id user) d)).
  revert H200 Hb. unfold profile_upsert, catch, bind, query, ret.
  destruct (ensureProfile _ _ _ d) as [[[]|e] d1]; cbn [fst snd status json];
    [|discriminate].
  intros _ ->.
  split; [reflexivity|]. split; [reflexivity|]. split; [reflexivity|].
  split; [reflexivity|]. split; [reflexivity|].
  split; [|split].
  - intros s Hs. unfold role_sent in Hr. rewrite Hs in Hr.
    destruct (role_in s); [|discriminate]. injection Hr as <-.
    split; [reflexivity|discriminate].
  - intros n Hn. cbn. now rewrite Hn.
  - intros e Hee. cbn. now rewrite Hee.
Qed.

(** X13. A failing [profile.upsert] is not undone.  When the base row is
    refused (a role other than patient and doctor, an email address or a
    name that holds the character U+0000, or an email address another
    account holds) the answer is 500 and the database is as it was; when
    the base row is accepted and the patient's row is refused (an age
    outside [int]) the answer is 500 as well, yet the caller's profile is
    stored with the role patient and the name sent. *)
Theorem profile_upsert_failures req user b d :
  schema_ok d = true ->
  posts req user "profile.upsert" b ->
  (role_sent (b_role b) = None \/
   text_ok (au_email user) && text_ok (b_name b) = false \/
   email_free (au_id user) (au_email user) d = false ->
   handler req d = (json 500 (Failure PgError), d)) /\
  (b_role b = Some "patient" ->
   text_ok (au_email user) && text_ok (b_name b) = true ->
   email_free (au_id user) (au_email user) d = true ->
   int4_opt (toInt (pa_age (patient_of b))) = false ->
   fst (handler req d) = json 500 (Failure PgError) /\
   getProfile (au_id user) (snd (handler req d)) =
     Some (profile_written (au_id user) (au_email user) (b_name b)
             (Some patient) (getProfile (au_id user) d))).
Proof.
  intros Hok Hp. rewrite (profile_upsert_handler _ _ _ _ Hp). split.
  - intros H. unfold profile_upsert, catch, bind.
    now rewrite (ensureProfile_refused _ _ _ _ H).
  - intros Hr Ht He Hage.
    assert (Hrs : role_sent (b_role b) = Some (Some patient))
      by now rewrite Hr.
    pose proof (ensureProfile_base (au_id user) (au_email user) b _ d Hok
                  Hrs Ht He) as Hb.
    apply getProfile_by_id in Hb.
    destruct (upsert_profile_row (au_id user) (au_email user) (b_name b)
                (b_role b) _ d Hok Hrs Ht He) as (d1 & E & _).
    revert Hb. unfold profile_upsert, catch. unfold bind at 1 3.
    rewrite (ensureProfile_patient _ _ _ Hr).
    unfold bind, write. rewrite E.
    unfold upsert_patient_profile. cbn [pp_user_id pp_age patient_row].
    rewrite Hage, andb_false_r.
    destruct (negb _); cbn [fst snd]; auto.
Qed.

Lemma upsert_patient_profile_row row d d' :
  one_patient_row (pp_user_id row) d = true ->
  upsert_patient_profile row d = (Data tt, d') ->
  patient_profiles_of (pp_user_id row) d' = [row].
Proof.
  unfold upsert_patient_profile, one_patient_row, patient_profiles_of.
  intros Hone. destruct (negb _); [discriminate|].
  destruct (_ && _); [|discriminate].
  destruct (existsb _ _) eqn:Ex; intros [= <-];
    unfold set_patient_profiles; cbn [patient_profiles].
  - rewrite filter_map_commute_In.
    + destruct (filter _ (patient_profiles d)) as [|x [|y r]] eqn:Ef.
      * apply filter_nil_existsb in Ef. congruence.
      * cbn [map]. apply filter_single_In in Ef as [_ ->]. reflexivity.
      * discriminate Hone.
    + intros x _. destruct (String.eqb (pp_user_id x) _) eqn:Exx;
        [apply String.eqb_refl|exact Exx].
  - rewrite filter_app, (existsb_filter_nil _ _ Ex). cbn.
    now rewrite String.eqb_refl.
Qed.

(** X14. A patient's details, written and read back: after a [profile.upsert]
    with the role patient that is answered 200, the caller's [profile.get]
    for the own account answers the profile with the role patient and the
    patient's row as it was sent: the age read by [toInt], weight and
    height by [toFloat], every empty or missing text as null. *)
Theorem patient_details_round_trip req req' user b d :
  schema_ok d = true ->
  one_patient_row (au_id user) d = true ->
  posts req user "profile.upsert" b -> b_role b = Some "patient" ->
  calls req' user "profile.get" ->
  qp_user_id req' = Some (au_id user) -> au_id user <> "" ->
  status (fst (handler req d)) = 200 ->
  fst (handler req' (snd (handler req d))) =
  json 200
    (ProfilePatient
       (profile_written (au_id user) (au_email user) (b_name b)
          (Some patient) (getProfile (au_id user) d))
       (Some (patient_row (au_id user) (patient_of b)))).
Proof.
  intros Hok Hone Hp Hr Hc Hq Hne H200.
  rewrite (handler_calls _ _ _ _ Hc).
  rewrite (dispatch_profile_get _ _ _ (proj2 (proj2 Hc))).
  rewrite (profile_get_run _ _ _ _ Hq Hne), refusal_self. cbn [fst].
  rewrite (profile_upsert_handler _ _ _ _ Hp) in *.
  assert (Hrs : role_sent (b_role b) = Some (Some patient))
    by now rewrite Hr.
  destruct (text_ok (au_email user) && text_ok (b_name b)) eqn:Ht.
  2:{ exfalso. revert H200. unfold profile_upsert, catch, bind.
      rewrite (ensureProfile_refused _ _ _ _ (or_intror (or_introl Ht))).
      discriminate. }
  destruct (email_free (au_id user) (au_email user) d) eqn:He.
  2:{ exfalso. revert H200. unfold profile_upsert, catch, bind.
      rewrite (ensureProfile_refused _ _ _ _ (or_intror (or_intror He))).
      discriminate. }
  pose proof (ensureProfile_base (au_id user) (au_email user) b _ d Hok
                Hrs Ht He) as Hb.
  destruct (upsert_profile_row (au_id user) (au_email user) (b_name b)
              (b_role b) _ d Hok Hrs Ht He)
    as (d1 & E & _ & Hpp & _).
  assert (Hone1 : one_patient_row (au_id user) d1 = true).
  { unfold one_patient_row, patient_profiles_of in *. now rewrite Hpp. }
  revert H200 Hb. unfold profile_upsert, catch. unfold bind at 1 3.
  rewrite (ensureProfile_patient _ _ _ Hr).
  unfold bind, write, query, ret. rewrite E.
  destruct (upsert_patient_profile _ d1) as [[[]|] d2] eqn:E2;
    cbn [fst snd status json]; [|discriminate].
  intros _ Hb. unfold profile_found, for_uuid.
  rewrite (getAuthUser_uuid _ _ (proj1 (proj2 Hc))), Hb. cbn [maybeSingle].
  assert (Hrole : p_role (profile_written (au_id user) (au_email user)
                            (b_name b) (Some patient)
                            (getProfile (au_id user) d)) = Some patient)
    by reflexivity.
  rewrite Hrole.
  pose proof (upsert_patient_profile_row
                (patient_row (au_id user) (patient_of b)) _ _ Hone1 E2)
    as Hrow.
  cbn [pp_user_id patient_row] in Hrow. now rewrite Hrow.
Qed.

End WithBackend.
End Profiles.

Module Daily.
Import PG Api Schema Conduct ListFacts KeyFacts AccessFacts HandlerFacts Steps
  SchemaFacts SelectFacts UpsertFacts AcceptFacts Records.

Lemma filter_map_outside {A} (sel : A -> bool) (f : A -> A) l :
  (forall x, In x l -> sel x = true -> f x = x) ->
  (forall x, In x l -> sel x = false -> sel (f x) = false) ->
  filter sel (map f l) = filter sel l.
Proof.
  induction l as [|x r IH]; intros H1 H2; [reflexivity|]. cbn [map filter].
  rewrite IH;
    [|intros y Hy; apply H1; now right|intros y Hy; apply H2; now right].
  destruct (sel x) eqn:E.
  - rewrite (H1 x (or_introl eq_refl) E), E. reflexivity.
  - now rewrite (H2 x (or_introl eq_refl) E).
Qed.

Lemma same_habit_id_sym a b : same_habit_id a b = same_habit_id b a.
Proof. apply Z.eqb_sym. Qed.

Lemma same_vital_id_sym a b : same_vital_id a b = same_vital_id b a.
Proof. apply Z.eqb_sym. Qed.

Section WithBackend.
Context {B : Backend}.

Lemma habits_upsert_rejected user b t d :
  schema_ok d = true -> habits_fit user b t d = false ->
  catch (habits_upsert user b t) d = (json 500 (Failure PgError), d).
Proof.
  intros Hok Hfit. unfold habits_fit in Hfit.
  apply schema_ok_spec in Hok as (H1&H2&H3&H4&H5&H6&H7&H8&H9&H10&H11).
  unfold habits_upsert, catch, bind, query, ret, write, select_habit_id.
  destruct (date_in (upsert_date b t)) as [day|] eqn:Hd; cbn [data_of].
  - destruct (distinct_filter same_habit_key (habit_at (au_id user) day)
                (habits d) H3 (habit_at_key _ _)) as [E | [h0 E]];
      rewrite E; cbn [map maybeSingle data_of].
    + unfold insert_habit, habit_of_row, habits_row.
      cbn [hr_date hr_steps hr_water_cups hr_user_id hr_sleep_hours].
      rewrite Hd.
      destruct (int4 (or_int (toInt (b_steps b)) 0));
        destruct (int4 (or_int (toInt (b_water_cups b)) 0));
        cbn [andb]; try reflexivity.
      cbn [h_user_id h_date].
      destruct (has_profile (au_id user) d); [discriminate|reflexivity].
    + pose proof (filter_single_In _ _ _ E) as [Hin0 Hsel0].
      unfold update_habit, habit_of_row, habits_row.
      cbn [hr_date hr_steps hr_water_cups hr_user_id hr_sleep_hours].
      rewrite Hd.
      destruct (int4 (or_int (toInt (b_steps b)) 0));
        destruct (int4 (or_int (toInt (b_water_cups b)) 0));
        cbn [andb]; try reflexivity.
      cbn [h_user_id h_date].
      assert (Hex : existsb (fun x => h_id x =? h_id h0) (habits d) = true).
      { apply existsb_exists. exists h0.
        split; [assumption|apply Z.eqb_refl]. }
      rewrite Hex.
      destruct (has_profile (au_id user) d); [discriminate|reflexivity].
  - unfold insert_habit, habit_of_row, habits_row. cbn [hr_date].
    now rewrite Hd.
Qed.

Lemma vitals_upsert_rejected user b t d :
  schema_ok d = true -> vitals_fit user b t d = false ->
  catch (vitals_upsert user b t) d = (json 500 (Failure PgError), d).
Proof.
  intros Hok Hfit. unfold vitals_fit in Hfit.
  apply schema_ok_spec in Hok as (H1&H2&H3&H4&H5&H6&H7&H8&H9&H10&H11).
  unfold vitals_upsert, catch, bind, query, ret, write, select_vital_id.
  destruct (date_in (upsert_date b t)) as [day|] eqn:Hd; cbn [data_of].
  - destruct (distinct_filter same_vital_key (vital_at (au_id user) day)
                (vitals d) H5 (vital_at_key _ _)) as [E | [h0 E]];
      rewrite E; cbn [map maybeSingle data_of].
    + unfold insert_vital, vital_of_row, vitals_row.
      cbn [vr_date vr_blood_glucose vr_blood_pressure_sys
           vr_blood_pressure_dia vr_heart_rate vr_user_id
           vr_body_temperature].
      rewrite Hd.
      destruct (int4_opt (toInt (b_blood_glucose b)));
        destruct (int4_opt (toInt (b_blood_pressure_sys b)));
        destruct (int4_opt (toInt (b_blood_pressure_dia b)));
        destruct (int4_opt (toInt (b_heart_rate b)));
        cbn [andb]; try reflexivity.
      cbn [v_user_id v_date].
      destruct (has_profile (au_id user) d); [discriminate|reflexivity].
    + pose proof (filter_single_In _ _ _ E) as [Hin0 Hsel0].
      unfold update_vital, vital_of_row, vitals_row.
      cbn [vr_date vr_blood_glucose vr_blood_pressure_sys
           vr_blood_pressure_dia vr_heart_rate vr_user_id
           vr_body_temperature].
      rewrite Hd.
      destruct (int4_opt (toInt (b_blood_glucose b)));
        destruct (int4_opt (toInt (b_blood_pressure_sys b)));
        destruct (int4_opt (toInt (b_blood_pressure_dia b)));
        destruct (int4_opt (toInt (b_heart_rate b)));
        cbn [andb]; try reflexivity.
      cbn [v_user_id v_date].
      assert (Hex : existsb (fun x => v_id x =? v_id h0) (vitals d) = true).
      { apply existsb_exists. exists h0.
        split; [assumption|apply Z.eqb_refl]. }
      rewrite Hex.
      destruct (has_profile (au_id user) d); [discriminate|reflexivity].
  - unfold insert_vital, vital_of_row, vitals_row. cbn [vr_date].
    now rewrite Hd.
Qed.

(** X15. When [habits.upsert] goes through: it is answered 200 exactly when
    the caller has a profile, the date is one PostgreSQL reads and both
    counts fit [int]; otherwise the answer is 500 and nothing is
    written. *)
Theorem habits_upsert_accepts req user b d :
  schema_ok d = true ->
  posts req user "habits.upsert" b ->
  (habits_fit user b (now req) d = true ->
   fst (handler req d) = json 200 Ok) /\
  (habits_fit user b (now req) d = false ->
   handler req d = (json 500 (Failure PgError), d)) /\
  (status (fst (handler req d)) = 200 <->
   habits_fit user b (now req) d = true).
Proof.
  intros Hok Hp. rewrite (habits_upsert_handler _ _ _ _ Hp).
  assert (Hyes : habits_fit user b (now req) d = true ->
                 fst (catch (habits_upsert user b (now req)) d)
                 = json 200 Ok).
  { unfold habits_fit. intros Hfit.
    apply andb_true_iff in Hfit as [Hfit Hw].
    apply andb_true_iff in Hfit as [Hfit Hs].
    apply andb_true_iff in Hfit as [Hh Hd].
    destruct (date_in (upsert_date b (now req))) as [day|] eqn:Ed;
      [|discriminate].
    now apply (habits_upsert_accepted user b (now req) day d). }
  split; [exact Hyes|]. split.
  - now apply habits_upsert_rejected.
  - split.
    + intros H200. destruct (habits_fit user b (now req) d) eqn:Hfit;
        [reflexivity|].
      rewrite (habits_upsert_rejected _ _ _ _ Hok Hfit) in H200.
      discriminate.
    + intros Hfit. now rewrite (Hyes Hfit).
Qed.

(** X16. When [vitals.upsert] goes through: it is answered 200 exactly when
    the caller has a profile, the date is one PostgreSQL reads and the four
    integer readings that are present fit [int]; otherwise the answer is
    500 and nothing is written. *)
Theorem vitals_upsert_accepts req user b d :
  schema_ok d = true ->
  posts req user "vitals.upsert" b ->
  (vitals_fit user b (now req) d = true ->
   fst (handler req d) = json 200 Ok) /\
  (vitals_fit user b (now req) d = false ->
   handler req d = (json 500 (Failure PgError), d)) /\
  (status (fst (handler req d)) = 200 <->
   vitals_fit user b (now req) d = true).
Proof.
  intros Hok Hp. rewrite (vitals_upsert_handler _ _ _ _ Hp).
  assert (Hyes : vitals_fit user b (now req) d = true ->
                 fst (catch (vitals_upsert user b (now req)) d)
                 = json 200 Ok).
  { unfold vitals_fit. intros Hfit.
    apply andb_true_iff in Hfit as [Hfit Hhr].
    apply andb_true_iff in Hfit as [Hfit Hdi].
    apply andb_true_iff in Hfit as [Hfit Hs].
    apply andb_true_iff in Hfit as [Hfit Hg].
    apply andb_true_iff in Hfit as [Hh Hd].
    destruct (date_in (upsert_date b (now req))) as [day|] eqn:Ed;
      [|discriminate].
    now apply (vitals_upsert_accepted user b (now req) day d). }
  split; [exact Hyes|]. split.
  - now apply vitals_upsert_rejected.
  - split.
    + intros H200. destruct (vitals_fit user b (now req) d) eqn:Hfit;
        [reflexivity|].
      rewrite (vitals_upsert_rejected _ _ _ _ Hok Hfit) in H200.
      discriminate.
    + intros Hfit. now rewrite (Hyes Hfit).
Qed.

Lemma habit_written_at user day b id :
  habit_at (au_id user) day (habit_written user day b id) = true.
Proof.
  unfold habit_at, habit_written. cbn.
  now rewrite String.eqb_refl, Z.eqb_refl.
Qed.

Lemma vital_written_at user day b id :
  vital_at (au_id user) day (vital_written user day b id) = true.
Proof.
  unfold vital_at, vital_written. cbn.
  now rewrite String.eqb_refl, Z.eqb_refl.
Qed.

(** X17. [habits.upsert] touches the caller's row of the day and nothing
    else: whatever it answers, every other table is as it was, and so are,
    in their order, the habits rows of other accounts and of other days. *)
Theorem habits_upsert_frame req user b day d :
  schema_ok d = true ->
  posts req user "habits.upsert" b ->
  date_in (upsert_date b (now req)) = Some day ->
  let d' := snd (handler req d) in
  profiles d' = profiles d /\
  patient_profiles d' = patient_profiles d /\
  doctor_profiles d' = doctor_profiles d /\
  vitals d' = vitals d /\
  doctor_patient_links d' = doctor_patient_links d /\
  filter (fun h => negb (habit_at (au_id user) day h)) (habits d') =
  filter (fun h => negb (habit_at (au_id user) day h)) (habits d).
Proof.
  intros Hok Hp Hd. rewrite (habits_upsert_handler _ _ _ _ Hp).
  apply schema_ok_spec in Hok as (H1&H2&H3&H4&H5&H6&H7&H8&H9&H10&H11).
  unfold habits_upsert, catch, bind, query, ret, write, select_habit_id.
  rewrite Hd. cbn [data_of].
  destruct (distinct_filter same_habit_key (habit_at (au_id user) day)
              (habits d) H3 (habit_at_key _ _)) as [E | [h0 E]];
    rewrite E; cbn [map maybeSingle data_of].
  - unfold insert_habit.
    destruct (habit_of_row _ _) as [h|] eqn:Eh; [|cbn; auto 10].
    apply (habit_of_row_written _ _ _ _ _ day) in Eh; [|exact Hd].
    destruct (_ && _); [|cbn; auto 10]. cbn.
    repeat split. rewrite filter_app. cbn [filter].
    rewrite Eh at 1. rewrite habit_written_at. cbn [negb].
    apply app_nil_r.
  - pose proof (filter_single_In _ _ _ E) as [Hin0 Hsel0].
    unfold update_habit.
    destruct (habit_of_row _ _) as [h|] eqn:Eh; [|cbn; auto 10].
    apply (habit_of_row_written _ _ _ _ _ day) in Eh; [|exact Hd].
    destruct (existsb _ _); [|cbn; auto 10].
    destruct (_ && _); [|cbn; auto 10]. cbn.
    repeat split. apply filter_map_outside.
    + intros x Hx Hout. destruct (h_id x =? h_id h0) eqn:Eid; [|reflexivity].
      assert (x = h0)
        by (apply (distinct_In_eq same_habit_id (habits d));
            auto using same_habit_id_sym).
      subst x. rewrite Hsel0 in Hout. discriminate.
    + intros x Hx Hin. destruct (h_id x =? h_id h0); [|exact Hin].
      rewrite Eh, habit_written_at. reflexivity.
Qed.

(** X18. [vitals.upsert] touches the caller's row of the day and nothing
    else: whatever it answers, every other table is as it was, and so are,
    in their order, the vitals rows of other accounts and of other days. *)
Theorem vitals_upsert_frame req user b day d :
  schema_ok d = true ->
  posts req user "vitals.upsert" b ->
  date_in (upsert_date b (now req)) = Some day ->
  let d' := snd (handler req d) in
  profiles d' = profiles d /\
  patient_profiles d' = patient_profiles d /\
  doctor_profiles d' = doctor_profiles d /\
  habits d' = habits d /\
  doctor_patient_links d' = doctor_patient_links d /\
  filter (fun v => negb (vital_at (au_id user) day v)) (vitals d') =
  filter (fun v => negb (vital_at (au_id user) day v)) (vitals d).
Proof.
  intros Hok Hp Hd. rewrite (vitals_upsert_handler _ _ _ _ Hp).
  apply schema_ok_spec in Hok as (H1&H2&H3&H4&H5&H6&H7&H8&H9&H10&H11).
  unfold vitals_upsert, catch, bind, query, ret, write, select_vital_id.
  rewrite Hd. cbn [data_of].
  destruct (distinct_filter same_vital_key (vital_at (au_id user) day)
              (vitals d) H5 (vital_at_key _ _)) as [E | [h0 E]];
    rewrite E; cbn [map maybeSingle data_of].
  - unfold insert_vital.
    destruct (vital_of_row _ _) as [h|] eqn:Eh; [|cbn; auto 10].
    apply (vital_of_row_written _ _ _ _ _ day) in Eh; [|exact Hd].
    destruct (_ && _); [|cbn; auto 10]. cbn.
    repeat split. rewrite filter_app. cbn [filter].
    rewrite Eh at 1. rewrite vital_written_at. cbn [negb].
    apply app_nil_r.
  - pose proof (filter_single_In _ _ _ E) as [Hin0 Hsel0].
    unfold update_vital.
    destruct (vital_of_row _ _) as [h|] eqn:Eh; [|cbn; auto 10].
    apply (vital_of_row_written _ _ _ _ _ day) in Eh; [|exact Hd].
    destruct (existsb _ _); [|cbn; auto 10].
    destruct (_ && _); [|cbn; auto 10]. cbn.
    repeat split. apply filter_map_outside.
    + intros x Hx Hout. destruct (v_id x =? v_id h0) eqn:Eid; [|reflexivity].
      assert (x = h0)
        by (apply (distinct_In_eq same_vital_id (vitals d));
            auto using same_vital_id_sym).
      subst x. rewrite Hsel0 in Hout. discriminate.
    + intros x Hx Hin. destruct (v_id x =? v_id h0); [|exact Hin].
      rewrite Eh, vital_written_at. reflexivity.
Qed.

End WithBackend.
End Daily.

Module Numerals.
Import PG Api Schema Conduct ParseFacts.

Lemma digit_plain c r :
  JS.is_digit c = true ->
  JS.space_width (String c r) = 0%nat /\ c <> "-"%char /\ c <> "+"%char.
Proof.
  destruct c as [[] [] [] [] [] [] [] []]; cbv; intros H;
    try discriminate H; repeat split; discriminate.
Qed.

Lemma scan_digits_app ds tail acc cnt :
  all_digits ds = true -> no_digit_ahead tail = true ->
  JS.scan_digits (ds ++ tail) acc cnt =
  (fst (fst (JS.scan_digits ds acc cnt)),
   snd (fst (JS.scan_digits ds acc cnt)), tail).
Proof.
  intros Hd Ht. revert acc cnt Hd.
  induction ds as [|c r IH]; intros acc cnt Hd.
  - cbn [append JS.scan_digits fst snd].
    destruct tail as [|c t]; [reflexivity|].
    cbn [JS.scan_digits]. cbn in Ht. apply negb_true_iff in Ht.
    now rewrite Ht.
  - cbn [all_digits] in Hd. apply andb_true_iff in Hd as [Hc Hr].
    cbn [append JS.scan_digits]. rewrite Hc. now apply IH.
Qed.

Lemma scan_front c r :
  JS.is_digit c = true ->
  JS.scan_sign (JS.trim_start (String c r)) = (false, String c r).
Proof.
  intros Hc. destruct (digit_plain c r Hc) as (Hs & Hm & Hp).
  cbn [JS.trim_start]. rewrite Hs. unfold JS.scan_sign.
  destruct c as [[] [] [] [] [] [] [] []]; try reflexivity;
    [now elim Hp|now elim Hm].
Qed.

(** X19. [toInt] reads the digits at the front and ignores what follows them:
    a text made of a run of digits and a rest that does not start with a
    digit is read as the run alone, so a decimal point and everything after
    it, a unit or any other text is dropped. *)
Theorem toInt_leading_digits ds tail :
  ds <> "" -> all_digits ds = true -> no_digit_ahead tail = true ->
  toInt (Some (ds ++ tail)) = toInt (Some ds).
Proof.
  intros Hne Hd Ht. destruct ds as [|c r]; [contradiction|].
  pose proof Hd as Hd'. cbn [all_digits] in Hd'.
  apply andb_true_iff in Hd' as [Hc _].
  unfold toInt, JS.parseInt. cbn [JS.ToString].
  change (String c r ++ tail) with (String c (r ++ tail)).
  rewrite !(scan_front c _ Hc).
  change (String c (r ++ tail)) with (String c r ++ tail).
  rewrite (scan_digits_app _ _ 0 0 Hd Ht).
  destruct (JS.scan_digits (String c r) 0 0) as [[n cnt] rest].
  reflexivity.
Qed.

End Numerals.

Module References.
Import PG Api Schema Conduct ListFacts KeyFacts AccessFacts HandlerFacts Steps
  SchemaFacts SelectFacts UpsertFacts.

Lemma refs_kept_refl d : refs_kept d d.
Proof. unfold refs_kept. auto. Qed.

Lemma refs_kept_trans a b c : refs_kept a b -> refs_kept b c -> refs_kept a c.
Proof.
  unfold refs_kept. intros (A1 & A2 & A3 & A4) (B1 & B2 & B3 & B4).
  repeat split; auto.
Qed.

Lemma references_ok_spec d :
  references_ok d = true <->
  forallb (fun p => has_profile (pp_user_id p) d) (patient_profiles d) = true
  /\ forallb (fun p => has_profile (dp_user_id p) d) (doctor_profiles d) = true
  /\ forallb (fun h => has_profile (h_user_id h) d) (habits d) = true
  /\ forallb (fun v => has_profile (v_user_id v) d) (vitals d) = true
  /\ forallb (fun l => has_profile (l_patient_id l) d
                       && has_profile (l_doctor_id l) d)
       (doctor_patient_links d) = true.
Proof.
  unfold references_ok, links_refer. rewrite !andb_true_iff. tauto.
Qed.

(** Rows that referred to profiles still do when no profile is removed. *)
Lemma forallb_mono {A} (f g : A -> bool) l :
  (forall x, f x = true -> g x = true) ->
  forallb f l = true -> forallb g l = true.
Proof.
  intros H. rewrite !forallb_forall. auto.
Qed.

Lemma forallb_replace {A} (f : A -> bool) (sel : A -> bool) (r : A) l :
  f r = true -> forallb f l = true ->
  forallb f (map (fun x => if sel x then r else x) l) = true.
Proof.
  intros Hr. rewrite !forallb_forall. intros H x Hx.
  apply in_map_iff in Hx as (y & <- & Hy). destruct (sel y); auto.
Qed.

Lemma forallb_snoc {A} (f : A -> bool) (r : A) l :
  f r = true -> forallb f l = true -> forallb f (l ++ [r]) = true.
Proof. intros Hr H. rewrite forallb_app, H. cbn. now rewrite Hr. Qed.

(** The tables other than [profiles] unchanged and no profile removed. *)
Lemma refs_kept_profiles d d' :
  (forall id, has_profile id d = true -> has_profile id d' = true) ->
  patient_profiles d' = patient_profiles d ->
  doctor_profiles d' = doctor_profiles d ->
  habits d' = habits d -> vitals d' = vitals d ->
  doctor_patient_links d' = doctor_patient_links d ->
  refs_kept d d'.
Proof.
  intros Hm Hp Hd Hh Hv Hl. unfold refs_kept.
  split; [exact Hm|]. split; [|split].
  - rewrite !references_ok_spec, Hp, Hd, Hh, Hv, Hl.
    intros (A1 & A2 & A3 & A4 & A5).
    repeat split; eapply forallb_mono; try eassumption; cbn; auto.
    intros x Hx. apply andb_true_iff in Hx as [X1 X2].
    apply andb_true_iff. auto.
  - intros id. unfold one_patient_row, patient_profiles_of. now rewrite Hp.
  - intros id. unfold one_doctor_row, doctor_profiles_of. now rewrite Hd.
Qed.

Lemma upsert_profile_refs id email name role d :
  refs_kept d (snd (upsert_profile id email name role d)).
Proof.
  unfold upsert_profile.
  destruct (match role with Some _ => _ | None => _ end);
    [|apply refs_kept_refl].
  destruct (negb _); [apply refs_kept_refl|].
  destruct (email_free id email d); [|apply refs_kept_refl].
  destruct (has_profile id d) eqn:Hh; cbn [snd];
    apply refs_kept_profiles; try reflexivity.
  - intros x Hx. unfold has_profile in *. cbn [profiles set_profiles].
    apply existsb_exists in Hx as (p & Hp & Hpx).
    apply existsb_exists. eexists. split; [apply in_map, Hp|].
    destruct (String.eqb (p_id p) id) eqn:E; [|exact Hpx]. cbn [p_id].
    apply String.eqb_eq in E, Hpx. apply String.eqb_eq. congruence.
  - intros x Hx. unfold has_profile in *. cbn [profiles set_profiles].
    rewrite existsb_app, Hx. reflexivity.
Qed.

Section Detail.
Context {A : Type} (key : A -> uuid).

Lemma rows_replace (row : A) l id :
  (List.length (filter (fun p => String.eqb (key p) id) l) <=? 1)%nat = true ->
  (List.length
     (filter (fun p => String.eqb (key p) id)
        (map (fun p => if String.eqb (key p) (key row) then row else p) l))
   <=? 1)%nat = true.
Proof.
  rewrite filter_map_commute_In.
  - now rewrite length_map.
  - intros x _. destruct (String.eqb (key x) (key row)) eqn:E; [|reflexivity].
    apply String.eqb_eq in E. now rewrite E.
Qed.

Lemma rows_append (row : A) l id :
  existsb (fun p => String.eqb (key p) (key row)) l = false ->
  (List.length (filter (fun p => String.eqb (key p) id) l) <=? 1)%nat = true ->
  (List.length (filter (fun p => String.eqb (key p) id) (l ++ [row]))
   <=? 1)%nat = true.
Proof.
  intros Hex H. rewrite filter_app. cbn [filter].
  destruct (String.eqb (key row) id) eqn:E.
  - apply String.eqb_eq in E. subst id.
    rewrite (existsb_filter_nil _ _ Hex). reflexivity.
  - now rewrite app_nil_r.
Qed.

End Detail.

Lemma upsert_patient_profile_refs row d :
  refs_kept d (snd (upsert_patient_profile row d)).
Proof.
  unfold upsert_patient_profile.
  destruct (negb _); [apply refs_kept_refl|].
  destruct (_ && _) eqn:Hc; [|apply refs_kept_refl].
  apply andb_true_iff in Hc as [Hh _].
  destruct (existsb _ _) eqn:Ex; cbn [snd]; unfold refs_kept;
    (split; [auto|]); (split; [|split]).
  - rewrite !references_ok_spec. intros (A1 & A2 & A3 & A4 & A5).
    repeat split; try assumption.
    now apply forallb_replace.
  - intros id. unfold one_patient_row, patient_profiles_of.
    apply (rows_replace pp_user_id).
  - auto.
  - rewrite !references_ok_spec. intros (A1 & A2 & A3 & A4 & A5).
    repeat split; try assumption.
    now apply forallb_snoc.
  - intros id. unfold one_patient_row, patient_profiles_of.
    now apply (rows_append pp_user_id).
  - auto.
Qed.

Lemma upsert_doctor_profile_refs row d :
  refs_kept d (snd (upsert_doctor_profile row d)).
Proof.
  unfold upsert_doctor_profile.
  destruct (negb _); [apply refs_kept_refl|].
  destruct (_ && _) eqn:Hc; [|apply refs_kept_refl].
  apply andb_true_iff in Hc as [Hc _].
  apply andb_true_iff in Hc as [Hc _].
  apply andb_true_iff in Hc as [Hh _].
  destruct (existsb _ _) eqn:Ex; cbn [snd]; unfold refs_kept;
    (split; [auto|]); (split; [|split]).
  - rewrite !references_ok_spec. intros (A1 & A2 & A3 & A4 & A5).
    repeat split; try assumption.
    now apply forallb_replace.
  - auto.
  - intros id. unfold one_doctor_row, doctor_profiles_of.
    apply (rows_replace dp_user_id).
  - rewrite !references_ok_spec. intros (A1 & A2 & A3 & A4 & A5).
    repeat split; try assumption.
    now apply forallb_snoc.
  - auto.
  - intros id. unfold one_doctor_row, doctor_profiles_of.
    now apply (rows_append dp_user_id).
Qed.

Section WithBackend.
Context {B : Backend}.

Lemma insert_habit_refs r d : refs_kept d (snd (insert_habit r d)).
Proof.
  unfold insert_habit. destruct (habit_of_row _ _) as [h|];
    [|apply refs_kept_refl].
  destruct (_ && _) eqn:Hc; [|apply refs_kept_refl].
  apply andb_true_iff in Hc as [Hh _]. cbn [snd]. unfold refs_kept.
  split; [auto|]. split; [|auto].
  rewrite !references_ok_spec. intros (A1 & A2 & A3 & A4 & A5).
  repeat split; try assumption. now apply forallb_snoc.
Qed.

Lemma update_habit_refs r id d : refs_kept d (snd (update_habit r id d)).
Proof.
  unfold update_habit. destruct (habit_of_row _ _) as [h|];
    [|apply refs_kept_refl].
  destruct (existsb _ _); [|apply refs_kept_refl].
  destruct (_ && _) eqn:Hc; [|apply refs_kept_refl].
  apply andb_true_iff in Hc as [Hh _]. cbn [snd]. unfold refs_kept.
  split; [auto|]. split; [|auto].
  rewrite !references_ok_spec. intros (A1 & A2 & A3 & A4 & A5).
  repeat split; try assumption.
  now apply (forallb_replace _ (fun x => h_id x =? id)).
Qed.

Lemma insert_vital_refs r d : refs_kept d (snd (insert_vital r d)).
Proof.
  unfold insert_vital. destruct (vital_of_row _ _) as [h|];
    [|apply refs_kept_refl].
  destruct (_ && _) eqn:Hc; [|apply refs_kept_refl].
  apply andb_true_iff in Hc as [Hh _]. cbn [snd]. unfold refs_kept.
  split; [auto|]. split; [|auto].
  rewrite !references_ok_spec. intros (A1 & A2 & A3 & A4 & A5).
  repeat split; try assumption. now apply forallb_snoc.
Qed.

Lemma update_vital_refs r id d : refs_kept d (snd (update_vital r id d)).
Proof.
  unfold update_vital. destruct (vital_of_row _ _) as [h|];
    [|apply refs_kept_refl].
  destruct (existsb _ _); [|apply refs_kept_refl].
  destruct (_ && _) eqn:Hc; [|apply refs_kept_refl].
  apply andb_true_iff in Hc as [Hh _]. cbn [snd]. unfold refs_kept.
  split; [auto|]. split; [|auto].
  rewrite !references_ok_spec. intros (A1 & A2 & A3 & A4 & A5).
  repeat split; try assumption.
  now apply (forallb_replace _ (fun x => v_id x =? id)).
Qed.

Lemma insert_link_refs p q d : refs_kept d (snd (insert_link p q d)).
Proof.
  unfold insert_link. destruct (_ && _) eqn:Hc; [|apply refs_kept_refl].
  apply andb_true_iff in Hc as [Hc _]. cbn [snd]. unfold refs_kept.
  split; [auto|]. split; [|auto].
  rewrite !references_ok_spec. intros (A1 & A2 & A3 & A4 & A5).
  repeat split; try assumption. now apply forallb_snoc.
Qed.

Lemma forallb_map_same {A} (f : A -> bool) (g : A -> A) l :
  (forall x, f (g x) = f x) ->
  forallb f l = true -> forallb f (map g l) = true.
Proof.
  intros Hg. rewrite !forallb_forall. intros H x Hx.
  apply in_map_iff in Hx as (y & <- & Hy). rewrite Hg. auto.
Qed.

Lemma update_patient_selected_refs id d :
  refs_kept d (snd (update_patient_selected id d)).
Proof.
  unfold update_patient_selected. cbn [snd]. unfold refs_kept.
  split; [auto|]. split; [|auto].
  rewrite !references_ok_spec. intros (A1 & A2 & A3 & A4 & A5).
  repeat split; try assumption.
  apply forallb_map_same; [|exact A5].
  intros x. now destruct (l_id x =? id).
Qed.

Lemma update_doctor_selected_refs id d :
  refs_kept d (snd (update_doctor_selected id d)).
Proof.
  unfold update_doctor_selected. cbn [snd]. unfold refs_kept.
  split; [auto|]. split; [|auto].
  rewrite !references_ok_spec. intros (A1 & A2 & A3 & A4 & A5).
  repeat split; try assumption.
  apply forallb_map_same; [|exact A5].
  intros x. now destruct (l_id x =? id).
Qed.

Ltac refs_write :=
  lazymatch goal with
  | |- refs_kept _ (snd (upsert_profile _ _ _ _ _)) => apply upsert_profile_refs
  | |- refs_kept _ (snd (upsert_patient_profile _ _)) =>
      apply upsert_patient_profile_refs
  | |- refs_kept _ (snd (upsert_doctor_profile _ _)) =>
      apply upsert_doctor_profile_refs
  | |- refs_kept _ (snd (insert_link _ _ _)) => apply insert_link_refs
  | |- refs_kept _ (snd (writing_uuid _ (insert_link _) _)) =>
      unfold writing_uuid; destruct (uuid_in _);
      [apply insert_link_refs|apply refs_kept_refl]
  | |- refs_kept _ (snd (update_patient_selected _ _)) =>
      apply update_patient_selected_refs
  | |- refs_kept _ (snd (update_doctor_selected _ _)) =>
      apply update_doctor_selected_refs
  | |- refs_kept _ (snd (insert_habit _ _)) => apply insert_habit_refs
  | |- refs_kept _ (snd (update_habit _ _ _)) => apply update_habit_refs
  | |- refs_kept _ (snd (insert_vital _ _)) => apply insert_vital_refs
  | |- refs_kept _ (snd (update_vital _ _ _)) => apply update_vital_refs
  | |- refs_kept _ _ => apply refs_kept_refl
  end.

Ltac refs_steps :=
  within_steps refs_kept_refl refs_kept_trans;
  try lazymatch goal with
      | |- steps_within _ (write _) =>
          apply (within_write _); intros; refs_write
      end.

Lemma getOrCreateLink_refs p q : steps_within refs_kept (getOrCreateLink p q).
Proof. unfold getOrCreateLink. refs_steps. Qed.

Lemma dispatch_refs user req b : steps_within refs_kept (dispatch user req b).
Proof.
  unfold dispatch, me, profile_get, profile_upsert, ensureProfile,
    habits_upsert, habits_fetch, vitals_upsert, vitals_fetch, doctors_list,
    link_select, link_list.
  repeat match goal with
         | |- steps_within _ (if ?x then _ else _) => destruct x
         end;
    refs_steps; try apply getOrCreateLink_refs; refs_steps.
Qed.

Lemma handler_refs req d : refs_kept d (snd (handler req d)).
Proof.
  unfold handler.
  destruct (String.eqb (method req) "OPTIONS"); [apply refs_kept_refl|].
  destruct (getAuthUser req); [|apply refs_kept_refl].
  apply (within_catch refs_kept). apply dispatch_refs.
Qed.

Lemma serve_refs reqs d : refs_kept d (snd (serve reqs d)).
Proof.
  revert d. induction reqs as [|r rest IH]; intros d; cbn [serve].
  - apply refs_kept_refl.
  - pose proof (handler_refs r d) as H1.
    destruct (handler r d) as [resp d1]. specialize (IH d1).
    destruct (serve rest d1) as [resps d2]. cbn [snd] in *.
    eapply refs_kept_trans; eassumption.
Qed.

(** X20. The constraints of [supabase.sql] outlive every request: if the
    database has its keys (one profile per account, one habits and one
    vitals row per account and day, one link per pair, one detail row per
    account) and its foreign keys (every detail row, daily row and link
    belongs to accounts with a profile), it has them after any list of
    requests, and no profile has been removed. *)
Theorem constraints_preserved (reqs : list request) (d : db) :
  schema_ok d = true -> references_ok d = true ->
  (forall id, one_patient_row id d = true /\ one_doctor_row id d = true) ->
  let d' := snd (serve reqs d) in
  schema_ok d' = true /\ references_ok d' = true /\
  (forall id, one_patient_row id d' = true /\ one_doctor_row id d' = true) /\
  (forall id, has_profile id d = true -> has_profile id d' = true).
Proof.
  intros Hok Href Hone d'.
  destruct (serve_refs reqs d) as (R1 & R2 & R3 & R4).
  split; [now apply serve_sound|]. split; [auto|]. split; [|exact R1].
  intros id. destruct (Hone id). auto.
Qed.

End WithBackend.
End References.

Module Methods.
Import PG Api Schema Conduct ListFacts KeyFacts AccessFacts HandlerFacts Steps
  SchemaFacts SelectFacts UpsertFacts AcceptFacts.

Section WithBackend.
Context {B : Backend}.

(** X21. The method is not checked, and a body is read only from a POST: a
    request for [habits.upsert] under any other method than POST and
    OPTIONS is carried out with an empty body.  For a caller with a
    profile it is answered 200 and leaves, for the server's current day, a
    row of zeros in the place of whatever the caller had recorded. *)
Theorem habits_upsert_without_post req user day d :
  schema_ok d = true ->
  calls req user "habits.upsert" ->
  String.eqb (method req) "POST" = false ->
  has_profile (au_id user) d = true ->
  date_in (JS.isoSlice (now req)) = Some day ->
  fst (handler req d) = json 200 Ok /\
  exists id,
    filter (habit_at (au_id user) day) (habits (snd (handler req d))) =
    [{| h_id := id; h_user_id := au_id user; h_date := day;
        h_steps := Some 0; h_water_cups := Some 0;
        h_sleep_hours := Some (S754_zero false) |}].
Proof.
  intros Hok Hc Hm Hh Hd.
  rewrite (handler_calls _ _ _ _ Hc), Hm.
  rewrite (dispatch_habits_upsert _ _ _ (proj2 (proj2 Hc))).
  assert (Hacc : fst (catch (habits_upsert user no_body (now req)) d)
                 = json 200 Ok)
    by (apply (habits_upsert_accepted user no_body (now req) day d);
        auto; reflexivity).
  split; [exact Hacc|].
  assert (H200 : status (fst (catch (habits_upsert user no_body (now req)) d))
                 = 200) by now rewrite Hacc.
  destruct (habits_upsert_step user no_body (now req) d Hok H200)
    as (day' & id & Hd' & Hrow & _).
  change (upsert_date no_body (now req)) with (JS.isoSlice (now req)) in Hd'.
  assert (day' = day) by congruence. subst day'.
  exists id. exact Hrow.
Qed.

End WithBackend.
End Methods.

Module Runs.
Import PG Api Schema Conduct Answers Credentials Edges Consent Handshake
  Selection Profiles Daily Numerals References Methods.

#[local] Existing Instance Sample.backend.

Lemma reads_change_nothing_witness :
  let req := Sample.get "t-dana" "habits.fetch" (Some Sample.alice_id)
               (Some "30") in
  writes (action req) = false /\
  snd (handler req Sample.tracked) = Sample.tracked.
Proof.
  intros req.
  assert (H : writes (action req) = false) by (vm_compute; reflexivity).
  split; [exact H|].
  exact (reads_change_nothing req Sample.tracked (or_intror (or_intror H))).
Defined.

Lemma bearer_prefix_optional_witness :
  let req1 := {| method := "GET"; authorization := Some "t-alice";
                 action := Some "me"; qp_user_id := None;
                 qp_rangeDays := None; req_body := no_body;
                 now := Sample.clock |} in
  let req2 := Sample.get "t-alice" "me" None None in
  JS.remove_first "Bearer " "t-alice" = "t-alice" /\
  JS.trim "t-alice" = "t-alice" /\
  authorization req1 = Some "t-alice" /\
  authorization req2 = Some ("Bearer " ++ "t-alice") /\
  getAuthUser req1 = getAuthUser req2 /\
  ("t-alice" <> "" -> getAuthUser req2 = auth_getUser "t-alice") /\
  ("t-alice" = "" -> getAuthUser req2 = None).
Proof.
  intros req1 req2.
  assert (H1 : JS.remove_first "Bearer " "t-alice" = "t-alice")
    by (vm_compute; reflexivity).
  assert (H2 : JS.trim "t-alice" = "t-alice") by (vm_compute; reflexivity).
  assert (H3 : authorization req1 = Some "t-alice") by reflexivity.
  assert (H4 : authorization req2 = Some ("Bearer " ++ "t-alice"))
    by reflexivity.
  repeat (split; [assumption|]).
  exact (bearer_prefix_optional req1 req2 "t-alice" H1 H2 H3 H4).
Defined.

Lemma fetch_range_overflow_witness :
  let req := Sample.get "t-alice" "habits.fetch" None (Some "200000001") in
  calls req Sample.alice "habits.fetch" /\
  status (fst (handler req Sample.tracked)) <> 403 /\
  JS.valid_time (now req) = true /\
  200000000 < fetch_rangeDays req /\
  handler req Sample.tracked = (json 500 (Failure RangeError), Sample.tracked).
Proof.
  intros req.
  assert (H1 : calls req Sample.alice "habits.fetch")
    by (repeat split; vm_compute; reflexivity).
  assert (H2 : status (fst (handler req Sample.tracked)) <> 403)
    by (vm_compute; discriminate).
  assert (H3 : JS.valid_time (now req) = true) by (vm_compute; reflexivity).
  assert (H4 : 200000000 < fetch_rangeDays req) by (vm_compute; reflexivity).
  repeat (split; [assumption|]).
  exact (fetch_range_overflow req Sample.alice "habits.fetch" Sample.tracked
           H1 (or_introl eq_refl) H2 H3 H4).
Defined.

Lemma doctors_list_members_witness :
  let req := Sample.get "t-alice" "doctors.list" None None in
  calls req Sample.alice "doctors.list" /\
  exists items,
    handler req Sample.registered =
      (json 200 (DoctorItems items), Sample.registered) /\
    forall id, In id (map di_id items) <->
      exists p, In p (profiles Sample.registered) /\ p_id p = id /\
                p_role p = Some doctor /\
                doctor_profiles_of id Sample.registered <> [].
Proof.
  intros req.
  assert (H1 : calls req Sample.alice "doctors.list")
    by (repeat split; vm_compute; reflexivity).
  split; [exact H1|].
  exact (doctors_list_members req Sample.alice Sample.registered H1).
Defined.

Lemma consent_by_own_party_witness :
  let req := Sample.post "t-dana" "link.select"
               (Sample.select_patient "alice@example.org") in
  let l' := {| l_id := 0; l_patient_id := Sample.alice_id;
               l_doctor_id := Sample.dana_id;
               l_patient_selected := false; l_doctor_selected := true |} in
  schema_ok Sample.registered = true /\
  getAuthUser req = Some Sample.dana /\
  nth_error (doctor_patient_links (snd (handler req Sample.registered))) 0
    = Some l' /\
  (l_patient_selected l' = true ->
   l_patient_id l' = au_id Sample.dana \/
   exists l, nth_error (doctor_patient_links Sample.registered) 0 = Some l /\
             l_patient_selected l = true) /\
  (l_doctor_selected l' = true ->
   l_doctor_id l' = au_id Sample.dana \/
   exists l, nth_error (doctor_patient_links Sample.registered) 0 = Some l /\
             l_doctor_selected l = true).
Proof.
  intros req l'.
  assert (H1 : schema_ok Sample.registered = true)
    by (vm_compute; reflexivity).
  assert (H2 : getAuthUser req = Some Sample.dana)
    by (vm_compute; reflexivity).
  assert (H3 : nth_error
                 (doctor_patient_links (snd (handler req Sample.registered)))
                 0 = Some l') by (vm_compute; reflexivity).
  repeat (split; [assumption|]).
  exact (consent_by_own_party req Sample.dana Sample.registered H1 H2 0%nat l'
           H3).
Defined.

Lemma links_stay_flagged_witness :
  let reqs := [Sample.post "t-bob" "link.select"
                 (Sample.select_doctor Sample.dana_id);
               Sample.get "t-dana" "link.list" None None;
               Sample.post "t-dana" "link.select"
                 (Sample.select_patient "bob@example.org")] in
  schema_ok Sample.linked = true /\
  forallb has_flag (doctor_patient_links Sample.linked) = true /\
  forallb has_flag (doctor_patient_links (snd (serve reqs Sample.linked)))
    = true.
Proof.
  intros reqs.
  assert (H1 : schema_ok Sample.linked = true) by (vm_compute; reflexivity).
  assert (H2 : forallb has_flag (doctor_patient_links Sample.linked) = true)
    by (vm_compute; reflexivity).
  repeat (split; [assumption|]).
  exact (links_stay_flagged reqs Sample.linked H1 H2).
Defined.

Lemma mutual_selection_opens_access_witness :
  let reqP := Sample.post "t-alice" "link.select"
                (Sample.select_doctor Sample.dana_id) in
  let reqD := Sample.post "t-dana" "link.select"
                (Sample.select_patient "alice@example.org") in
  let pp := {| p_id := Sample.alice_id; p_email := Some "alice@example.org";
               p_name := Some "Alice"; p_role := Some patient |} in
  let d2 := snd (serve [reqD; reqP] Sample.registered) in
  schema_ok Sample.registered = true /\
  is_patient Sample.registered Sample.alice_id /\
  is_doctor Sample.registered Sample.dana_id /\
  filter (patient_by_email "alice@example.org") (profiles Sample.registered)
    = [pp] /\
  posts reqP Sample.alice "link.select" (req_body reqP) /\
  posts reqD Sample.dana "link.select" (req_body reqD) /\
  map status (fst (serve [reqD; reqP] Sample.registered)) = [200; 200] /\
  mutual_link d2 Sample.alice_id Sample.dana_id /\
  forall freq act,
    calls freq Sample.dana act -> reads_account act ->
    qp_user_id freq = Some Sample.alice_id ->
    status (fst (handler freq d2)) <> 403.
Proof.
  intros reqP reqD pp d2.
  assert (H1 : schema_ok Sample.registered = true)
    by (vm_compute; reflexivity).
  assert (H2 : is_patient Sample.registered Sample.alice_id).
  { exists pp. split; [vm_compute; auto|split; reflexivity]. }
  assert (H3 : is_doctor Sample.registered Sample.dana_id).
  { exists {| p_id := Sample.dana_id; p_email := Some "dana@example.org";
              p_name := Some "Dana"; p_role := Some doctor |}.
    split; [vm_compute; auto|split; reflexivity]. }
  assert (H4 : filter (patient_by_email "alice@example.org")
                 (profiles Sample.registered) = [pp])
    by (vm_compute; reflexivity).
  assert (H5 : posts reqP Sample.alice "link.select" (req_body reqP))
    by (repeat split; vm_compute; reflexivity).
  assert (H6 : posts reqD Sample.dana "link.select" (req_body reqD))
    by (repeat split; vm_compute; reflexivity).
  repeat (split; [assumption|]).
  refine (mutual_selection_opens_access reqP reqD (req_body reqP)
            (req_body reqD) Sample.alice Sample.dana pp "alice@example.org"
            [reqD; reqP] Sample.registered H1 H2 H3 _ _ H4 eq_refl _ H5
            eq_refl H6 eq_refl (or_intror eq_refl)); discriminate.
Defined.

Lemma link_select_all_or_nothing_witness :
  let req := Sample.post "t-alice" "link.select"
               (Sample.select_doctor Sample.nobody_id) in
  action req = Some "link.select" /\
  status (fst (handler req Sample.registered)) <> 200 /\
  snd (handler req Sample.registered) = Sample.registered.
Proof.
  intros req.
  assert (H1 : action req = Some "link.select") by reflexivity.
  assert (H2 : status (fst (handler req Sample.registered)) <> 200)
    by (vm_compute; discriminate).
  repeat (split; [assumption|]).
  exact (link_select_all_or_nothing req Sample.registered H1 H2).
Defined.

Lemma link_select_outcome_witness :
  let req := Sample.post "t-alice" "link.select"
               (Sample.select_doctor Sample.dana_spelled) in
  let mine := {| p_id := Sample.alice_id;
                 p_email := Some "alice@example.org";
                 p_name := Some "Alice"; p_role := Some patient |} in
  schema_ok Sample.registered = true /\
  links_refer Sample.registered = true /\
  posts req Sample.alice "link.select" (req_body req) /\
  getProfile Sample.alice_id Sample.registered = Some mine /\
  p_role mine = Some patient /\
  has_profile_for Sample.dana_spelled Sample.registered = true /\
  status (fst (handler req Sample.registered)) = 200.
Proof.
  intros req mine.
  assert (H1 : schema_ok Sample.registered = true)
    by (vm_compute; reflexivity).
  assert (H2 : links_refer Sample.registered = true)
    by (vm_compute; reflexivity).
  assert (H3 : posts req Sample.alice "link.select" (req_body req))
    by (repeat split; vm_compute; reflexivity).
  assert (H4 : getProfile Sample.alice_id Sample.registered = Some mine)
    by (vm_compute; reflexivity).
  assert (H5 : p_role mine = Some patient) by reflexivity.
  assert (H6 : has_profile_for Sample.dana_spelled Sample.registered = true)
    by (vm_compute; reflexivity).
  repeat (split; [assumption|]).
  refine (eq_trans
            (proj1 (link_select_outcome req Sample.alice (req_body req) mine
                      Sample.registered H1 H2 H3 H4) H5 Sample.dana_spelled
               eq_refl _) _);
    [vm_compute; discriminate|vm_compute; reflexivity].
Defined.

Lemma doctor_list_is_readable_witness :
  let req := Sample.get "t-dana" "link.list" None None in
  schema_ok Sample.linked = true /\
  calls req Sample.dana "link.list" /\
  is_doctor Sample.linked Sample.dana_id /\
  exists items,
    fst (handler req Sample.linked) = json 200 (LinkedItems items) /\
    snd (handler req Sample.linked) = Sample.linked /\
    forall t,
      canDoctorView Sample.dana_id t Sample.linked = true <->
      exists pid, uuid_in t = Some pid /\ In pid (map li_id items).
Proof.
  intros req.
  assert (H1 : schema_ok Sample.linked = true) by (vm_compute; reflexivity).
  assert (H2 : calls req Sample.dana "link.list")
    by (repeat split; vm_compute; reflexivity).
  assert (H3 : is_doctor Sample.linked Sample.dana_id).
  { exists {| p_id := Sample.dana_id; p_email := Some "dana@example.org";
              p_name := Some "Dana"; p_role := Some doctor |}.
    split; [vm_compute; auto|split; reflexivity]. }
  repeat (split; [assumption|]).
  exact (doctor_list_is_readable req Sample.dana Sample.linked H1 H2 H3).
Defined.

Lemma profile_upsert_round_trip_witness :
  let req := Sample.post "t-bob" "profile.upsert"
               (Sample.with_role "doctor" "Dr Bob") in
  let req' := Sample.get "t-bob" "me" None None in
  let p := {| p_id := Sample.bob_id; p_email := Some "bob@example.org";
              p_name := Some "Dr Bob"; p_role := Some doctor |} in
  schema_ok Sample.registered = true /\
  posts req Sample.bob "profile.upsert" (req_body req) /\
  calls req' Sample.bob "me" /\
  status (fst (handler req Sample.registered)) = 200 /\
  fst (handler req Sample.registered) = json 200 (OkProfile (Some p)) /\
  fst (handler req' (snd (handler req Sample.registered)))
    = json 200 (Me (Some p)).
Proof.
  intros req req' p.
  assert (H1 : schema_ok Sample.registered = true)
    by (vm_compute; reflexivity).
  assert (H2 : posts req Sample.bob "profile.upsert" (req_body req))
    by (repeat split; vm_compute; reflexivity).
  assert (H3 : calls req' Sample.bob "me")
    by (repeat split; vm_compute; reflexivity).
  assert (H4 : status (fst (handler req Sample.registered)) = 200)
    by (vm_compute; reflexivity).
  repeat (split; [assumption|]).
  destruct (profile_upsert_round_trip req req' Sample.bob (req_body req)
              Sample.registered H1 H2 H3 H4)
    as (r & q & _ & _ & Ha & Hb & _).
  assert (Hq : q = p).
  { assert (E : fst (handler req Sample.registered)
                = json 200 (OkProfile (Some p))) by (vm_compute; reflexivity).
    rewrite E in Ha. now injection Ha as <-. }
  rewrite Hq in Ha, Hb. split; assumption.
Defined.

Lemma profile_upsert_failures_witness :
  let req := Sample.post "t-bob" "profile.upsert"
               (Conduct.details_body "Bob" (Conduct.details "99999999999")) in
  schema_ok Sample.registered = true /\
  posts req Sample.bob "profile.upsert" (req_body req) /\
  text_ok (Some "bob@example.org") && text_ok (Some "Bob") = true /\
  email_free Sample.bob_id (Some "bob@example.org") Sample.registered
    = true /\
  int4_opt (toInt (pa_age (patient_of (req_body req)))) = false /\
  fst (handler req Sample.registered) = json 500 (Failure PgError) /\
  getProfile Sample.bob_id (snd (handler req Sample.registered)) =
    Some (profile_written Sample.bob_id (Some "bob@example.org") (Some "Bob")
            (Some patient) (getProfile Sample.bob_id Sample.registered)).
Proof.
  intros req.
  assert (H1 : schema_ok Sample.registered = true)
    by (vm_compute; reflexivity).
  assert (H2 : posts req Sample.bob "profile.upsert" (req_body req))
    by (repeat split; vm_compute; reflexivity).
  assert (Ht : text_ok (Some "bob@example.org") && text_ok (Some "Bob")
               = true) by (vm_compute; reflexivity).
  assert (H3 : email_free Sample.bob_id (Some "bob@example.org")
                 Sample.registered = true) by (vm_compute; reflexivity).
  assert (H4 : int4_opt (toInt (pa_age (patient_of (req_body req)))) = false)
    by (vm_compute; reflexivity).
  repeat (split; [assumption|]).
  exact (proj2 (profile_upsert_failures req Sample.bob (req_body req)
                  Sample.registered H1 H2) eq_refl Ht H3 H4).
Defined.

Lemma patient_details_round_trip_witness :
  let req := Sample.post "t-alice" "profile.upsert"
               (Conduct.details_body "Alice A" (Conduct.details "34.5")) in
  let req' := Sample.get "t-alice" "profile.get" (Some Sample.alice_id) None in
  schema_ok Sample.registered = true /\
  one_patient_row Sample.alice_id Sample.registered = true /\
  posts req Sample.alice "profile.upsert" (req_body req) /\
  calls req' Sample.alice "profile.get" /\
  status (fst (handler req Sample.registered)) = 200 /\
  fst (handler req' (snd (handler req Sample.registered))) =
  json 200
    (ProfilePatient
       (profile_written Sample.alice_id (Some "alice@example.org")
          (Some "Alice A") (Some patient)
          (getProfile Sample.alice_id Sample.registered))
       (Some (patient_row Sample.alice_id (Conduct.details "34.5")))).
Proof.
  intros req req'.
  assert (H1 : schema_ok Sample.registered = true)
    by (vm_compute; reflexivity).
  assert (H2 : one_patient_row Sample.alice_id Sample.registered = true)
    by (vm_compute; reflexivity).
  assert (H3 : posts req Sample.alice "profile.upsert" (req_body req))
    by (repeat split; vm_compute; reflexivity).
  assert (H4 : calls req' Sample.alice "profile.get")
    by (repeat split; vm_compute; reflexivity).
  assert (H5 : status (fst (handler req Sample.registered)) = 200)
    by (vm_compute; reflexivity).
  repeat (split; [assumption|]).
  refine (patient_details_round_trip req req' Sample.alice (req_body req)
            Sample.registered H1 H2 H3 eq_refl H4 eq_refl _ H5).
  discriminate.
Defined.

Lemma habits_upsert_accepts_witness :
  let req := Sample.post "t-alice" "habits.upsert"
               (Sample.habits_body (Some "2024-01-01") (Some "3000000000")
                  (Some "6") (Some "7.5")) in
  schema_ok Sample.registered = true /\
  posts req Sample.alice "habits.upsert" (req_body req) /\
  habits_fit Sample.alice (req_body req) (now req) Sample.registered = false /\
  handler req Sample.registered =
    (json 500 (Failure PgError), Sample.registered).
Proof.
  intros req.
  assert (H1 : schema_ok Sample.registered = true)
    by (vm_compute; reflexivity).
  assert (H2 : posts req Sample.alice "habits.upsert" (req_body req))
    by (repeat split; vm_compute; reflexivity).
  assert (H3 : habits_fit Sample.alice (req_body req) (now req)
                 Sample.registered = false) by (vm_compute; reflexivity).
  repeat (split; [assumption|]).
  exact (proj1 (proj2 (habits_upsert_accepts req Sample.alice (req_body req)
                         Sample.registered H1 H2)) H3).
Defined.

Lemma vitals_upsert_accepts_witness :
  let req := Sample.post "t-alice" "vitals.upsert"
               (Sample.vitals_body (Some "2024-01-02") None (Some "120")
                  (Some "80") None (Some "36.6")) in
  schema_ok Sample.registered = true /\
  posts req Sample.alice "vitals.upsert" (req_body req) /\
  vitals_fit Sample.alice (req_body req) (now req) Sample.registered = true /\
  fst (handler req Sample.registered) = json 200 Ok.
Proof.
  intros req.
  assert (H1 : schema_ok Sample.registered = true)
    by (vm_compute; reflexivity).
  assert (H2 : posts req Sample.alice "vitals.upsert" (req_body req))
    by (repeat split; vm_compute; reflexivity).
  assert (H3 : vitals_fit Sample.alice (req_body req) (now req)
                 Sample.registered = true) by (vm_compute; reflexivity).
  repeat (split; [assumption|]).
  exact (proj1 (vitals_upsert_accepts req Sample.alice (req_body req)
                  Sample.registered H1 H2) H3).
Defined.

Lemma habits_upsert_frame_witness :
  let req := Sample.post "t-alice" "habits.upsert"
               (Sample.habits_body (Some "2024-01-01") (Some "9000")
                  (Some "8") (Some "6")) in
  let d' := snd (handler req Sample.tracked) in
  schema_ok Sample.tracked = true /\
  posts req Sample.alice "habits.upsert" (req_body req) /\
  date_in (upsert_date (req_body req) (now req)) = Some 19723 /\
  habits d' <> habits Sample.tracked /\
  profiles d' = profiles Sample.tracked /\
  patient_profiles d' = patient_profiles Sample.tracked /\
  doctor_profiles d' = doctor_profiles Sample.tracked /\
  vitals d' = vitals Sample.tracked /\
  doctor_patient_links d' = doctor_patient_links Sample.tracked /\
  filter (fun h => negb (habit_at Sample.alice_id 19723 h)) (habits d') =
  filter (fun h => negb (habit_at Sample.alice_id 19723 h))
    (habits Sample.tracked).
Proof.
  intros req d'.
  assert (H1 : schema_ok Sample.tracked = true) by (vm_compute; reflexivity).
  assert (H2 : posts req Sample.alice "habits.upsert" (req_body req))
    by (repeat split; vm_compute; reflexivity).
  assert (H3 : date_in (upsert_date (req_body req) (now req)) = Some 19723)
    by (vm_compute; reflexivity).
  repeat (split; [assumption|]).
  split; [vm_compute; discriminate|].
  exact (habits_upsert_frame req Sample.alice (req_body req) 19723
           Sample.tracked H1 H2 H3).
Defined.

Lemma vitals_upsert_frame_witness :
  let req := Sample.post "t-bob" "vitals.upsert"
               (Sample.vitals_body (Some "2024-01-02") (Some "101") None
                  None (Some "70") None) in
  let d' := snd (handler req Sample.measured) in
  schema_ok Sample.measured = true /\
  posts req Sample.bob "vitals.upsert" (req_body req) /\
  date_in (upsert_date (req_body req) (now req)) = Some 19724 /\
  vitals d' <> vitals Sample.measured /\
  profiles d' = profiles Sample.measured /\
  patient_profiles d' = patient_profiles Sample.measured /\
  doctor_profiles d' = doctor_profiles Sample.measured /\
  habits d' = habits Sample.measured /\
  doctor_patient_links d' = doctor_patient_links Sample.measured /\
  filter (fun v => negb (vital_at Sample.bob_id 19724 v)) (vitals d') =
  filter (fun v => negb (vital_at Sample.bob_id 19724 v))
    (vitals Sample.measured).
Proof.
  intros req d'.
  assert (H1 : schema_ok Sample.measured = true)
    by (vm_compute; reflexivity).
  assert (H2 : posts req Sample.bob "vitals.upsert" (req_body req))
    by (repeat split; vm_compute; reflexivity).
  assert (H3 : date_in (upsert_date (req_body req) (now req)) = Some 19724)
    by (vm_compute; reflexivity).
  repeat (split; [assumption|]).
  split; [vm_compute; discriminate|].
  exact (vitals_upsert_frame req Sample.bob (req_body req) 19724
           Sample.measured H1 H2 H3).
Defined.

Lemma toInt_leading_digits_witness :
  "12" <> "" /\ all_digits "12" = true /\ no_digit_ahead ".7 km" = true /\
  toInt (Some "12") = Some 12 /\
  toInt (Some ("12" ++ ".7 km")) = toInt (Some "12").
Proof.
  assert (H1 : "12" <> "") by discriminate.
  assert (H2 : all_digits "12" = true) by reflexivity.
  assert (H3 : no_digit_ahead ".7 km" = true) by reflexivity.
  repeat (split; [assumption|]).
  split; [vm_compute; reflexivity|].
  exact (toInt_leading_digits "12" ".7 km" H1 H2 H3).
Defined.

Lemma constraints_preserved_witness :
  let reqs := [Sample.post "t-alice" "profile.upsert"
                 (Conduct.details_body "Alice" (Conduct.details "34"));
               Sample.post "t-dana" "profile.upsert"
                 (Sample.with_role "doctor" "Dana");
               Sample.post "t-alice" "link.select"
                 (Sample.select_doctor Sample.dana_id);
               Sample.post "t-alice" "habits.upsert"
                 (Sample.habits_body None (Some "5000") None None)] in
  let d' := snd (serve reqs empty) in
  schema_ok empty = true /\ references_ok empty = true /\
  List.length (doctor_patient_links d') = 1%nat /\
  schema_ok d' = true /\ references_ok d' = true /\
  one_patient_row Sample.alice_id d' = true /\
  one_doctor_row Sample.dana_id d' = true.
Proof.
  intros reqs d'.
  assert (H1 : schema_ok empty = true) by reflexivity.
  assert (H2 : references_ok empty = true) by reflexivity.
  assert (H3 : forall id, one_patient_row id empty = true /\
                          one_doctor_row id empty = true)
    by (intros id; split; reflexivity).
  repeat (split; [assumption|]).
  split; [vm_compute; reflexivity|].
  destruct (constraints_preserved reqs empty H1 H2 H3) as (A & C & D & _).
  split; [exact A|]. split; [exact C|].
  split; [exact (proj1 (D Sample.alice_id))|exact (proj2 (D Sample.dana_id))].
Defined.

Lemma habits_upsert_without_post_witness :
  let req := Sample.get "t-alice" "habits.upsert" None None in
  schema_ok Sample.tracked = true /\
  calls req Sample.alice "habits.upsert" /\
  String.eqb (method req) "POST" = false /\
  has_profile Sample.alice_id Sample.tracked = true /\
  date_in (JS.isoSlice (now req)) = Some 19727 /\
  fst (handler req Sample.tracked) = json 200 Ok /\
  exists id,
    filter (habit_at Sample.alice_id 19727)
      (habits (snd (handler req Sample.tracked)))
    = [{| h_id := id; h_user_id := Sample.alice_id; h_date := 19727;
          h_steps := Some 0; h_water_cups := Some 0;
          h_sleep_hours := Some (S754_zero false) |}].
Proof.
  intros req.
  assert (H1 : schema_ok Sample.tracked = true) by (vm_compute; reflexivity).
  assert (H2 : calls req Sample.alice "habits.upsert")
    by (repeat split; vm_compute; reflexivity).
  assert (H3 : String.eqb (method req) "POST" = false)
    by (vm_compute; reflexivity).
  assert (H4 : has_profile Sample.alice_id Sample.tracked = true)
    by (vm_compute; reflexivity).
  assert (H5 : date_in (JS.isoSlice (now req)) = Some 19727)
    by (vm_compute; reflexivity).
  repeat (split; [assumption|]).
  exact (habits_upsert_without_post req Sample.alice 19727 Sample.tracked
           H1 H2 H3 H4 H5).
Defined.

End Runs.
